(* ===== verification/_CoqProject ===== *)
-Q . S2P
Prelude.v
PyBuiltins.v
PyFloat.v
FloatSyntax.v
Coords.v
Json.v
PyFormat.v
Phases.v
Mapper.v
Render.v
Client.v
Main.v
