(* ===== verification/Prelude.v ===== *)
(** * croon: a verification development for the terminal almanac display

    The program (src/main.py, 238 lines of Python) reads a coordinate from
    the command line, asks a web service for the day's solar and lunar
    events and for the coming moon phases, flattens the two JSON answers
    into one record, picks one of eight blocks of ASCII art by the name of
    the current phase, and paints art and text side by side. It is one
    linear run; every failure ends the process.

    ** The files, and the code each one models

    - [Prelude] (this file): the effects of the interpreter that the source
      relies on, as the monad [Py]. A run is the list of things done to
      the outside ([out_event]: [print], rich's [rprint], the layout, the
      requests sent) and an [outcome]: a returned value or a raised exception ([pyexc]).
      [exit(n)] raises [SystemExit n], which [except Exception] does not
      catch; [py_try] is try/except with a test on the exception;
      [py_for] is a for loop threading the variables it assigns;
      [exit_status] is the status the process ends with (0, the argument
      of [exit], or 1 for an exception nobody caught). The laws of the
      monad, the footprint predicates [tame] (prints nothing, raises only
      exceptions of a list) and [confined] (every event is of a given
      kind, every exit has one of the given codes) and the tactics
      [py_simpl], [solve_tame], [solve_confined] and [by_compute] are
      here, with the hint database [py].
    - [PyBuiltins]: the list and string built-ins the source calls:
      [list_in] ([x in l]), [list_index] ([l.index(x)], ValueError),
      [list_getitem] ([l[i]], IndexError), [unpack2] ([(a, b) = l],
      ValueError), [str_split] and [str_join]. [str_split] scans from the
      left and skips each match, so matches do not overlap, as
      [str.split] does; it is defined by structural recursion with a
      counter of characters to skip, so no fuel is needed.
    - [PyFloat]: floats. A [pyfloat] is a rational ([Fin q]) or [PosInf],
      [NegInf], [NaN]; [float_gt], [float_lt] and [float_mod] are [>], [<]
      and [%] with Python's results on the special values. [float_mod]
      takes the divisor as a rational: the divisors of the source are the
      literals 90.0, -90.0, 180.0 and -180.0. The type classes
      [FloatParser] and [FloatPrinter] are the interfaces for [float(s)]
      and for the text of a float in an f-string.
    - [FloatSyntax]: an instance of [FloatParser], the grammar of
      [float(s)] on ASCII text (sign, digits with single underscores
      between digits, fraction, exponent, inf/infinity/nan in any case,
      surrounding white space), giving the exact rational the text
      denotes.
    - [Coords]: [wrap_coords] (lines 93-106) and [get_coord_args] (lines
      72-90, with [coords_of_arg] for lines 79-90), stated against the
      interface [FloatParser]; their witnesses run with [FloatSyntax].
    - [Json]: the values [json.loads] returns ([json]; a dict is a
      [gmap string json]) and the operations the source applies to them,
      each raising what Python raises on a value of another type:
      [getitem_str] ([v["k"]]), [getitem_0] ([v[0]]), [py_iter]
      ([for item in v]), [eq_str] ([v == "..."]), [in_strs], [index_strs].
    - [Phases]: [phase_to_index] (lines 124-143) on any JSON value, and
      [get_moon_phases_art] (lines 114-121) as a function of the content
      of phases.txt ([None] when it cannot be opened). The inductive type
      [phase] with [phase_name], [phase_index] and [phase_of_name] is the
      specification [phase_to_index] is shown to implement.
    - [Mapper]: [format_moon_data] (lines 196-235). The guarded block is
      [scan_transits] (lines 198-215: the two loops, with bodies
      [sun_step] and [moon_step] written as the if/elif chains of the
      source) followed by [build_out_data] (lines 217-228: the entries of
      the dict in evaluation order). The local variables the loops assign
      are a finite map from names to values, so that a variable no
      iteration assigned is unbound when [build_out_data] reads it
      ([load_local], UnboundLocalError). [scan_step], [sun_table],
      [moon_table], [assign_events] and [last_time] are the reference the
      loops are compared with.

    - [PyFormat]: the text of values in f-strings: [int_str] for an int,
      the interface [JsonPrinter] for a value of a response (its law: a
      string is inserted as it stands) and the interface [RichMarkup] for
      rich's [escape]; with instances [decimal_printer] (the digits of a
      decimal rational), [json_show_printer] and [rich_escape], which the
      witnesses run with.
    - [Render]: the text of the right pane assembled in [main]
      ([display_lines] and [text_to_display], lines 44-60: the five
      subscripts of [data['next_phase']] in the order the f-string
      evaluates them) and [print_rich_console] (lines 181-193), which
      emits the one [OutLayout] with the sizes the source sets.
    - [Client]: [send_request_moonsun_oneday] (lines 146-162) and
      [send_request_moonphases] (lines 165-178) over a service [http], a
      function from the URL and the query parameters to a [response], or
      to nothing when [requests.get] raises. Sending is the event
      [OutGet]; [json.loads] is the interface [JsonLoader].
    - [Main]: [print_usage_msg] (lines 109-111) and [main] (lines 20-69)
      over a [world]: the arguments, the terminal size, the date, the
      service and the content of the art file. [compose], [pipeline] and
      [prepare] name the parts of [main] (lines 37-65, 26-65 and 22-65)
      that its theorems are proved through; [main_prepare] shows [main]
      is their sequence. [requests] and [expected_requests] are the
      requests a run is expected to send, and [describes] (in [Mapper])
      is the specification of the record: they are what the theorems
      compare the code with, not translations of code.

    ** What the theorems show

    - Normaliser: the result is in range for finite inputs; above and
      below the bounds it is the signed remainder the source computes;
      values in range are fixed; the function is idempotent, respects
      equality of values and moves a value by whole multiples of the
      bound. Two theorems record what the rule does not do: it does not
      bring NaN or infinities in range, whatever the other coordinate
      is, and above 180 it wraps the longitude with period 180: adding
      half turns to a longitude does not change the result, although
      an odd number of them names another meridian ([same_meridian]),
      so that 370 and 190 degrees coincide.
    - Command line: the default, the accepted form, the reported bad
      float, the two exceptions that escape (IndexError, ValueError), and
      that these are all the ways [get_coord_args] can end.
    - Selector and loader: [phase_to_index] refines the enumeration, is
      total with results below 8, is injective on the canonical names and
      degrades to 0 with a notice; the loader accepts exactly the files
      with eight blocks and returns blocks that join back to the file;
      together they make the subscript of line 65 safe.
    - Mapper: on well-formed responses the record holds the time of the
      last event of each phenomenon; a missing phenomenon raises
      UnboundLocalError past the handler; a missing field is reported by
      the handler; malformed items and an empty phase list raise TypeError
      and IndexError past it; the loops bind only their own variables; the
      if/elif chains equal the table lookup; and the outcomes listed are
      all there are.
    - Built-ins: [index] finds the first occurrence; the pieces of a
      split join back to the string, which the theorem on the loader
      uses.
    - Text: for a record whose next phase has its five fields the text is
      the eleven labelled lines in the order of the source, with the
      current phase on the third; a missing field raises KeyError.
    - Program: a run in which every step succeeds sends the two requests
      in order and paints the layout once, 30 columns of art beside the
      text, 14 rows high; with a help flag the usage is printed and
      nothing else happens; the exit status is 0 for help or a completed
      run and 1 otherwise; the layout is painted exactly in the runs that
      return, as their last event; in every run the requests sent are
      a prefix of the two expected ([expected_requests]: none with a
      help flag or without coordinates), so each is sent at most once
      and the second only after the first was answered; a
      status other than 200 is reported and ends the run with status 1;
      a document without "properties" ends it in an unreported KeyError.
      The scenario of the specification ([-c 42.1,-75.9], current phase
      "First Quarter") is the witness [main_runs_witness].

    ** Modelling choices and their limits

    - Floats are exact rationals; rounding to binary64 and the sign of
      zero are not modelled. For [wrap_coords] this loses nothing on the
      arithmetic: a binary64 above 90 is a multiple of 2^-46, so is its
      remainder by 90, and every multiple of 2^-46 below 128 in magnitude
      is a binary64, so the addition inside [%] is exact (likewise with
      2^-45 and 256 for the longitude). What is lost is the rounding of
      [float(s)] itself, which the theorems about [get_coord_args] avoid
      by being stated for any [FloatParser]; [FloatSyntax] overflows to no
      infinity and reads ASCII only.
    - Strings are sequences of bytes; the program only compares them with
      ASCII literals and splits them at ASCII separators.
    - A dict is a finite map, so the order of its keys is not that of the
      JSON text; the program never depends on it (iterating over a dict
      where a list was expected raises TypeError at its first key).
    - No definition of the program's functions uses fuel: each is
      structurally recursive, so every theorem about a result is about a
      result the definition does produce. The one bound is in the printer
      [decimal_printer], which writes at most 17 digits of a fraction,
      the number of significant digits [repr] can need; the theorems are
      stated for any printer.

    ** Not modelled

    The HTTP exchange, the parsing of JSON text and the painting of the
    layout are the libraries requests, json and rich, which the source
    only calls: they appear as the function [http] of a [world], the
    interface [JsonLoader] and the event [OutLayout]. The rounding of
    binary64 arithmetic and the shortest-digits rule of [repr] on floats
    are not modelled (see above). The unused imports, the assignment
    [data = {}] of line 41, which is overwritten at once, and the dict
    [params] of lines 149-153, which is built and never passed to
    [requests.get], have no effect on a run; of these only [params]
    appears in the model. *)

From stdpp Require Import base tactics option list strings.
From Stdlib Require Import ZArith.

(** ** Python exceptions raised by the program

    [SystemExit] is what [exit(n)] raises; it is not an [Exception], so an
    [except Exception] clause lets it through. *)
Inductive pyexc : Type :=
| KeyError
| IndexError
| TypeError
| ValueError
| UnboundLocalError
| OSError
| SystemExit (code : Z).

#[export] Instance pyexc_eq_dec : EqDecision pyexc.
Proof. solve_decision. Defined.

(** What the process does to the outside, in order: [print], rich's
    [rprint] (the markup string as the source passes it), the one layout
    painted by [console.print], and the GET requests it sends (the URL and
    the query parameters handed to [requests.get]). *)
Inductive out_event : Type :=
| OutPrint (s : string)
| OutRich (markup : string)
| OutLayout (left right : string) (left_size right_size height : Z)
| OutGet (url : string) (params : list (string * string)).

#[export] Instance out_event_eq_dec : EqDecision out_event.
Proof. solve_decision. Defined.

Inductive outcome (A : Type) : Type :=
| Return (a : A)
| Raise (e : pyexc).
Arguments Return {A} a.
Arguments Raise {A} e.

(** A run of a piece of the program: the terminal output it produced and how
    it ended. *)
Record Py (A : Type) : Type := Run { output : list out_event; result : outcome A }.
Arguments Run {A} output result.
Arguments output {A} p.
Arguments result {A} p.

#[export] Instance Py_ret : MRet Py := λ A a, Run [] (Return a).

#[export] Instance Py_bind : MBind Py := λ A B f m,
  match result m with
  | Return a => let r := f a in Run (output m ++ output r) (result r)
  | Raise e => Run (output m) (Raise e)
  end.

#[export] Instance Py_fmap : FMap Py := λ A B f m, m ≫= λ a, mret (f a).

#[export] Instance Py_throw : MThrow pyexc Py := λ A e, Run [] (Raise e).

(** [exit(code)] *)
Definition py_exit {A} (code : Z) : Py A := mthrow (SystemExit code).

(** [print(s)] and [rprint(markup)] *)
Definition py_print (s : string) : Py unit := Run [OutPrint s] (Return tt).
Definition rprint (markup : string) : Py unit := Run [OutRich markup] (Return tt).

(** [try: m except <catches>: handler] *)
Definition py_try {A} (m : Py A) (catches : pyexc → bool) (handler : Py A) : Py A :=
  match result m with
  | Return _ => m
  | Raise e =>
      if catches e then Run (output m ++ output handler) (result handler) else m
  end.

(** [except Exception] and [except KeyError] *)
Definition is_Exception (e : pyexc) : bool :=
  match e with SystemExit _ => false | _ => true end.
Definition is_KeyError (e : pyexc) : bool := bool_decide (e = KeyError).

(** [for x in l: s = body(s, x)], the loop state threaded through the body. *)
Fixpoint py_for {S X} (body : S → X → Py S) (l : list X) (s : S) : Py S :=
  match l with
  | [] => mret s
  | x :: l' => s' ← body s x; py_for body l' s'
  end.

(** The status the interpreter exits with: 0 when the program runs to its
    end, the argument of [exit], and 1 for an exception nobody caught. *)
Definition exit_status {A} (p : Py A) : Z :=
  match result p with
  | Return _ => 0
  | Raise (SystemExit n) => n
  | Raise _ => 1
  end.

Definition returns {A} (p : Py A) (a : A) : Prop := result p = Return a.
Definition raises {A} (p : Py A) (e : pyexc) : Prop := result p = Raise e.
Definition silent {A} (p : Py A) : Prop := output p = [].

#[export] Instance returns_dec `{EqDecision A} (p : Py A) a : Decision (returns p a).
Proof. unfold returns. solve_decision. Defined.
#[export] Instance raises_dec {A} (p : Py A) e : Decision (raises p e).
Proof.
  unfold raises. destruct (result p) as [a|e'].
  - right; discriminate.
  - destruct (decide (e' = e)) as [->|Hne]; [left; reflexivity | right; congruence].
Defined.

(** ** Footprints

    [tame E p]: the run printed nothing and, if it raised, raised one of
    [E]. *)
Definition tame {A} (E : list pyexc) (p : Py A) : Prop :=
  silent p ∧ ∀ e, raises p e → e ∈ E.

(** The kinds of events: lines of text, requests, the layout. *)
Definition is_message (ev : out_event) : bool :=
  match ev with OutPrint _ | OutRich _ => true | _ => false end.
Definition is_get (ev : out_event) : bool :=
  match ev with OutGet _ _ => true | _ => false end.
Definition is_layout (ev : out_event) : bool :=
  match ev with OutLayout _ _ _ _ _ => true | _ => false end.

(** The exceptions that are [Exception]s. *)
Definition errors : list pyexc :=
  [KeyError; IndexError; TypeError; ValueError; UnboundLocalError; OSError].

(** [confined P C p]: every event of the run satisfies [P], and if the run
    ends in [exit(n)] then [n] is one of [C]. *)
Definition confined {A} (P : out_event → Prop) (C : list Z) (p : Py A) : Prop :=
  Forall P (output p) ∧ ∀ n, raises p (SystemExit n) → n ∈ C.

(** ** Laws of the monad *)
Section laws.
Context {A B C : Type}.
Implicit Types (m : Py A) (f : A → Py B) (g : B → Py C).

Lemma Py_eta m : Run (output m) (result m) = m.
Proof. by destruct m. Qed.

Lemma Py_bind_ret_l (a : A) f : mret a ≫= f = f a.
Proof. unfold mbind, Py_bind; simpl. by destruct (f a). Qed.

Lemma Py_bind_ret_r m : m ≫= mret = m.
Proof.
  destruct m as [o [a|e]]; unfold mbind, Py_bind; simpl; [|done].
  by rewrite app_nil_r.
Qed.

Lemma Py_bind_assoc m f g : (m ≫= f) ≫= g = m ≫= (λ a, f a ≫= g).
Proof.
  destruct m as [o [a|e]]; unfold mbind, Py_bind; simpl; [|done].
  destruct (f a) as [o' [b|e']]; simpl; [|done].
  destruct (g b) as [o'' r'']; simpl. by rewrite app_assoc.
Qed.

Lemma Py_bind_ext m f f' : (∀ a, f a = f' a) → m ≫= f = m ≫= f'.
Proof.
  intros Hf. destruct m as [o [a|e]]; unfold mbind, Py_bind; simpl; [|done].
  by rewrite Hf.
Qed.

Lemma Py_bind_raise (e : pyexc) f : mthrow e ≫= f = mthrow e.
Proof. done. Qed.

Lemma Py_bind_Run_Return o (a : A) f :
  Run o (Return a) ≫= f = Run (o ++ output (f a)) (result (f a)).
Proof. done. Qed.

Lemma Py_bind_Run_Raise o (e : pyexc) f : Run o (Raise e) ≫= f = Run o (Raise e).
Proof. done. Qed.

(** What a sequence prints: what its first part prints, then what the rest
    prints when the first part returns. *)
Lemma output_bind m f :
  output (m ≫= f) =
    output m ++ match result m with Return a => output (f a) | Raise _ => [] end.
Proof. destruct m as [o [a|e]]; unfold mbind, Py_bind; simpl; [done|by rewrite app_nil_r]. Qed.

Lemma result_bind m f :
  result (m ≫= f) = match result m with Return a => result (f a) | Raise e => Raise e end.
Proof. by destruct m as [o [a|e]]. Qed.

(** A sequence returns exactly when both of its parts do. *)
Lemma returns_bind m f b :
  returns (m ≫= f) b ↔ ∃ a, returns m a ∧ returns (f a) b.
Proof.
  unfold returns. destruct m as [o [a|e]]; unfold mbind, Py_bind; simpl.
  - split; [eauto | by intros (a' & [= <-] & ?)].
  - split; [done | by intros (a' & ? & _)].
Qed.

(** A sequence raises when its first part does, or when the first part
    returns and the rest raises. *)
Lemma raises_bind m f e :
  raises (m ≫= f) e ↔ raises m e ∨ ∃ a, returns m a ∧ raises (f a) e.
Proof.
  unfold raises, returns. destruct m as [o [a|e']]; unfold mbind, Py_bind; simpl.
  - split; [eauto | by intros [?|(a' & [= <-] & ?)]].
  - split; [intros [= ->]; by left | by intros [[= ->]|(a' & ? & _)]].
Qed.

Lemma silent_bind m f a :
  silent m → returns m a → silent (f a) → silent (m ≫= f).
Proof.
  unfold silent, returns. destruct m as [o r]; simpl; intros -> -> Hf.
  unfold mbind, Py_bind; simpl. exact Hf.
Qed.

End laws.

Section try_laws.
Context {A : Type}.
Implicit Types (m h : Py A) (c : pyexc → bool).

Lemma py_try_ret (a : A) c h : py_try (mret a) c h = mret a.
Proof. done. Qed.

Lemma py_try_throw_caught e c h : c e = true → py_try (mthrow e) c h = h.
Proof. unfold py_try; simpl. intros ->. apply Py_eta. Qed.

Lemma py_try_throw_uncaught e c h : c e = false → py_try (mthrow e) c h = mthrow e.
Proof. unfold py_try; simpl. by intros ->. Qed.

Lemma py_try_Return o (a : A) c h : py_try (Run o (Return a)) c h = Run o (Return a).
Proof. done. Qed.

Lemma py_try_caught o e c h :
  c e = true → py_try (Run o (Raise e)) c h = Run (o ++ output h) (result h).
Proof. unfold py_try; simpl. by intros ->. Qed.

Lemma py_try_uncaught o e c h :
  c e = false → py_try (Run o (Raise e)) c h = Run o (Raise e).
Proof. unfold py_try; simpl. by intros ->. Qed.

(** A handler that ends in [exit] never lets the guarded block's caught
    exceptions out: what escapes is a return, the handler's exit, or an
    exception the clause does not name. *)
Lemma py_try_outcome m c h :
  result (py_try m c h) = match result m with
                          | Return a => Return a
                          | Raise e => if c e then result h else Raise e
                          end.
Proof. destruct m as [o [a|e]]; unfold py_try; simpl; [done|]. by destruct (c e). Qed.

End try_laws.

Lemma exit_status_Return {A} o (a : A) : exit_status (Run o (Return a)) = 0%Z.
Proof. done. Qed.

Lemma exit_status_exit {A} o n : exit_status (Run (A:=A) o (Raise (SystemExit n))) = n.
Proof. done. Qed.

Lemma exit_status_uncaught {A} o e :
  is_Exception e = true → exit_status (Run (A:=A) o (Raise e)) = 1%Z.
Proof. by destruct e. Qed.

(** A loop over a concatenation is the two loops in sequence. *)
Lemma py_for_app {S X} (body : S → X → Py S) l1 l2 s :
  py_for body (l1 ++ l2) s = py_for body l1 s ≫= py_for body l2.
Proof.
  revert s; induction l1 as [|x l1 IH]; intros s; simpl.
  - symmetry. apply (Py_bind_ret_l s).
  - rewrite Py_bind_assoc. apply Py_bind_ext. intros s'. apply IH.
Qed.

(** ** Lemmas on footprints *)

Section tame.
Context {A B : Type} (E : list pyexc).
Implicit Types (m : Py A) (f : A → Py B).

Lemma tame_ret (a : A) : tame E (mret a).
Proof. by split. Qed.

Lemma tame_throw e : e ∈ E → tame E (mthrow (A:=A) e).
Proof. intros He. split; [done|]. by intros e' [= <-]. Qed.

Lemma tame_bind m f : tame E m → (∀ a, tame E (f a)) → tame E (m ≫= f).
Proof.
  intros [Hs He] Hf. destruct m as [o [a|e]]; unfold silent in Hs; simpl in Hs;
    subst o; rewrite ?Py_bind_Run_Return, ?Py_bind_Run_Raise.
  - destruct (Hf a) as [Hfs Hfe]. split; [done|]. intros e. apply Hfe.
  - split; [done|]. intros e' [= <-]. by apply He.
Qed.

Lemma tame_weaken E' m : E ⊆ E' → tame E m → tame E' m.
Proof. intros HE [Hs He]. split; [done|]. intros e Hr. by apply HE, He. Qed.

(** A tame run is determined by its outcome. *)
Lemma tame_Run m : tame E m → m = Run [] (result m).
Proof. intros [Hs _]. destruct m as [o r]. unfold silent in Hs; simpl in Hs. by subst. Qed.

End tame.

Lemma tame_for {S X} E (body : S → X → Py S) l s :
  (∀ s x, tame E (body s x)) → tame E (py_for body l s).
Proof.
  intros Hbody. revert s; induction l as [|x l IH]; intros s.
  - apply tame_ret.
  - cbn [py_for]. by apply tame_bind.
Qed.

Lemma tame_match_option {A B} E (o : option A) (f : A → Py B) (d : Py B) :
  (∀ a, tame E (f a)) → tame E d → tame E (match o with Some a => f a | None => d end).
Proof. by destruct o. Qed.

Lemma tame_if {A} E (b : bool) (p q : Py A) :
  tame E p → tame E q → tame E (if b then p else q).
Proof. by destruct b. Qed.

Section confined.
Context {A B : Type} (P : out_event → Prop) (C : list Z).
Implicit Types (m : Py A) (f : A → Py B).

Lemma confined_Run o (r : outcome A) :
  Forall P o → (∀ n, r = Raise (SystemExit n) → n ∈ C) → confined P C (Run o r).
Proof. by split. Qed.

Lemma confined_ret (a : A) : confined P C (mret a).
Proof. by apply confined_Run. Qed.

Lemma confined_throw e : is_Exception e = true → confined P C (mthrow (A:=A) e).
Proof. intros He. apply confined_Run; [done|]. by intros n [= ->]. Qed.

Lemma confined_exit n : n ∈ C → confined P C (py_exit (A:=A) n).
Proof. intros Hn. apply confined_Run; [done|]. by intros n' [= <-]. Qed.

Lemma confined_bind m f :
  confined P C m → (∀ a, confined P C (f a)) → confined P C (m ≫= f).
Proof.
  intros [Ho Hx] Hf. destruct m as [o [a|e]]; simpl in *;
    rewrite ?Py_bind_Run_Return, ?Py_bind_Run_Raise.
  - destruct (Hf a) as [Hfo Hfx]. split; [by apply Forall_app|exact Hfx].
  - split; [done|]. intros n [= ->]. by apply Hx.
Qed.

Lemma confined_try m (c : pyexc → bool) (h : Py A) :
  confined P C m → confined P C h → confined P C (py_try m c h).
Proof.
  intros [Ho Hx] [Hho Hhx]. destruct m as [o [a|e]]; [by split|].
  destruct (c e) eqn:Hc; [rewrite py_try_caught by done|by rewrite py_try_uncaught].
  split; [by apply Forall_app|done].
Qed.

(** A tame run that raises only [Exception]s is confined. *)
Lemma confined_tame E m :
  tame E m → Forall (λ e, is_Exception e = true) E → confined P C m.
Proof.
  intros [Hs He] HE. split; [unfold silent in Hs; rewrite Hs; constructor|].
  intros n Hn%He. by apply (proj1 (Forall_forall _ _) HE) in Hn.
Qed.

Lemma confined_errors m : tame errors m → confined P C m.
Proof. intros Hm. apply (confined_tame _ _ Hm). by repeat constructor. Qed.

Lemma confined_if (b : bool) (p q : Py A) :
  confined P C p → confined P C q → confined P C (if b then p else q).
Proof. by destruct b. Qed.

Lemma confined_match_option {X} (o : option X) (f : X → Py A) (d : Py A) :
  (∀ x, confined P C (f x)) → confined P C d →
  confined P C (match o with Some x => f x | None => d end).
Proof. by destruct o. Qed.

End confined.

Lemma confined_rprint P C s : P (OutRich s) → confined P C (rprint s).
Proof. intros Hs. apply confined_Run; [by repeat constructor|done]. Qed.

Lemma confined_print P C s : P (OutPrint s) → confined P C (py_print s).
Proof. intros Hs. apply confined_Run; [by repeat constructor|done]. Qed.

Lemma confined_weaken {A} (P P' : out_event → Prop) C C' (m : Py A) :
  (∀ ev, P ev → P' ev) → C ⊆ C' → confined P C m → confined P' C' m.
Proof.
  intros HP HC [Ho Hx]. split; [by eapply Forall_impl|]. intros n Hn. by apply HC, Hx.
Qed.

(** No event of a confined run is outside [P]. *)
Lemma confined_filter {A} (P : out_event → Prop) C (Q : out_event → bool) (m : Py A) :
  confined P C m → (∀ ev, P ev → Q ev = false) → filter (λ ev, Q ev = true) (output m) = [].
Proof.
  intros [Ho _] HPQ. induction Ho as [|ev o Hev _ IH]; [done|].
  rewrite filter_cons_False; [done|]. rewrite (HPQ ev Hev). discriminate.
Qed.

(** When the only exit is 1, the status is 0 exactly for a run that
    returns. *)
Lemma confined_exit_status_1 {A} P (m : Py A) :
  confined P [1]%Z m →
  exit_status m = match result m with Return _ => 0 | Raise _ => 1 end%Z.
Proof.
  intros [_ Hx]. unfold exit_status. destruct (result m) as [a|e] eqn:Hr; [done|].
  destruct e; auto. specialize (Hx code Hr). by apply list_elem_of_singleton in Hx.
Qed.

(** The exit status of a run whose exits are 0 or 1 is 0 or 1. *)
Lemma confined_exit_status {A} P (m : Py A) :
  confined P [0; 1]%Z m → exit_status m = 0%Z ∨ exit_status m = 1%Z.
Proof.
  intros [_ Hx]. unfold exit_status. destruct (result m) as [a|e] eqn:Hr; [by left|].
  destruct e; auto. specialize (Hx code Hr).
  apply elem_of_cons in Hx as [->| ->%list_elem_of_singleton]; auto.
Qed.

(** ** Association tables *)

(** In a table whose images under [f] are pairwise different, a row is
    determined by its image. *)
Lemma NoDup_fmap_row {A B} (f : A → B) (l : list A) x y :
  NoDup (f <$> l) → x ∈ l → y ∈ l → f x = f y → x = y.
Proof.
  intros Hnd [i Hi]%list_elem_of_lookup_1 [j Hj]%list_elem_of_lookup_1 Hxy.
  assert (i = j) as ->; [|congruence].
  apply (NoDup_lookup (f <$> l) i j (f x) Hnd); rewrite list_lookup_fmap.
  - by rewrite Hi.
  - by rewrite Hj, Hxy.
Qed.

Lemma NoDup_fst_functional {A B} (l : list (A * B)) x y1 y2 :
  NoDup l.*1 → (x, y1) ∈ l → (x, y2) ∈ l → y1 = y2.
Proof. intros Hnd H1 H2. by injection (NoDup_fmap_row fst l _ _ Hnd H1 H2 eq_refl). Qed.

Lemma NoDup_snd_injective {A B} (l : list (A * B)) x1 x2 y :
  NoDup l.*2 → (x1, y) ∈ l → (x2, y) ∈ l → x1 = x2.
Proof. intros Hnd H1 H2. by injection (NoDup_fmap_row snd l _ _ Hnd H1 H2 eq_refl). Qed.

(** ** Automation

    Monadic terms are evaluated by rewriting with the laws, not by [simpl],
    which would unfold the instances. *)
(** Settle a decidable proposition about concrete data by evaluation. *)
Ltac by_compute := apply (bool_decide_unpack _); vm_compute; exact I.

#[global] Arguments Py_bind : simpl never.
#[global] Arguments Py_ret : simpl never.
#[global] Arguments Py_throw : simpl never.
#[global] Arguments py_try : simpl never.

Create HintDb py discriminated.
#[export] Hint Resolve tame_ret tame_bind tame_for tame_if tame_match_option : py.
#[export] Hint Extern 1 (tame _ (mthrow _)) => apply tame_throw; by_compute : py.
#[export] Hint Extern 1 (tame _ (let '(_, _) := _ in _)) => case_match : py.
Create Rewrite HintDb py.
#[export] Hint Rewrite @Py_bind_ret_l @Py_bind_raise @Py_bind_Run_Return
  @Py_bind_Run_Raise @py_try_ret @py_try_Return : py.
#[export] Hint Rewrite @py_try_throw_caught using reflexivity : py.
#[export] Hint Rewrite @py_try_throw_uncaught using reflexivity : py.
#[export] Hint Rewrite @py_try_caught using reflexivity : py.
#[export] Hint Rewrite @py_try_uncaught using reflexivity : py.
#[export] Hint Rewrite @app_nil_l @app_nil_r : py.

(** Run the monadic steps whose operands are known. *)
Ltac py_simpl := repeat (progress (autorewrite with py; cbv beta iota)).

(** Case analysis on the outcome of a step, then [py_simpl]. *)
Ltac py_case m :=
  let o := fresh "o" in let a := fresh "a" in let e := fresh "e" in
  destruct m as [o [a|e]] eqn:?; py_simpl.

#[export] Hint Resolve confined_ret confined_bind confined_try confined_if
  confined_match_option : py.
#[export] Hint Extern 1 (confined _ _ (mthrow _)) => apply confined_throw; reflexivity : py.
#[export] Hint Extern 1 (confined _ _ (py_exit _)) => apply confined_exit; by_compute : py.
#[export] Hint Extern 1 (confined _ _ (let '(_, _) := _ in _)) => case_match : py.
#[export] Hint Extern 1 (confined _ _ (rprint _)) => apply confined_rprint; reflexivity : py.
#[export] Hint Extern 1 (confined _ _ (py_print _)) => apply confined_print; reflexivity : py.

(** Prove a footprint by following the structure of the code. *)
Ltac solve_tame :=
  repeat (intros; first
    [ apply tame_ret | apply tame_bind | apply tame_for | apply tame_if
    | apply tame_match_option
    | match goal with |- tame _ (let '(_, _) := ?x in _) => destruct x end
    | solve [eauto with py] ]).

(** Use a footprint lemma [lem] for a larger set of events and exits. *)
Ltac weaken_confined lem :=
  eapply confined_weaken; [| |apply lem]; [by intros [] | by_compute].

Ltac solve_confined :=
  repeat (intros; first
    [ apply confined_ret | apply confined_bind | apply confined_try
    | apply confined_if | apply confined_match_option
    | match goal with |- confined _ _ (let '(_, _) := ?x in _) => destruct x end
    | solve [eauto with py]
    | solve [apply confined_errors; solve_tame] ]).
