(* ===== verification/PyBuiltins.v ===== *)
(** Python built-in operations the program calls on lists and strings:
    [x in l], [l.index(x)], [l[i]], tuple unpacking of a list, [s.split(sep)]
    and [sep.join(l)], with the lemmas the components share. *)

From stdpp Require Import base tactics option list strings.
From S2P Require Import Prelude.

(** ** Strings *)

(** [s.startswith(p)] *)
Fixpoint starts_with (p s : string) : bool :=
  match p, s with
  | EmptyString, _ => true
  | String a p', String b s' => bool_decide (a = b) && starts_with p' s'
  | String _ _, EmptyString => false
  end.

(** [s[n:]] *)
Fixpoint str_drop (n : nat) (s : string) : string :=
  match n, s with
  | S n', String _ s' => str_drop n' s'
  | _, _ => s
  end.

(** [sep.join(l)] *)
Fixpoint str_join (sep : string) (l : list string) : string :=
  match l with
  | [] => ""
  | [x] => x
  | x :: l' => x +:+ sep +:+ str_join sep l'
  end.

(** The scan behind [s.split(sep)]: left to right, a match of [sep] ends the
    current piece and its characters are skipped ([skip] counts those still
    to pass), so matches never overlap. The result is the current piece and
    the pieces after it. *)
Fixpoint split_scan (sep : string) (skip : nat) (s : string) : string * list string :=
  match s with
  | EmptyString => ("", [])
  | String c s' =>
      match skip with
      | S k => split_scan sep k s'
      | O =>
          if starts_with sep s
          then ("", let '(p, ps) := split_scan sep (String.length sep - 1) s' in p :: ps)
          else let '(p, ps) := split_scan sep 0 s' in (String c p, ps)
      end
  end.

(** [s.split(sep)] for a separator that is not empty (Python raises
    ValueError for an empty one; every separator of the program is a
    literal). *)
Definition str_split (sep s : string) : list string :=
  let '(p, ps) := split_scan sep 0 s in p :: ps.

(** A character occurs in a string. *)
Fixpoint str_mem (c : Ascii.ascii) (s : string) : bool :=
  match s with
  | EmptyString => false
  | String a s' => bool_decide (c = a) || str_mem c s'
  end.

(** ** Lists *)
Section lists.
Context {A : Type} `{EqDecision A}.
Implicit Types (x : A) (l : list A).

(** [x in l] *)
Definition list_in x l : bool := bool_decide (x ∈ l).

(** The position of the first element equal to [x]. *)
Fixpoint index_of x l : option nat :=
  match l with
  | [] => None
  | y :: l' => if decide (x = y) then Some 0 else S <$> index_of x l'
  end.

(** [l.index(x)]: ValueError when [x] is not in the list. *)
Definition list_index x l : Py nat :=
  match index_of x l with
  | Some i => mret i
  | None => mthrow ValueError
  end.

(** [l[i]] for an index that is not negative. *)
Definition list_getitem l (i : nat) : Py A :=
  match l !! i with
  | Some a => mret a
  | None => mthrow IndexError
  end.

(** [(a, b) = l] *)
Definition unpack2 l : Py (A * A) :=
  match l with
  | [a; b] => mret (a, b)
  | _ => mthrow ValueError
  end.

Lemma list_in_true x l : list_in x l = true ↔ x ∈ l.
Proof. unfold list_in. apply bool_decide_eq_true. Qed.

Lemma list_in_false x l : list_in x l = false ↔ x ∉ l.
Proof. unfold list_in. apply bool_decide_eq_false. Qed.

Lemma index_of_None x l : index_of x l = None ↔ x ∉ l.
Proof.
  induction l as [|y l IH]; simpl.
  - split; [intros _; apply not_elem_of_nil | done].
  - rewrite not_elem_of_cons. case_decide as Hxy.
    + split; [done | by intros [? _]].
    + rewrite fmap_None, IH. tauto.
Qed.

Lemma index_of_is_Some x l : is_Some (index_of x l) ↔ x ∈ l.
Proof.
  rewrite <-not_eq_None_Some, index_of_None.
  destruct (decide (x ∈ l)); naive_solver.
Qed.

(** [index_of] finds an occurrence. *)
Lemma index_of_lookup x l i : index_of x l = Some i → l !! i = Some x.
Proof.
  revert i; induction l as [|y l IH]; intros i; simpl; [done|].
  case_decide as Hxy; [by intros [= <-]; subst|].
  destruct (index_of x l) as [j|]; simpl; [|done].
  intros [= <-]. by apply IH.
Qed.

(** ... and it is the first one. *)
Lemma index_of_first x l i j : index_of x l = Some i → j < i → l !! j ≠ Some x.
Proof.
  revert i j; induction l as [|y l IH]; intros i j; simpl; [done|].
  case_decide as Hxy; [intros [= <-]; lia|].
  destruct (index_of x l) as [k|] eqn:Hk; simpl; [|done].
  intros [= <-] Hj. destruct j as [|j]; simpl; [congruence|].
  eapply IH; [done|lia].
Qed.

Lemma index_of_lt_length x l i : index_of x l = Some i → i < length l.
Proof. intros H%index_of_lookup. by eapply lookup_lt_Some. Qed.

(** In a list without duplicates every position is found back. *)
Lemma index_of_NoDup x l i : NoDup l → l !! i = Some x → index_of x l = Some i.
Proof.
  intros Hnd Hi. destruct (index_of x l) as [j|] eqn:Hj.
  - f_equal. eapply NoDup_lookup; eauto using index_of_lookup.
  - apply index_of_None in Hj. destruct Hj. by eapply list_elem_of_lookup_2.
Qed.

Lemma index_of_app_first x pre post :
  x ∉ pre → index_of x (pre ++ x :: post) = Some (length pre).
Proof.
  induction pre as [|y pre IH]; simpl; intros Hx.
  - by rewrite decide_True.
  - apply not_elem_of_cons in Hx as [Hxy Hx]. by rewrite decide_False, IH.
Qed.

Lemma list_index_app_first x pre post :
  x ∉ pre → list_index x (pre ++ x :: post) = mret (length pre).
Proof. intros Hx. unfold list_index. by rewrite index_of_app_first. Qed.

Lemma list_getitem_Some l i x : l !! i = Some x → list_getitem l i = mret x.
Proof. unfold list_getitem. by intros ->. Qed.

Lemma list_getitem_None l i : length l ≤ i → list_getitem l i = mthrow IndexError.
Proof. intros Hi%lookup_ge_None. unfold list_getitem. by rewrite Hi. Qed.

Lemma unpack2_pair (a b : A) : unpack2 [a; b] = mret (a, b).
Proof. done. Qed.

Lemma unpack2_length l : length l ≠ 2 → unpack2 l = mthrow ValueError.
Proof. by destruct l as [|a [|b [|c l]]]. Qed.

Lemma list_getitem_tame E l i : IndexError ∈ E → tame E (list_getitem l i).
Proof. intros HE. unfold list_getitem. destruct (l !! i); auto using tame_ret, tame_throw. Qed.

Lemma list_index_tame E x l : ValueError ∈ E → tame E (list_index x l).
Proof. intros HE. unfold list_index. destruct (index_of x l); auto using tame_ret, tame_throw. Qed.

Lemma unpack2_tame E l : ValueError ∈ E → tame E (unpack2 l).
Proof.
  intros HE. destruct l as [|a [|b [|c l]]]; simpl; auto using tame_ret, tame_throw.
Qed.

Lemma list_index_in x l :
  x ∈ l → ∃ i, list_index x l = mret i ∧ l !! i = Some x.
Proof.
  intros [i Hi]%index_of_is_Some. exists i. unfold list_index. rewrite Hi.
  eauto using index_of_lookup.
Qed.

End lists.

(** ** Facts about splitting and joining *)

Lemma str_app_cons a s t : String a s +:+ t = String a (s +:+ t).
Proof. done. Qed.

Lemma str_app_nil_l s : "" +:+ s = s.
Proof. done. Qed.

Lemma str_app_nil_r s : s +:+ "" = s.
Proof. induction s as [|a s IH]; [done|]. by rewrite str_app_cons, IH. Qed.

Lemma str_app_assoc s t u : (s +:+ t) +:+ u = s +:+ t +:+ u.
Proof. induction s as [|a s IH]; [done|]. by rewrite !str_app_cons, IH. Qed.

Lemma str_length_app s t : String.length (s +:+ t) = String.length s + String.length t.
Proof. induction s as [|a s IH]; [done|]. rewrite str_app_cons. simpl. by rewrite IH. Qed.

Lemma starts_with_app p r : starts_with p (p +:+ r) = true.
Proof.
  induction p as [|a p IH]; [done|]. rewrite str_app_cons. simpl.
  by rewrite bool_decide_eq_true_2.
Qed.

Lemma starts_with_spec p s : starts_with p s = true ↔ ∃ r, s = p +:+ r.
Proof.
  split; [|intros [r ->]; apply starts_with_app].
  revert s; induction p as [|a p IH]; intros s; [by exists s|].
  destruct s as [|b s]; [done|]. simpl.
  intros [->%bool_decide_eq_true [r ->]%IH]%andb_true_iff. by exists r.
Qed.

Lemma str_drop_app p r : str_drop (String.length p) (p +:+ r) = r.
Proof. induction p as [|a p IH]; [by destruct r|]. by rewrite str_app_cons. Qed.

Lemma str_drop_0 s : str_drop 0 s = s.
Proof. by destruct s. Qed.

Lemma str_join_cons sep x l :
  str_join sep (x :: l) = match l with [] => x | _ => x +:+ sep +:+ str_join sep l end.
Proof. by destruct l. Qed.

(** Skipping while scanning is scanning what is left. *)
Lemma split_scan_skip sep k s :
  k ≤ String.length s → split_scan sep k s = split_scan sep 0 (str_drop k s).
Proof.
  revert k; induction s as [|c s IH]; intros k Hk.
  - by destruct k.
  - destruct k as [|k]; [done|]. simpl in *. apply IH. lia.
Qed.

Lemma str_join_String sep c p ps :
  str_join sep (String c p :: ps) = String c (str_join sep (p :: ps)).
Proof. by destruct ps. Qed.

Lemma str_join_nil_cons sep p ps :
  str_join sep ("" :: p :: ps) = sep +:+ str_join sep (p :: ps).
Proof. done. Qed.

(** What the scan returns, joined again, is what it scanned. *)
Lemma str_join_split_scan sep s k :
  sep ≠ "" → k ≤ String.length s →
  str_join sep (let '(p, ps) := split_scan sep k s in p :: ps) = str_drop k s.
Proof.
  intros Hsep. revert k; induction s as [|c s IH]; intros k Hk.
  { by destruct k. }
  destruct k as [|k]; simpl in Hk |- *; [|apply IH; lia].
  destruct (starts_with sep (String c s)) eqn:Hpre.
  - apply starts_with_spec in Hpre as [r Hr].
    destruct sep as [|a sep']; [done|]. rewrite str_app_cons in Hr.
    injection Hr as <- ->. specialize (IH (String.length sep')).
    simpl. rewrite Nat.sub_0_r.
    destruct (split_scan _ _ _) as [p ps].
    rewrite str_app_nil_l, str_app_cons, IH, str_drop_app; [done|].
    rewrite str_length_app. lia.
  - specialize (IH 0). destruct (split_scan sep 0 s) as [p ps].
    rewrite str_join_String, IH, str_drop_0; [done|lia].
Qed.

Lemma str_split_nonempty sep s : str_split sep s ≠ [].
Proof. unfold str_split. by destruct (split_scan sep 0 s). Qed.

(** A separator with no match leaves the string whole. *)
Lemma str_split_no_match (c : Ascii.ascii) s :
  str_mem c s = false → str_split (String c "") s = [s].
Proof.
  unfold str_split. induction s as [|a s IH]; [done|]. simpl.
  intros [Hca%bool_decide_eq_false Hs]%orb_false_iff.
  rewrite bool_decide_eq_false_2 by done. simpl.
  specialize (IH Hs). destruct (split_scan _ 0 s) as [p ps]. by simplify_eq.
Qed.

(** Splitting at a one-character separator cuts at its first occurrence. *)
Lemma str_split_first (c : Ascii.ascii) a b :
  str_mem c a = false →
  str_split (String c "") (a +:+ String c b) = a :: str_split (String c "") b.
Proof.
  unfold str_split. induction a as [|x a IH]; simpl.
  - intros _. by rewrite bool_decide_eq_true_2.
  - intros [Hcx%bool_decide_eq_false Ha]%orb_false_iff.
    rewrite bool_decide_eq_false_2 by done. simpl.
    specialize (IH Ha). destruct (split_scan _ 0 (a +:+ String c b)) as [p ps].
    by simplify_eq.
Qed.

Lemma str_split_pair (c : Ascii.ascii) a b :
  str_mem c a = false → str_mem c b = false →
  str_split (String c "") (a +:+ String c b) = [a; b].
Proof. intros Ha Hb. by rewrite str_split_first, str_split_no_match. Qed.

#[export] Hint Extern 1 (tame _ (list_getitem _ _)) => apply list_getitem_tame; by_compute : py.
#[export] Hint Extern 1 (tame _ (list_index _ _)) => apply list_index_tame; by_compute : py.
#[export] Hint Extern 1 (tame _ (unpack2 _)) => apply unpack2_tame; by_compute : py.

(** ** Properties of the built-ins *)

(** [l.index(x)] returns the position of the first element equal
    to [x]: that position holds [x] and no earlier one does. *)
Theorem list_index_first (x : string) l i :
  returns (list_index x l) i →
  l !! i = Some x ∧ ∀ j, j < i → l !! j ≠ Some x.
Proof.
  unfold list_index. destruct (index_of x l) as [k|] eqn:Hk; [|done].
  intros [= <-]. eauto using index_of_lookup, index_of_first.
Qed.

Lemma list_index_first_witness :
  ["croon"; "-c"; "1,2"; "-c"] !! 1 = Some "-c" ∧
  ∀ j, j < 1 → ["croon"; "-c"; "1,2"; "-c"] !! j ≠ Some "-c".
Proof. apply list_index_first. reflexivity. Defined.
