(* ===== verification/PyFloat.v ===== *)
(** Python floats as the program uses them: a value is a rational or one of
    the three special values; comparison and [%] follow Python's rules on the
    specials. The interfaces [FloatParser] and [FloatPrinter] stand for
    [float(s)] and for the text an f-string gives a float. *)

From stdpp Require Import base tactics option strings.
From Stdlib Require Import QArith Qround Lqa.
From S2P Require Import Prelude.

Local Open Scope Q_scope.

Inductive pyfloat : Type :=
| Fin (q : Q)
| PosInf
| NegInf
| NaN.

(** Two floats denote the same value. (This is not Python's [==], under
    which NaN differs from itself.) *)
Definition float_same (x y : pyfloat) : Prop :=
  match x, y with
  | Fin p, Fin q => p == q
  | PosInf, PosInf | NegInf, NegInf | NaN, NaN => True
  | _, _ => False
  end.

#[export] Instance pyfloat_equiv : Equiv pyfloat := float_same.

Definition is_finite (x : pyfloat) : bool :=
  match x with Fin _ => true | _ => false end.

Definition Qltb (x y : Q) : bool := if Qlt_le_dec x y then true else false.

(** [x > y] and [x < y]: false as soon as an operand is NaN. *)
Definition float_gt (x y : pyfloat) : bool :=
  match x, y with
  | NaN, _ | _, NaN => false
  | Fin p, Fin q => Qltb q p
  | PosInf, PosInf | NegInf, _ => false
  | PosInf, _ | Fin _, NegInf => true
  | Fin _, PosInf => false
  end.
Definition float_lt (x y : pyfloat) : bool := float_gt y x.

(** [x % w] on rationals: the remainder has the sign of the divisor. *)
Definition Qpymod (x w : Q) : Q := x - w * inject_Z (Qfloor (x / w)).

(** [x % w] for a finite divisor that is not zero (the divisors of the
    program are the literals 90.0, -90.0, 180.0 and -180.0): an infinite or
    NaN dividend gives NaN. *)
Definition float_mod (x : pyfloat) (w : Q) : pyfloat :=
  match x with
  | Fin q => Fin (Qpymod q w)
  | _ => NaN
  end.

(** [lo <= x <= hi] for a finite [x] *)
Definition float_within (lo hi : Q) (x : pyfloat) : Prop :=
  match x with
  | Fin q => lo <= q <= hi
  | _ => False
  end.

(** ** The text form of floats

    [float_of_str] is [float(s)], [None] when Python raises ValueError. *)
Class FloatParser : Type := float_of_str : string → option pyfloat.

(** [float_repr] is the text [f"{x}"] produces for a float. *)
Class FloatPrinter : Type := float_repr : pyfloat → string.

(** [float(s)] *)
Definition py_float `{FloatParser} (s : string) : Py pyfloat :=
  match float_of_str s with
  | Some x => mret x
  | None => mthrow ValueError
  end.

(** ** Equivalence and decidability *)

#[export] Instance float_same_equivalence : Equivalence (≡@{pyfloat}).
Proof.
  split.
  - by intros [].
  - intros [] []; unfold equiv, pyfloat_equiv; simpl; try done; apply Qeq_sym.
  - intros [] [] []; unfold equiv, pyfloat_equiv; simpl; try done; apply Qeq_trans.
Qed.

#[export] Instance Fin_proper : Proper (Qeq ==> (≡)) Fin.
Proof. by intros p q Hpq. Qed.

#[export] Instance float_within_dec lo hi x : Decision (float_within lo hi x).
Proof.
  destruct x as [q| | |]; simpl; [|right; tauto..].
  destruct (Qlt_le_dec q lo); [right; lra|].
  destruct (Qlt_le_dec hi q); [right; lra|left; lra].
Defined.

Lemma Qltb_true x y : Qltb x y = true ↔ x < y.
Proof. unfold Qltb. destruct (Qlt_le_dec x y); split; (done || lra). Qed.

Lemma Qltb_false x y : Qltb x y = false ↔ y <= x.
Proof. unfold Qltb. destruct (Qlt_le_dec x y); split; (done || lra). Qed.

#[export] Instance Qltb_proper : Proper (Qeq ==> Qeq ==> eq) Qltb.
Proof.
  intros x x' Hx y y' Hy. destruct (Qltb x' y') eqn:E.
  - apply Qltb_true. apply Qltb_true in E. lra.
  - apply Qltb_false. apply Qltb_false in E. lra.
Qed.

#[export] Instance float_gt_proper : Proper ((≡) ==> (≡) ==> eq) float_gt.
Proof.
  intros [p| | |] [p'| | |] Hp [q| | |] [q'| | |] Hq; try done.
  simpl. by apply Qltb_proper.
Qed.

#[export] Instance float_lt_proper : Proper ((≡) ==> (≡) ==> eq) float_lt.
Proof. intros x x' Hx y y' Hy. unfold float_lt. by apply float_gt_proper. Qed.

Lemma float_gt_Fin p q : float_gt (Fin p) (Fin q) = true ↔ q < p.
Proof. apply Qltb_true. Qed.

Lemma float_lt_Fin p q : float_lt (Fin p) (Fin q) = true ↔ p < q.
Proof. apply Qltb_true. Qed.

Lemma float_gt_NaN_l y : float_gt NaN y = false.
Proof. done. Qed.

Lemma float_gt_NaN_r x : float_gt x NaN = false.
Proof. by destruct x. Qed.

(** ** The remainder *)

#[export] Instance Qpymod_proper : Proper (Qeq ==> Qeq ==> Qeq) Qpymod.
Proof.
  intros x x' Hx w w' Hw. unfold Qpymod.
  apply Qplus_comp; [done|]. apply Qopp_comp, Qmult_comp; [done|].
  by rewrite (Qfloor_comp (x / w) (x' / w')) by by apply Qdiv_comp.
Qed.

#[export] Instance float_mod_proper : Proper ((≡) ==> Qeq ==> (≡)) float_mod.
Proof.
  intros [p| | |] [p'| | |] Hp w w' Hw; try done.
  simpl. by apply Fin_proper, Qpymod_proper.
Qed.

(** The remainder is the divisor times the fractional part of the quotient. *)
Lemma Qpymod_frac x w : ¬ w == 0 → ∃ e, 0 <= e < 1 ∧ Qpymod x w == w * e.
Proof.
  intros Hw. exists (x / w - inject_Z (Qfloor (x / w))). split.
  - pose proof (Qfloor_le (x / w)) as H1. pose proof (Qlt_floor (x / w)) as H2.
    rewrite inject_Z_plus in H2. change (inject_Z 1) with 1 in H2. lra.
  - unfold Qpymod. by field.
Qed.

Lemma Qpymod_neg_bound x w : w < 0 → w < Qpymod x w <= 0.
Proof. intros Hw. destruct (Qpymod_frac x w) as (e & He & ->); [lra|nra]. Qed.

Lemma Qpymod_pos_bound x w : 0 < w → 0 <= Qpymod x w < w.
Proof. intros Hw. destruct (Qpymod_frac x w) as (e & He & ->); [lra|nra]. Qed.

(** The remainder differs from the dividend by a whole multiple of the
    divisor. *)
Lemma Qpymod_congr x w : ∃ k : Z, Qpymod x w == x - w * inject_Z k.
Proof. by exists (Qfloor (x / w)). Qed.

Lemma Qfloor_unit x : 0 <= x < 1 → Qfloor x = 0%Z.
Proof.
  intros [H0 H1]. apply Qfloor_resp_le in H0. change (Qfloor 0) with 0%Z in H0.
  pose proof (Qfloor_le x).
  assert (inject_Z (Qfloor x) < inject_Z 1) as Hlt
    by (change (inject_Z 1) with 1; lra).
  rewrite <-Zlt_Qlt in Hlt. lia.
Qed.

(** The floor is the one integer at most one below. *)
Lemma Qfloor_unique x (n : Z) : inject_Z n <= x < inject_Z n + 1 → Qfloor x = n.
Proof.
  intros [Hlo Hhi]. pose proof (Qfloor_le x) as Hle. pose proof (Qlt_floor x) as Hlt.
  rewrite inject_Z_plus in Hlt. change (inject_Z 1) with 1 in Hlt.
  assert (inject_Z (Qfloor x) < inject_Z (n + 1)) as H1
    by (rewrite inject_Z_plus; change (inject_Z 1) with 1; lra).
  assert (inject_Z n < inject_Z (Qfloor x + 1)) as H2
    by (rewrite inject_Z_plus; change (inject_Z 1) with 1; lra).
  rewrite <-Zlt_Qlt in H1, H2. lia.
Qed.

Lemma Qfloor_add_Z x (k : Z) : Qfloor (x + inject_Z k) = (Qfloor x + k)%Z.
Proof.
  apply Qfloor_unique. pose proof (Qfloor_le x) as Hle. pose proof (Qlt_floor x) as Hlt.
  rewrite inject_Z_plus in Hlt |- *. change (inject_Z 1) with 1 in Hlt. lra.
Qed.

(** The remainder is unchanged by adding whole multiples of the divisor to
    the dividend. *)
Lemma Qpymod_period x w (k : Z) : ¬ w == 0 → Qpymod (x + w * inject_Z k) w == Qpymod x w.
Proof.
  intros Hw. unfold Qpymod.
  rewrite (Qfloor_comp ((x + w * inject_Z k) / w) (x / w + inject_Z k)) by (by field).
  rewrite Qfloor_add_Z, inject_Z_plus. ring.
Qed.

Lemma Qpymod_small x w : 0 <= x < w → Qpymod x w == x.
Proof.
  intros Hx. unfold Qpymod. rewrite Qfloor_unit.
  - change (inject_Z 0) with 0. ring.
  - split; [apply Qle_shift_div_l; lra | apply Qlt_shift_div_r; lra].
Qed.

(** On whole numbers [%] is the integer remainder with the divisor's sign,
    Python's [%] on ints. *)
Lemma Qpymod_inject_Z (a b : Z) :
  b ≠ 0%Z → Qpymod (inject_Z a) (inject_Z b) == inject_Z (a mod b).
Proof.
  intros Hb. unfold Qpymod, Qminus. rewrite <-Zdiv_Qdiv.
  rewrite <-inject_Z_mult, <-inject_Z_opp, <-inject_Z_plus.
  rewrite inject_Z_injective, Z.mod_eq by done. lia.
Qed.

Lemma float_mod_within_neg x w :
  is_finite x = true → w < 0 → float_within w 0 (float_mod x w).
Proof.
  destruct x as [q| | |]; [|done..]. intros _ Hw. simpl.
  pose proof (Qpymod_neg_bound q w Hw). lra.
Qed.

Lemma float_mod_within_pos x w :
  is_finite x = true → 0 < w → float_within 0 w (float_mod x w).
Proof.
  destruct x as [q| | |]; [|done..]. intros _ Hw. simpl.
  pose proof (Qpymod_pos_bound q w Hw). lra.
Qed.

Lemma float_within_weaken lo hi lo' hi' x :
  lo' <= lo → hi <= hi' → float_within lo hi x → float_within lo' hi' x.
Proof. destruct x as [q| | |]; simpl; [lra|done..]. Qed.

#[export] Instance float_within_proper :
  Proper (Qeq ==> Qeq ==> (≡) ==> iff) float_within.
Proof.
  intros lo lo' Hlo hi hi' Hhi [p| | |] [p'| | |] Hp; try done.
  change (p == p') in Hp. simpl. lra.
Qed.

(** ** The footprint of [float(s)] *)

Lemma py_float_tame `{FloatParser} E s : ValueError ∈ E → tame E (py_float s).
Proof. intros HE. unfold py_float. destruct (float_of_str s); [apply tame_ret|by apply tame_throw]. Qed.

#[export] Hint Extern 1 (tame _ (py_float _)) => apply py_float_tame; by_compute : py.
