(* ===== verification/FloatSyntax.v ===== *)
(** An implementation of [FloatParser]: the grammar [float(s)] accepts, on
    ASCII text, read into the exact rational the text denotes. *)

From stdpp Require Import base tactics option strings.
From Stdlib Require Import QArith Ascii.
From S2P Require Import Prelude PyBuiltins PyFloat.

(** [digitpart ::= digit (["_"] digit)*], after its first digit: the value
    so far, the number of digits read, and what is left. An underscore is
    taken only between two digits. *)
Fixpoint digits_tail (acc : Z) (n : nat) (s : string) : Z * nat * string :=
  match s with
  | String c s' =>
      match strings.Ascii.is_nat c with
      | Some d => digits_tail (10 * acc + Z.of_nat d) (S n) s'
      | None =>
          if bool_decide (c = "_"%char)
          then match s' with
               | String c' s'' =>
                   match strings.Ascii.is_nat c' with
                   | Some d => digits_tail (10 * acc + Z.of_nat d) (S n) s''
                   | None => (acc, n, s)
                   end
               | EmptyString => (acc, n, s)
               end
          else (acc, n, s)
      end
  | EmptyString => (acc, n, s)
  end.

Definition digitpart (s : string) : option (Z * nat * string) :=
  match s with
  | String c s' =>
      match strings.Ascii.is_nat c with
      | Some d => Some (digits_tail (Z.of_nat d) 1 s')
      | None => None
      end
  | EmptyString => None
  end.

(** The value of [ip "." fp] where [fp] has [n] digits. *)
Definition decimal (ip fp : Z) (n : nat) : Q :=
  (inject_Z ip + inject_Z fp / inject_Z (10 ^ Z.of_nat n))%Q.

(** [number ::= [digitpart] "." digitpart | digitpart ["."]] *)
Definition parse_number (s : string) : option (Q * string) :=
  match digitpart s with
  | Some (ip, _, rest) =>
      match rest with
      | String "."%char rest' =>
          match digitpart rest' with
          | Some (fp, n, rest'') => Some (decimal ip fp n, rest'')
          | None => Some (inject_Z ip, rest')
          end
      | _ => Some (inject_Z ip, rest)
      end
  | None =>
      match s with
      | String "."%char rest' =>
          match digitpart rest' with
          | Some (fp, n, rest'') => Some (decimal 0 fp n, rest'')
          | None => None
          end
      | _ => None
      end
  end.

(** [sign ::= "+" | "-"], optional: whether it was a minus, and the rest. *)
Definition parse_sign (s : string) : bool * string :=
  match s with
  | String "-"%char s' => (true, s')
  | String "+"%char s' => (false, s')
  | _ => (false, s)
  end.

(** [exponent ::= ("e" | "E") [sign] digitpart], optional: the exponent (0
    when there is none) and the rest; [None] for an "e" with no digits. *)
Definition parse_exponent (s : string) : option (Z * string) :=
  match s with
  | String c s' =>
      if bool_decide (c = "e"%char) || bool_decide (c = "E"%char)
      then let '(neg, s'') := parse_sign s' in
           match digitpart s'' with
           | Some (e, _, rest) => Some (if neg then (- e)%Z else e, rest)
           | None => None
           end
      else Some (0%Z, s)
  | EmptyString => Some (0%Z, s)
  end.

(** [q * 10 ** e] *)
Definition scale10 (q : Q) (e : Z) : Q :=
  if (0 <=? e)%Z then (q * inject_Z (10 ^ e))%Q else (q / inject_Z (10 ^ (- e)))%Q.

Definition ascii_lower (c : ascii) : ascii :=
  let n := nat_of_ascii c in
  if (65 <=? n) && (n <=? 90) then ascii_of_nat (n + 32) else c.

Fixpoint str_lower (s : string) : string :=
  match s with
  | EmptyString => EmptyString
  | String c s' => String (ascii_lower c) (str_lower s')
  end.

(** The characters [float] strips: those [str.isspace] holds of in ASCII. *)
Definition is_py_space (c : ascii) : bool :=
  let n := nat_of_ascii c in
  ((9 <=? n) && (n <=? 13)) || ((28 <=? n) && (n <=? 32)).

Fixpoint str_lstrip (s : string) : string :=
  match s with
  | String c s' => if is_py_space c then str_lstrip s' else s
  | EmptyString => s
  end.

Definition str_strip (s : string) : string :=
  String.rev (str_lstrip (String.rev (str_lstrip s))).

(** [infinity ::= "Infinity" | "inf"] and [nan ::= "nan"], in any case. *)
Definition parse_special (s : string) : option pyfloat :=
  let l := str_lower s in
  if bool_decide (l = "inf") || bool_decide (l = "infinity") then Some PosInf
  else if bool_decide (l = "nan") then Some NaN
  else None.

Definition float_neg (x : pyfloat) : pyfloat :=
  match x with
  | Fin q => Fin (- q)
  | PosInf => NegInf
  | NegInf => PosInf
  | NaN => NaN
  end.

(** [floatvalue ::= [sign] (floatnumber | infinity | nan)] between optional
    white space; anything left over makes the text invalid. *)
Definition parse_float (s : string) : option pyfloat :=
  let '(neg, body) := parse_sign (str_strip s) in
  let signed x := if neg then float_neg x else x in
  match parse_special body with
  | Some x => Some (signed x)
  | None =>
      '(q, rest) ← parse_number body;
      '(e, rest') ← parse_exponent rest;
      if bool_decide (rest' = "") then Some (signed (Fin (scale10 q e))) else None
  end.

#[export] Instance decimal_parser : FloatParser := parse_float.

(** ** The grammar on examples *)

Example parse_float_default_lat : parse_float "42.1" ≡ Some (Fin 42.1).
Proof. by vm_compute. Qed.

Example parse_float_default_long : parse_float "-75.9" ≡ Some (Fin (-75.9)).
Proof. by vm_compute. Qed.

Example parse_float_forms :
  parse_float "  1_000.25e-2 " ≡ Some (Fin 10.0025) ∧
  parse_float ".5" ≡ Some (Fin 0.5) ∧
  parse_float "7." ≡ Some (Fin 7) ∧
  parse_float "+1E3" ≡ Some (Fin 1000) ∧
  parse_float "-Infinity" = Some NegInf ∧
  parse_float "NaN" = Some NaN.
Proof. by vm_compute. Qed.

Example parse_float_rejects :
  parse_float "" = None ∧ parse_float "abc" = None ∧
  parse_float "1_" = None ∧ parse_float "_1" = None ∧
  parse_float "1__0" = None ∧ parse_float "1e" = None ∧
  parse_float "1.5x" = None ∧ parse_float "." = None ∧
  parse_float "- 1" = None ∧ parse_float "1,2" = None.
Proof. by vm_compute. Qed.
