(* ===== verification/Coords.v ===== *)
(** The coordinate normaliser and the command-line reader of src/main.py:
    [wrap_coords] (lines 93-106) and [get_coord_args] (lines 72-90). *)

From stdpp Require Import base tactics option list strings.
From Stdlib Require Import QArith Qround Lqa Ascii.
From S2P Require Import Prelude PyBuiltins PyFloat FloatSyntax.

Local Open Scope Q_scope.

(** The coordinates used when no [-c] is given (line 77). *)
Definition default_coords : pyfloat * pyfloat := (Fin 42.1, Fin (-75.9)).

(** [wrap_coords(lat, long)], lines 93-106. *)
Definition wrap_coords (lat long : pyfloat) : pyfloat * pyfloat :=
  let lat :=
    if float_gt lat (Fin 90) then float_mod lat (-90)
    else if float_lt lat (Fin (-90)) then float_mod lat 90
    else lat in
  let long :=
    if float_gt long (Fin 180) then float_mod long (-180)
    else if float_lt long (Fin (-180)) then float_mod long 180
    else long in
  (lat, long).

(** The rule [wrap_coords] applies to each coordinate, for a bound [b]:
    the reference the two inlined copies are compared with. *)
Definition wrap_axis (b : Q) (x : pyfloat) : pyfloat :=
  if float_gt x (Fin b) then float_mod x (- b)
  else if float_lt x (Fin (- b)) then float_mod x b
  else x.

(** Two longitudes in degrees name the same meridian when they differ by
    whole turns. *)
Definition same_meridian (x y : Q) : Prop := ∃ j : Z, x - y == 360 * inject_Z j.

Section get_coord_args.
Context `{FloatParser}.

(** What [get_coord_args] does with the argument that follows [-c], lines
    79-90: split at the comma, unpack into two, convert both (a failed
    conversion is caught, reported and ends the process), wrap. *)
Definition coords_of_arg (arg : string) : Py (pyfloat * pyfloat) :=
  '(lat, long) ← unpack2 (str_split "," arg);
  '(lat, long) ← py_try
      (lat ← py_float lat; long ← py_float long; mret (lat, long))
      is_Exception
      (rprint "[red]Invalid args: bad float number format";; py_exit 1);
  mret (wrap_coords lat long).

(** [get_coord_args(args)], lines 72-90. *)
Definition get_coord_args (args : list string) : Py (pyfloat * pyfloat) :=
  if negb (list_in "-c" args) then mret default_coords
  else
    i ← list_index "-c" args;
    arg ← list_getitem args (i + 1)%nat;
    coords_of_arg arg.

End get_coord_args.

(** The run that reports a malformed number: the message, then [exit(1)]. *)
Definition bad_float_run : Py (pyfloat * pyfloat) :=
  Run [OutRich "[red]Invalid args: bad float number format"] (Raise (SystemExit 1)).

(** ** The normaliser *)

Lemma wrap_coords_axes lat long :
  wrap_coords lat long = (wrap_axis 90 lat, wrap_axis 180 long).
Proof. done. Qed.

Lemma wrap_axis_above b q :
  b < q → wrap_axis b (Fin q) = Fin (Qpymod q (- b)).
Proof. intros Hq. unfold wrap_axis. by rewrite (proj2 (float_gt_Fin q b)). Qed.

Lemma wrap_axis_below b q :
  0 <= b → q < - b → wrap_axis b (Fin q) = Fin (Qpymod q b).
Proof.
  intros Hb Hq. unfold wrap_axis.
  rewrite (proj2 (float_lt_Fin q (- b))) by done.
  destruct (float_gt (Fin q) (Fin b)) eqn:E; [|done].
  apply float_gt_Fin in E. lra.
Qed.

Lemma wrap_axis_inside b q :
  - b <= q <= b → wrap_axis b (Fin q) = Fin q.
Proof.
  intros Hq. unfold wrap_axis.
  destruct (float_gt (Fin q) (Fin b)) eqn:E1; [apply float_gt_Fin in E1; lra|].
  destruct (float_lt (Fin q) (Fin (- b))) eqn:E2; [apply float_lt_Fin in E2; lra|].
  done.
Qed.

Lemma wrap_axis_NaN b : wrap_axis b NaN = NaN.
Proof. done. Qed.

Lemma wrap_axis_PosInf b : wrap_axis b PosInf = NaN.
Proof. done. Qed.

Lemma wrap_axis_NegInf b : wrap_axis b NegInf = NaN.
Proof. done. Qed.

(** Each finite coordinate lands in one of three places: above the bound it
    is wrapped into (-b, 0], below it into [0, b), inside it is kept. *)
Lemma wrap_axis_cases b q :
  0 < b →
  (b < q ∧ ∃ r, wrap_axis b (Fin q) = Fin r ∧ - b < r <= 0) ∨
  (q < - b ∧ ∃ r, wrap_axis b (Fin q) = Fin r ∧ 0 <= r < b) ∨
  (- b <= q <= b ∧ wrap_axis b (Fin q) = Fin q).
Proof.
  intros Hb. destruct (Qlt_le_dec b q) as [Hq|Hq].
  - left. split; [done|]. eexists; split; [by apply wrap_axis_above|].
    apply Qpymod_neg_bound. lra.
  - destruct (Qlt_le_dec q (- b)) as [Hq'|Hq'].
    + right; left. split; [done|]. eexists; split; [apply wrap_axis_below; lra|].
      by apply Qpymod_pos_bound.
    + right; right. split; [lra|]. apply wrap_axis_inside. lra.
Qed.

Lemma wrap_axis_within b x :
  0 < b → is_finite x = true → float_within (- b) b (wrap_axis b x).
Proof.
  intros Hb. destruct x as [q| | |]; [intros _|done..].
  destruct (wrap_axis_cases b q Hb)
    as [(_ & r & -> & Hr)|[(_ & r & -> & Hr)|(Hq & ->)]]; simpl; lra.
Qed.

Lemma wrap_axis_idem b x : 0 < b → wrap_axis b (wrap_axis b x) = wrap_axis b x.
Proof.
  intros Hb. destruct x as [q| | |]; [|done..].
  pose proof (wrap_axis_within b (Fin q) Hb eq_refl) as Hw.
  destruct (wrap_axis b (Fin q)) as [r| | |]; [|done..].
  by apply wrap_axis_inside.
Qed.

Lemma wrap_coords_idem_pair lat long :
  wrap_coords (wrap_coords lat long).1 (wrap_coords lat long).2 = wrap_coords lat long.
Proof. rewrite !wrap_coords_axes. simpl. by rewrite !wrap_axis_idem. Qed.

#[export] Instance wrap_axis_proper : Proper (Qeq ==> (≡) ==> (≡)) wrap_axis.
Proof.
  intros b b' Hb x x' Hx. unfold wrap_axis.
  rewrite (float_gt_proper x x' Hx (Fin b) (Fin b')) by by apply Fin_proper.
  rewrite (float_lt_proper x x' Hx (Fin (- b)) (Fin (- b')))
    by by apply Fin_proper, Qopp_comp.
  destruct (float_gt x' (Fin b')); [by apply float_mod_proper, Qopp_comp|].
  destruct (float_lt x' (Fin (- b'))); [by apply float_mod_proper|done].
Qed.

Lemma wrap_axis_congr b q :
  ∃ (k : Z) r, wrap_axis b (Fin q) = Fin r ∧ r == q - b * inject_Z k.
Proof.
  unfold wrap_axis. destruct (float_gt _ _); [|destruct (float_lt _ _)].
  - destruct (Qpymod_congr q (- b)) as [k Hk]. exists (- k)%Z, (Qpymod q (- b)).
    split; [done|]. rewrite Hk, inject_Z_opp. ring.
  - destruct (Qpymod_congr q b) as [k Hk]. by exists k, (Qpymod q b).
  - exists 0%Z, q. split; [done|]. change (inject_Z 0) with 0. ring.
Qed.

(** Above the bound the rule has the bound as its period. *)
Lemma wrap_axis_period b q (k : Z) :
  0 < b → b < q → b < q + b * inject_Z k →
  wrap_axis b (Fin (q + b * inject_Z k)) ≡ wrap_axis b (Fin q).
Proof.
  intros Hb Hq Hqk. rewrite !wrap_axis_above by done. apply Fin_proper.
  rewrite <- (Qpymod_period q (- b) (- k)) by lra.
  apply Qpymod_proper; [|done]. rewrite inject_Z_opp. ring.
Qed.

(** An odd number of half turns is not a whole number of turns. *)
Lemma half_turns_differ q (k : Z) :
  Z.odd k = true → ¬ same_meridian (q + 180 * inject_Z k) q.
Proof.
  intros Hodd [j Hj].
  assert (inject_Z k == inject_Z (2 * j)) as Hk
    by (rewrite inject_Z_mult; change (inject_Z 2) with 2; lra).
  rewrite inject_Z_injective in Hk. by rewrite Hk, Z.odd_mul in Hodd.
Qed.

(** ** Properties of [wrap_coords] *)

(** Claim C4. For finite inputs the normalised latitude lies in [-90, 90]
    and the normalised longitude in [-180, 180]. *)
Theorem wrap_coords_in_range lat long :
  is_finite lat = true → is_finite long = true →
  float_within (-90) 90 (wrap_coords lat long).1 ∧
  float_within (-180) 180 (wrap_coords lat long).2.
Proof.
  intros Hlat Hlong. rewrite wrap_coords_axes. simpl.
  split; apply wrap_axis_within; (lra || done).
Qed.

Lemma wrap_coords_in_range_witness :
  float_within (-90) 90 (wrap_coords (Fin 100) (Fin (-190.5))).1 ∧
  float_within (-180) 180 (wrap_coords (Fin 100) (Fin (-190.5))).2.
Proof. apply wrap_coords_in_range; reflexivity. Defined.

(** Claim C12. A coordinate above its bound becomes the remainder by the
    negated bound, which lies in (-bound, 0], whatever the other
    coordinate is: the two coordinates are treated independently. *)
Theorem wrap_coords_above p q lat long :
  90 < p → 180 < q →
  (wrap_coords (Fin p) long).1 = Fin (Qpymod p (-90)) ∧
  (wrap_coords lat (Fin q)).2 = Fin (Qpymod q (-180)) ∧
  wrap_coords (Fin p) (Fin q) = (Fin (Qpymod p (-90)), Fin (Qpymod q (-180))) ∧
  (-90 < Qpymod p (-90) <= 0) ∧ (-180 < Qpymod q (-180) <= 0).
Proof.
  intros Hp Hq. rewrite !wrap_coords_axes, !wrap_axis_above by done.
  split_and!; try reflexivity; by apply Qpymod_neg_bound.
Qed.

Lemma wrap_coords_above_witness :
  (wrap_coords (Fin 91) (Fin (-200))).1 = Fin (Qpymod 91 (-90)) ∧
  (wrap_coords NaN (Fin 190)).2 = Fin (Qpymod 190 (-180)) ∧
  wrap_coords (Fin 91) (Fin 190)
    = (Fin (Qpymod 91 (-90)), Fin (Qpymod 190 (-180))) ∧
  (-90 < Qpymod 91 (-90) <= 0) ∧ (-180 < Qpymod 190 (-180) <= 0).
Proof. apply wrap_coords_above; reflexivity. Defined.

(** Claim C19. A coordinate below the negated bound becomes the remainder by
    the bound, which lies in [0, bound), whatever the other coordinate
    is. *)
Theorem wrap_coords_below p q lat long :
  p < -90 → q < -180 →
  (wrap_coords (Fin p) long).1 = Fin (Qpymod p 90) ∧
  (wrap_coords lat (Fin q)).2 = Fin (Qpymod q 180) ∧
  wrap_coords (Fin p) (Fin q) = (Fin (Qpymod p 90), Fin (Qpymod q 180)) ∧
  (0 <= Qpymod p 90 < 90) ∧ (0 <= Qpymod q 180 < 180).
Proof.
  intros Hp Hq. rewrite !wrap_coords_axes.
  rewrite !(wrap_axis_below 90), !(wrap_axis_below 180) by done.
  split_and!; try reflexivity; by apply Qpymod_pos_bound.
Qed.

Lemma wrap_coords_below_witness :
  (wrap_coords (Fin (-100)) (Fin 500)).1 = Fin (Qpymod (-100) 90) ∧
  (wrap_coords PosInf (Fin (-200.5))).2 = Fin (Qpymod (-200.5) 180) ∧
  wrap_coords (Fin (-100)) (Fin (-200.5))
    = (Fin (Qpymod (-100) 90), Fin (Qpymod (-200.5) 180)) ∧
  (0 <= Qpymod (-100) 90 < 90) ∧ (0 <= Qpymod (-200.5) 180 < 180).
Proof. apply wrap_coords_below; reflexivity. Defined.

(** Claim C31. Coordinates already in range are returned as they are. *)
Theorem wrap_coords_inside lat long :
  float_within (-90) 90 lat → float_within (-180) 180 long →
  wrap_coords lat long = (lat, long).
Proof.
  destruct lat as [p| | |], long as [q| | |]; try done. simpl; intros Hp Hq.
  by rewrite wrap_coords_axes, !wrap_axis_inside.
Qed.

Lemma wrap_coords_inside_witness :
  wrap_coords (Fin 42.1) (Fin (-75.9)) = (Fin 42.1, Fin (-75.9)).
Proof. apply wrap_coords_inside; simpl; lra. Defined.

(** Claim C32. Normalising twice is normalising once, for every float. *)
Theorem wrap_coords_idempotent lat long :
  wrap_coords (wrap_coords lat long).1 (wrap_coords lat long).2
  = wrap_coords lat long.
Proof. apply wrap_coords_idem_pair. Qed.

(** [wrap_coords] respects equality of values: inputs that denote
    the same numbers give outputs that do. *)
Theorem wrap_coords_respects lat lat' long long' :
  lat ≡ lat' → long ≡ long' →
  (wrap_coords lat long).1 ≡ (wrap_coords lat' long').1 ∧
  (wrap_coords lat long).2 ≡ (wrap_coords lat' long').2.
Proof.
  intros Hlat Hlong. rewrite !wrap_coords_axes. simpl.
  split; by apply wrap_axis_proper.
Qed.

Lemma wrap_coords_respects_witness :
  (wrap_coords (Fin (200 # 2)) (Fin (3 # 6))).1 ≡ (wrap_coords (Fin 100) (Fin 0.5)).1 ∧
  (wrap_coords (Fin (200 # 2)) (Fin (3 # 6))).2 ≡ (wrap_coords (Fin 100) (Fin 0.5)).2.
Proof. apply wrap_coords_respects; reflexivity. Defined.

(** The normalised value differs from the input by a whole number
    of bounds (90 for the latitude, 180 for the longitude): the rule wraps,
    it does not clamp. *)
Theorem wrap_coords_congruent p q :
  ∃ (j k : Z) r s, wrap_coords (Fin p) (Fin q) = (Fin r, Fin s) ∧
    r == p - 90 * inject_Z j ∧ s == q - 180 * inject_Z k.
Proof.
  destruct (wrap_axis_congr 90 p) as (j & r & Hr & Hj).
  destruct (wrap_axis_congr 180 q) as (k & s & Hs & Hk).
  exists j, k, r, s. by rewrite wrap_coords_axes, Hr, Hs.
Qed.

(** Claim C38. An infinite or NaN coordinate is not brought into range,
    whatever the other coordinate is: the result for it is NaN, for which
    no bound holds. *)
Theorem wrap_coords_not_finite x other :
  is_finite x = false →
  (wrap_coords x other).1 = NaN ∧ (wrap_coords other x).2 = NaN ∧
  ¬ float_within (-90) 90 (wrap_coords x other).1 ∧
  ¬ float_within (-180) 180 (wrap_coords other x).2.
Proof.
  intros Hx. rewrite !wrap_coords_axes. simpl.
  destruct x; try done; rewrite ?wrap_axis_NaN, ?wrap_axis_PosInf, ?wrap_axis_NegInf;
    split_and!; (done || tauto).
Qed.

Lemma wrap_coords_not_finite_witness :
  (wrap_coords PosInf (Fin 10)).1 = NaN ∧ (wrap_coords (Fin 10) PosInf).2 = NaN ∧
  ¬ float_within (-90) 90 (wrap_coords PosInf (Fin 10)).1 ∧
  ¬ float_within (-180) 180 (wrap_coords (Fin 10) PosInf).2.
Proof. apply wrap_coords_not_finite; reflexivity. Defined.

(** Claim C39. Above 180 the longitude is wrapped with period 180, not
    360: adding any whole number of half turns to a longitude above 180
    (staying above 180) does not change the result, although an odd number
    of half turns names another meridian. So of two opposite meridians
    above 180 at most one is normalised to itself. *)
Theorem wrap_coords_longitude_period lat q (k : Z) :
  180 < q → 180 < q + 180 * inject_Z k →
  (wrap_coords lat (Fin (q + 180 * inject_Z k))).2 ≡ (wrap_coords lat (Fin q)).2 ∧
  (Z.odd k = true → ¬ same_meridian (q + 180 * inject_Z k) q).
Proof.
  intros Hq Hqk. rewrite !wrap_coords_axes. simpl.
  split; [by apply wrap_axis_period|apply half_turns_differ].
Qed.

(** The meridians 190 and 370 degrees: 370 degrees, 10 degrees east, is
    normalised like 190 degrees, to -170. *)
Lemma wrap_coords_longitude_period_witness :
  (wrap_coords (Fin 0) (Fin (190 + 180 * inject_Z 1))).2
    ≡ (wrap_coords (Fin 0) (Fin 190)).2 ∧
  ¬ same_meridian (190 + 180 * inject_Z 1) 190 ∧
  (wrap_coords (Fin 0) (Fin 190)).2 ≡ Fin (-170).
Proof.
  destruct (wrap_coords_longitude_period (Fin 0) 190 1) as [Hsame Hodd];
    [reflexivity..|].
  split_and!; [exact Hsame|exact (Hodd eq_refl)|by vm_compute].
Defined.

(** ** Properties of [get_coord_args] *)
Local Close Scope Q_scope.

Section get_coord_args_spec.
Context `{FloatParser}.
Implicit Types (args pre post : list string) (arg slat slong : string).

(** Without the flag nothing else of the function runs. *)
Lemma get_coord_args_no_flag args :
  "-c" ∉ args → get_coord_args args = mret default_coords.
Proof.
  intros Hc. unfold get_coord_args.
  by rewrite (proj2 (list_in_false "-c" args)).
Qed.

(** With the flag, the argument after its first occurrence is converted. *)
Lemma get_coord_args_flag pre arg post :
  "-c" ∉ pre → get_coord_args (pre ++ "-c" :: arg :: post) = coords_of_arg arg.
Proof.
  intros Hc. unfold get_coord_args.
  rewrite (proj2 (list_in_true "-c" _)) by (apply elem_of_app; right; left).
  cbn [negb]. rewrite list_index_app_first, Py_bind_ret_l by done.
  rewrite (list_getitem_Some _ _ arg), Py_bind_ret_l; [done|].
  rewrite lookup_app_r by lia.
  by replace (length pre + 1 - length pre) with 1 by lia.
Qed.

Lemma get_coord_args_flag_last pre :
  "-c" ∉ pre → get_coord_args (pre ++ ["-c"]) = mthrow IndexError.
Proof.
  intros Hc. unfold get_coord_args.
  rewrite (proj2 (list_in_true "-c" _)) by (apply elem_of_app; right; left).
  cbn [negb]. rewrite list_index_app_first, Py_bind_ret_l by done.
  rewrite list_getitem_None; [done|]. rewrite length_app. simpl. lia.
Qed.

(** The conversion of a well-shaped argument, by the outcome of [float] on
    its two halves. *)
Lemma coords_of_arg_pieces arg slat slong :
  str_split "," arg = [slat; slong] →
  coords_of_arg arg =
    match float_of_str slat, float_of_str slong with
    | Some lat, Some long => mret (wrap_coords lat long)
    | _, _ => bad_float_run
    end.
Proof.
  intros Hsplit. unfold coords_of_arg, py_float.
  rewrite Hsplit, unpack2_pair. py_simpl.
  destruct (float_of_str slat) as [lat|]; py_simpl; [|done].
  destruct (float_of_str slong) as [long|]; by py_simpl.
Qed.

Lemma coords_of_arg_shape arg :
  length (str_split "," arg) ≠ 2 → coords_of_arg arg = mthrow ValueError.
Proof. intros Hlen. unfold coords_of_arg. by rewrite unpack2_length, Py_bind_raise. Qed.

End get_coord_args_spec.

Section get_coord_args_claims.
Context `{FloatParser}.
Implicit Types (args pre post : list string) (arg slat slong : string).

(** Every run of the conversion ends in one of four ways. *)
Lemma coords_of_arg_outcomes arg :
  (∃ lat long, coords_of_arg arg = mret (wrap_coords lat long)) ∨
  coords_of_arg arg = mthrow ValueError ∨
  coords_of_arg arg = bad_float_run.
Proof.
  destruct (str_split "," arg) as [|slat [|slong [|x l]]] eqn:Hsplit;
    try (right; left; apply coords_of_arg_shape; by rewrite Hsplit).
  rewrite (coords_of_arg_pieces _ _ _ Hsplit).
  destruct (float_of_str slat) as [lat|]; [|by right; right].
  destruct (float_of_str slong) as [long|]; [|by right; right].
  left. by exists lat, long.
Qed.

(** What [get_coord_args] prints is messages, and its only exit is 1. *)
Lemma get_coord_args_confined args :
  confined (λ ev, is_message ev = true) [1]%Z (get_coord_args args).
Proof. unfold get_coord_args, coords_of_arg. solve_confined. Qed.

(** A run of [get_coord_args] that returns has printed nothing. *)
Lemma get_coord_args_returns args c :
  returns (get_coord_args args) c → get_coord_args args = mret c.
Proof.
  unfold returns.
  destruct (decide ("-c" ∈ args)) as [Hin|Hout];
    [|rewrite get_coord_args_no_flag by done; by intros [= ->]].
  apply list_elem_of_split_l in Hin as (pre & rest & -> & Hpre).
  destruct rest as [|arg post]; [by rewrite get_coord_args_flag_last|].
  rewrite get_coord_args_flag by done.
  destruct (coords_of_arg_outcomes arg) as [(lat & long & ->)| [-> | ->]]; try done.
  by intros [= ->].
Qed.

(** Claim C30. Without [-c] the default coordinates (42.1, -75.9) are
    returned, nothing is printed, and they are in range as they stand. *)
Theorem get_coord_args_default args :
  "-c" ∉ args →
  get_coord_args args = mret (Fin 42.1%Q, Fin (-75.9)%Q) ∧
  wrap_coords (Fin 42.1%Q) (Fin (-75.9)%Q) = (Fin 42.1%Q, Fin (-75.9)%Q).
Proof. intros Hc. split; [by apply get_coord_args_no_flag|done]. Qed.

(** Claim C8. With [-c LAT,LONG] where both halves are accepted by [float],
    the result is the normalised pair of the two floats, whatever surrounds
    the flag; nothing is printed. Only the first [-c] counts. *)
Theorem get_coord_args_accepts pre slat slong post lat long :
  "-c" ∉ pre → str_mem ","%char slat = false → str_mem ","%char slong = false →
  float_of_str slat = Some lat → float_of_str slong = Some long →
  get_coord_args (pre ++ "-c" :: (slat +:+ "," +:+ slong) :: post)
  = mret (wrap_coords lat long).
Proof.
  intros Hc Hslat Hslong Hlat Hlong. rewrite get_coord_args_flag by done.
  rewrite (coords_of_arg_pieces _ slat slong) by by apply str_split_pair.
  by rewrite Hlat, Hlong.
Qed.

(** Claim C16. When [float] rejects either half, the message
    "Invalid args: bad float number format" is printed and the process
    exits with status 1. *)
Theorem get_coord_args_bad_float pre slat slong post :
  "-c" ∉ pre → str_mem ","%char slat = false → str_mem ","%char slong = false →
  float_of_str slat = None ∨ float_of_str slong = None →
  get_coord_args (pre ++ "-c" :: (slat +:+ "," +:+ slong) :: post) = bad_float_run ∧
  exit_status (get_coord_args (pre ++ "-c" :: (slat +:+ "," +:+ slong) :: post)) = 1%Z.
Proof.
  intros Hc Hslat Hslong Hbad. rewrite get_coord_args_flag by done.
  rewrite (coords_of_arg_pieces _ slat slong) by by apply str_split_pair.
  destruct Hbad as [-> | ->]; [done|]. by destruct (float_of_str slat).
Qed.

(** Claim C29. A [-c] that is the last argument raises IndexError, and an
    argument after [-c] that does not split into exactly two at commas
    raises ValueError; neither is caught, so nothing is printed by the
    program and the interpreter exits with status 1. *)
Theorem get_coord_args_malformed pre arg post :
  "-c" ∉ pre → length (str_split "," arg) ≠ 2 →
  get_coord_args (pre ++ ["-c"]) = mthrow IndexError ∧
  get_coord_args (pre ++ "-c" :: arg :: post) = mthrow ValueError.
Proof.
  intros Hc Hlen. split; [by apply get_coord_args_flag_last|].
  rewrite get_coord_args_flag by done. by apply coords_of_arg_shape.
Qed.

(** Claim C28. [get_coord_args] always ends in one of five ways: a pair
    that [wrap_coords] leaves unchanged, ValueError, IndexError, or the
    reported exit; its exit status is 0 or 1. *)
Theorem get_coord_args_outcomes args :
  ((∃ c, get_coord_args args = mret c ∧ wrap_coords c.1 c.2 = c) ∨
   get_coord_args args = mthrow IndexError ∨
   get_coord_args args = mthrow ValueError ∨
   get_coord_args args = bad_float_run) ∧
  (exit_status (get_coord_args args) = 0 ∨ exit_status (get_coord_args args) = 1)%Z.
Proof.
  assert (Hcases : (∃ c, get_coord_args args = mret c ∧ wrap_coords c.1 c.2 = c) ∨
    get_coord_args args = mthrow IndexError ∨
    get_coord_args args = mthrow ValueError ∨
    get_coord_args args = bad_float_run).
  { destruct (decide ("-c" ∈ args)) as [Hin|Hout];
      [|left; exists default_coords; by rewrite get_coord_args_no_flag].
    apply list_elem_of_split_l in Hin as (pre & rest & -> & Hpre).
    destruct rest as [|arg post]; [right; left; by apply get_coord_args_flag_last|].
    rewrite get_coord_args_flag by done.
    destruct (coords_of_arg_outcomes arg) as [(lat & long & ->)| [-> | ->]]; auto.
    left. eexists. split; [done|]. apply wrap_coords_idem_pair. }
  split; [done|].
  destruct Hcases as [(c & -> & _)|[-> | [-> | ->]]]; auto.
Qed.

End get_coord_args_claims.

(** ** Runs with the decimal parser *)

Lemma get_coord_args_default_witness :
  get_coord_args ["croon"] = mret (Fin 42.1%Q, Fin (-75.9)%Q) ∧
  wrap_coords (Fin 42.1%Q) (Fin (-75.9)%Q) = (Fin 42.1%Q, Fin (-75.9)%Q).
Proof. apply get_coord_args_default. by_compute. Defined.

Lemma get_coord_args_accepts_witness :
  get_coord_args ["croon"; "-c"; "100.5" +:+ "," +:+ "-190"]
  = mret (wrap_coords (Fin 100.5) (Fin (-190))).
Proof.
  apply (get_coord_args_accepts ["croon"] "100.5" "-190" []);
    [by_compute|reflexivity..].
Defined.

Lemma get_coord_args_bad_float_witness :
  get_coord_args ["croon"; "-c"; "12.5" +:+ "," +:+ "east"] = bad_float_run ∧
  exit_status (get_coord_args ["croon"; "-c"; "12.5" +:+ "," +:+ "east"]) = 1%Z.
Proof.
  apply (get_coord_args_bad_float ["croon"] "12.5" "east" []);
    [by_compute|reflexivity..|right; reflexivity].
Defined.

Lemma get_coord_args_malformed_witness :
  get_coord_args (["croon"] ++ ["-c"]) = mthrow IndexError ∧
  get_coord_args (["croon"] ++ "-c" :: "1,2,3" :: []) = mthrow ValueError.
Proof. apply get_coord_args_malformed; by_compute. Defined.
