(* ===== verification/Json.v ===== *)
(** The values [json.loads] returns, and the Python operations the program
    applies to them: subscripting with a string or with 0, iteration, and
    comparison with a string literal. Each operation raises what Python
    raises on a value of the wrong type. *)

From stdpp Require Import base tactics option list strings gmap.
From S2P Require Import Prelude PyBuiltins PyFloat.

#[warnings="-register-all"]
Inductive json : Type :=
| JNull
| JBool (b : bool)
| JInt (z : Z)
| JFloat (x : pyfloat)
| JStr (s : string)
| JArr (l : list json)
| JObj (m : gmap string json).

(** The characters of a string, each as a string of length one. *)
Fixpoint str_chars (s : string) : list string :=
  match s with
  | EmptyString => []
  | String c s' => String c "" :: str_chars s'
  end.

(** [v[k]] for a string [k]: a dict is looked up (KeyError when the key is
    absent); a list or a string wants an integer and anything else cannot be
    subscripted (TypeError). *)
Definition getitem_str (v : json) (k : string) : Py json :=
  match v with
  | JObj m =>
      match m !! k with
      | Some x => mret x
      | None => mthrow KeyError
      end
  | _ => mthrow TypeError
  end.

(** [v[0]]: the first element of a list or the first character of a string
    (IndexError when empty); a dict has no key 0, its keys being strings
    (KeyError); anything else cannot be subscripted (TypeError). *)
Definition getitem_0 (v : json) : Py json :=
  match v with
  | JArr l => list_getitem l 0
  | JStr s => list_getitem (JStr <$> str_chars s) 0
  | JObj _ => mthrow KeyError
  | _ => mthrow TypeError
  end.

(** The elements [for item in v] visits: those of a list, the keys of a
    dict, the characters of a string; anything else is not iterable
    (TypeError). *)
Definition py_iter (v : json) : Py (list json) :=
  match v with
  | JArr l => mret l
  | JObj m => mret (JStr <$> (map_to_list m).*1)
  | JStr s => mret (JStr <$> str_chars s)
  | _ => mthrow TypeError
  end.

(** [v == "literal"]: only a string is equal to a string. *)
Definition eq_str (v : json) (s : string) : bool :=
  match v with
  | JStr s' => bool_decide (s' = s)
  | _ => false
  end.

(** [v in l] and the position [l.index(v)] finds, for a list [l] of string
    literals. *)
Definition in_strs (v : json) (l : list string) : bool :=
  match v with
  | JStr s => list_in s l
  | _ => false
  end.
Definition index_strs (v : json) (l : list string) : Py nat :=
  match v with
  | JStr s => list_index s l
  | _ => mthrow ValueError
  end.

(** A dict given by its items, later items replacing earlier ones. *)
Definition jobj (items : list (string * json)) : json :=
  JObj (list_to_map (reverse items)).

Lemma eq_str_true v s : eq_str v s = true ↔ v = JStr s.
Proof.
  destruct v; simpl; try (split; [done|by intros [=]]).
  rewrite bool_decide_eq_true. split; [by intros ->|by intros [= ->]].
Qed.

Lemma eq_str_JStr s s' : eq_str (JStr s) s' = bool_decide (s = s').
Proof. done. Qed.

Lemma getitem_str_Some m k x : m !! k = Some x → getitem_str (JObj m) k = mret x.
Proof. simpl. by intros ->. Qed.

Lemma getitem_str_None m k : m !! k = None → getitem_str (JObj m) k = mthrow KeyError.
Proof. simpl. by intros ->. Qed.

(** Subscripting with a string either returns or raises one of two
    exceptions, and prints nothing. *)
Lemma getitem_str_cases v k :
  (∃ m x, v = JObj m ∧ m !! k = Some x ∧ getitem_str v k = mret x) ∨
  (∃ m, v = JObj m ∧ m !! k = None ∧ getitem_str v k = mthrow KeyError) ∨
  ((∀ m, v ≠ JObj m) ∧ getitem_str v k = mthrow TypeError).
Proof.
  destruct v as [| | | | | |m]; try (right; right; by split).
  destruct (m !! k) as [x|] eqn:Hk.
  - left. exists m, x. by rewrite (getitem_str_Some _ _ _ Hk).
  - right; left. exists m. by rewrite (getitem_str_None _ _ Hk).
Qed.

Lemma in_strs_true v l : in_strs v l = true ↔ ∃ s, v = JStr s ∧ s ∈ l.
Proof.
  destruct v as [| | | |s| |]; simpl;
    try (split; [done|by intros (? & [=] & _)]).
  rewrite list_in_true. split; [by exists s|by intros (? & [= ->] & ?)].
Qed.

(** ** Footprints: what each operation can raise; none prints. *)

Lemma getitem_str_tame E v k :
  KeyError ∈ E → TypeError ∈ E → tame E (getitem_str v k).
Proof.
  intros HK HT. destruct v as [| | | | | |m]; simpl; auto using tame_throw.
  destruct (m !! k); auto using tame_ret, tame_throw.
Qed.

Lemma getitem_0_tame E v :
  KeyError ∈ E → IndexError ∈ E → TypeError ∈ E → tame E (getitem_0 v).
Proof.
  intros HK HI HT. destruct v; simpl; auto using tame_throw;
    by apply list_getitem_tame.
Qed.

Lemma py_iter_tame E v : TypeError ∈ E → tame E (py_iter v).
Proof. intros HT. destruct v; simpl; auto using tame_ret, tame_throw. Qed.

Lemma index_strs_tame E v l : ValueError ∈ E → tame E (index_strs v l).
Proof. intros HE. destruct v; simpl; try by apply tame_throw. by apply list_index_tame. Qed.

#[export] Hint Extern 1 (tame _ (index_strs _ _)) => apply index_strs_tame; by_compute : py.
#[export] Hint Extern 1 (tame _ (getitem_str _ _)) => apply getitem_str_tame; by_compute : py.
#[export] Hint Extern 1 (tame _ (getitem_0 _)) => apply getitem_0_tame; by_compute : py.
#[export] Hint Extern 1 (tame _ (py_iter _)) => apply py_iter_tame; by_compute : py.
