(* ===== verification/PyFormat.v ===== *)
(** The text of values: [str(n)] for an int, an instance of [FloatPrinter]
    for decimal values, and the interface [JsonPrinter] for what an
    f-string inserts for a value of a response, with an instance, and the
    interface [RichMarkup] for rich's [escape], with an instance. *)

From stdpp Require Import base tactics option list strings pretty gmap.
From Stdlib Require Import QArith Ascii.
From S2P Require Import Prelude PyBuiltins PyFloat Json.

(** [str(n)] for an int. *)
Definition int_str (z : Z) : string := pretty z.

(** What [f"{v}"] inserts for a value [v] of a response: [str(v)], which for
    a string is the string itself. *)
Class JsonPrinter : Type := {
  json_str : json → string;
  json_str_JStr s : json_str (JStr s) = s;
}.

(** ** A printer of floats

    The digits of the fraction [r / d] (with [0 <= r < d]), at most [n] of
    them, ending where the remainder becomes zero. *)
Fixpoint frac_digits (n : nat) (r d : Z) : string :=
  match n with
  | O => ""
  | S n' =>
      if (r =? 0)%Z then ""
      else String (ascii_of_nat (48 + Z.to_nat (10 * r / d)))
             (frac_digits n' (10 * r mod d)%Z d)
  end.

(** A rational in positional notation with at least one digit after the
    point and at most 17, which is how Python shows a float between 1e-4 and
    1e16 whose shortest decimal form it is. *)
Definition decimal_str (q : Q) : string :=
  let n := Qnum q in
  let d := Z.pos (Qden q) in
  let frac := frac_digits 17 (Z.abs n mod d) d in
  (if (n <? 0)%Z then "-" else "") +:+ pretty (Z.abs n / d)%Z +:+ "." +:+
  (if bool_decide (frac = "") then "0" else frac).

Definition float_str (x : pyfloat) : string :=
  match x with
  | Fin q => decimal_str q
  | PosInf => "inf"
  | NegInf => "-inf"
  | NaN => "nan"
  end.

#[export] Instance decimal_printer : FloatPrinter := float_str.

(** ** A printer of response values

    [repr] of a value inside a list or a dict. Strings are quoted without
    escapes and the items of a dict come in the order of the finite map,
    which is not the insertion order Python shows. *)
Fixpoint json_repr (v : json) : string :=
  match v with
  | JNull => "None"
  | JBool b => if b then "True" else "False"
  | JInt z => int_str z
  | JFloat x => float_str x
  | JStr s => "'" +:+ s +:+ "'"
  | JArr l => "[" +:+ str_join ", " (json_repr <$> l) +:+ "]"
  | JObj m =>
      "{" +:+ str_join ", "
        (map_fold (λ k x acc, ("'" +:+ k +:+ "': " +:+ json_repr x) :: acc) [] m)
      +:+ "}"
  end.

Definition json_show (v : json) : string :=
  match v with
  | JStr s => s
  | _ => json_repr v
  end.

#[export] Instance json_show_printer : JsonPrinter :=
  {| json_str := json_show; json_str_JStr s := eq_refl |}.

(** ** Markup

    [rich.markup.escape]: what the program's usage line passes through
    before it is printed. *)
Class RichMarkup : Type := markup_escape : string → string.

(** The substitution [escape] performs: a backslash is put before every
    tag, a tag being a bracket, one of [a-z#/@], and the text up to the next
    closing bracket when no opening bracket comes first; backslashes
    directly before a tag are doubled. *)
Definition is_tag_start (c : ascii) : bool :=
  let n := nat_of_ascii c in
  ((97 <=? n)%nat && (n <=? 122)%nat) || bool_decide (c ∈ ["#"; "/"; "@"]%char).

(** The number of characters up to and including the first closing bracket,
    if no opening bracket comes before it. *)
Fixpoint tag_close (s : string) : option nat :=
  match s with
  | EmptyString => None
  | String c s' =>
      if bool_decide (c = "]"%char) then Some 1%nat
      else if bool_decide (c = "["%char) then None
      else S <$> tag_close s'
  end.

(** The length of the tag whose opening bracket was just read. *)
Definition tag_length (s : string) : option nat :=
  match s with
  | String c s' => if is_tag_start c then S <$> tag_close s' else None
  | EmptyString => None
  end.

Fixpoint backslashes (n : nat) (s : string) : string :=
  match n with
  | O => s
  | S n' => String "\" (backslashes n' s)
  end.

(** The scan: [bs] backslashes were just copied, [skip] characters of a
    tag are still to be copied. *)
Fixpoint escape_scan (bs skip : nat) (s : string) : string :=
  match s with
  | EmptyString => EmptyString
  | String c s' =>
      match skip with
      | S k => String c (escape_scan 0%nat k s')
      | O =>
          if bool_decide (c = "\"%char) then String c (escape_scan (S bs) 0%nat s')
          else if bool_decide (c = "["%char) then
            match tag_length s' with
            | Some n => backslashes (S bs) (String c (escape_scan 0%nat n s'))
            | None => String c (escape_scan 0%nat 0%nat s')
            end
          else String c (escape_scan 0%nat 0%nat s')
      end
  end.

#[export] Instance rich_escape : RichMarkup := escape_scan 0%nat 0%nat.

(** ** Examples *)

Example float_str_examples :
  float_str (Fin 42.1) = "42.1" ∧ float_str (Fin (-75.9)) = "-75.9" ∧
  float_str (Fin 10) = "10.0" ∧ float_str (Fin (-0.25)) = "-0.25" ∧
  float_str (Fin (1 # 3)) = "0.33333333333333333" ∧ float_str NaN = "nan".
Proof. by vm_compute. Qed.

Example json_show_examples :
  json_show (JStr "Sunday") = "Sunday" ∧ json_show (JInt 2026) = "2026" ∧
  json_show (JArr [JStr "a"; JNull]) = "['a', None]" ∧
  json_show (JBool true) = "True".
Proof. by vm_compute. Qed.

Example rich_escape_examples :
  rich_escape "[[latitude],[longitude]]" = "[\[latitude],\[longitude]]" ∧
  rich_escape "[bold]x[/]" = "\[bold]x\[/]" ∧
  rich_escape "[1] [A]" = "[1] [A]" ∧
  rich_escape "a\\[b]" = "a\\\\\[b]".
Proof. by vm_compute. Qed.
