(* ===== verification/Phases.v ===== *)
(** The phase-to-art selector and the loader of the art file of
    src/main.py: [phase_to_index] (lines 124-143) and [get_moon_phases_art]
    (lines 114-121), with the enumeration of the eight phases as their
    specification. *)

From stdpp Require Import base tactics option list strings.
From Stdlib Require Import Ascii.
From S2P Require Import Prelude PyBuiltins PyFloat Json.

(** The list [phase_choices] of lines 128-137. *)
Definition phase_choices : list string :=
  [ "New Moon"; "Waxing Crescent"; "First Quarter"; "Waxing Gibbous";
    "Full Moon"; "Waning Gibbous"; "Last Quarter"; "Waning Crescent" ].

Definition phase_error : string :=
  "[red]Error: phase_to_index, Moon phase art could not be selected[/]".

(** [phase_to_index(phase)], lines 124-143. The argument is whatever the
    response held under "curphase". *)
Definition phase_to_index (phase : json) : Py nat :=
  let index := 0 in
  if in_strs phase phase_choices
  then index ← index_strs phase phase_choices; mret index
  else rprint phase_error;; mret index.

(** The separator of the art file: three line feeds. *)
Definition art_separator : string :=
  String "010" (String "010" (String "010" EmptyString)).

Definition art_error : string :=
  "[red]Error loading ascii art, did not find eight pieces[/red]".

(** [get_moon_phases_art()], lines 114-121, given the content of
    phases.txt, or [None] when the file cannot be opened. *)
Definition get_moon_phases_art (file : option string) : Py (list string) :=
  match file with
  | None => mthrow OSError
  | Some file_str =>
      let phases := str_split art_separator file_str in
      if bool_decide (length phases ≠ 8)
      then rprint art_error;; py_exit 1
      else mret phases
  end.

(** An art file with eight blocks, for the examples. *)
Definition sample_art : string :=
  str_join art_separator
    [ "( new )"; "( wax-c )"; "( first )"; "( wax-g )";
      "( full )"; "( wan-g )"; "( last )"; "( wan-c )" ].

(** ** The phases as an enumeration *)
Inductive phase : Type :=
| NewMoon | WaxingCrescent | FirstQuarter | WaxingGibbous
| FullMoon | WaningGibbous | LastQuarter | WaningCrescent.

#[export] Instance phase_eq_dec : EqDecision phase.
Proof. solve_decision. Defined.

Definition all_phases : list phase :=
  [ NewMoon; WaxingCrescent; FirstQuarter; WaxingGibbous;
    FullMoon; WaningGibbous; LastQuarter; WaningCrescent ].

Definition phase_name (p : phase) : string :=
  match p with
  | NewMoon => "New Moon" | WaxingCrescent => "Waxing Crescent"
  | FirstQuarter => "First Quarter" | WaxingGibbous => "Waxing Gibbous"
  | FullMoon => "Full Moon" | WaningGibbous => "Waning Gibbous"
  | LastQuarter => "Last Quarter" | WaningCrescent => "Waning Crescent"
  end.

(** The position of a phase in the cycle, which is the position of its
    block in the art file. *)
Definition phase_index (p : phase) : nat :=
  match p with
  | NewMoon => 0 | WaxingCrescent => 1 | FirstQuarter => 2 | WaxingGibbous => 3
  | FullMoon => 4 | WaningGibbous => 5 | LastQuarter => 6 | WaningCrescent => 7
  end.

Definition phase_of_name (s : string) : option phase :=
  list_find (λ p, phase_name p = s) all_phases ≫= λ '(_, p), Some p.

(** ** Facts about the table *)

Lemma phase_choices_names : phase_choices = phase_name <$> all_phases.
Proof. done. Qed.

Lemma phase_choices_NoDup : NoDup phase_choices.
Proof. by_compute. Qed.

Lemma phase_choices_length : length phase_choices = 8.
Proof. done. Qed.

Lemma all_phases_complete p : p ∈ all_phases.
Proof. destruct p; by_compute. Qed.

Lemma all_phases_lookup p : all_phases !! phase_index p = Some p.
Proof. by destruct p. Qed.

Lemma phase_choices_lookup p : phase_choices !! phase_index p = Some (phase_name p).
Proof. by destruct p. Qed.

Lemma phase_index_lt p : phase_index p < 8.
Proof. destruct p; simpl; lia. Qed.

#[export] Instance phase_name_inj : Inj (=) (=) phase_name.
Proof. intros p q Hpq. by destruct p, q. Qed.

#[export] Instance phase_index_inj : Inj (=) (=) phase_index.
Proof. intros p q Hpq. by destruct p, q. Qed.

Lemma phase_of_name_name p : phase_of_name (phase_name p) = Some p.
Proof. by destruct p. Qed.

Lemma phase_of_name_Some s p : phase_of_name s = Some p ↔ s = phase_name p.
Proof.
  split; [|intros ->; apply phase_of_name_name].
  unfold phase_of_name. destruct (list_find _ _) as [[i q]|] eqn:Hfind; [|done].
  apply list_find_Some in Hfind as (_ & <- & _). by intros [= ->].
Qed.

Lemma phase_of_name_None s : phase_of_name s = None ↔ s ∉ phase_choices.
Proof.
  rewrite phase_choices_names, list_elem_of_fmap. split.
  - intros Hnone (p & -> & _). by rewrite phase_of_name_name in Hnone.
  - intros Hnot. destruct (phase_of_name s) as [p|] eqn:Hp; [|done].
    apply phase_of_name_Some in Hp as ->. destruct Hnot.
    eauto using all_phases_complete.
Qed.

(** ** [phase_to_index] on each kind of input *)

Lemma phase_to_index_name p :
  phase_to_index (JStr (phase_name p)) = mret (phase_index p).
Proof. by destruct p. Qed.

Lemma phase_to_index_other v :
  in_strs v phase_choices = false →
  phase_to_index v = Run [OutRich phase_error] (Return 0).
Proof. unfold phase_to_index. by intros ->. Qed.

Lemma phase_to_index_spec v :
  phase_to_index v =
    match v with
    | JStr s =>
        match phase_of_name s with
        | Some p => mret (phase_index p)
        | None => Run [OutRich phase_error] (Return 0)
        end
    | _ => Run [OutRich phase_error] (Return 0)
    end.
Proof.
  destruct v as [| | | |s| |]; try done.
  destruct (phase_of_name s) as [p|] eqn:Hp.
  - apply phase_of_name_Some in Hp as ->. apply phase_to_index_name.
  - apply phase_of_name_None in Hp. apply phase_to_index_other.
    by apply list_in_false.
Qed.

(** What loading does, by the number of blocks found. *)
(** Both functions print messages only, and the only exit is 1. *)
Lemma phase_to_index_confined v :
  confined (λ ev, is_message ev = true) [1]%Z (phase_to_index v).
Proof. unfold phase_to_index. solve_confined. Qed.

Lemma get_moon_phases_art_confined file :
  confined (λ ev, is_message ev = true) [1]%Z (get_moon_phases_art file).
Proof. unfold get_moon_phases_art. destruct file; solve_confined. Qed.

Lemma get_moon_phases_art_Some file_str :
  get_moon_phases_art (Some file_str) =
    if decide (length (str_split art_separator file_str) = 8)
    then mret (str_split art_separator file_str)
    else Run [OutRich art_error] (Raise (SystemExit 1)).
Proof.
  unfold get_moon_phases_art. case_decide as Hlen.
  - by rewrite bool_decide_eq_false_2 by (by intros ?).
  - by rewrite bool_decide_eq_true_2.
Qed.

(** ** Properties of the selector *)

(** Claim C23. Each of the eight canonical phase names is mapped to its
    position in the list, and nothing is printed. *)
Theorem phase_to_index_canonical i s :
  phase_choices !! i = Some s → phase_to_index (JStr s) = mret i.
Proof.
  intros Hi. assert (His := Hi). apply lookup_lt_Some in His.
  rewrite phase_choices_length in His.
  do 8 (destruct i as [|i]; [by injection Hi as <-|]). lia.
Qed.

Lemma phase_to_index_canonical_witness :
  phase_to_index (JStr "Full Moon") = mret 4.
Proof. apply phase_to_index_canonical. reflexivity. Defined.

(** Claim C7. [phase_to_index] implements the enumeration of the phases: a
    string that names a phase gives that phase's index, and every other
    value, string or not, gives 0 after the error notice. *)
Theorem phase_to_index_refines v :
  phase_to_index v =
    match v with
    | JStr s =>
        match phase_of_name s with
        | Some p => mret (phase_index p)
        | None => Run [OutRich phase_error] (Return 0)
        end
    | _ => Run [OutRich phase_error] (Return 0)
    end.
Proof. apply phase_to_index_spec. Qed.

(** Claim C24. A value that is not one of the eight names is not an error
    of the process: the notice is printed, the index is 0 (the New Moon
    art), and the run goes on. *)
Theorem phase_to_index_unknown v :
  (∀ s, v = JStr s → s ∉ phase_choices) →
  phase_to_index v = Run [OutRich phase_error] (Return 0) ∧
  exit_status (phase_to_index v) = 0%Z.
Proof.
  intros Hv. rewrite phase_to_index_other; [done|].
  apply not_true_iff_false. intros (s & -> & Hs)%in_strs_true. by apply (Hv s).
Qed.

Lemma phase_to_index_unknown_witness :
  phase_to_index (JStr "Blue Moon") = Run [OutRich phase_error] (Return 0) ∧
  exit_status (phase_to_index (JStr "Blue Moon")) = 0%Z.
Proof.
  apply phase_to_index_unknown. intros s [= <-]. by_compute.
Defined.

(** [phase_to_index] never raises and its result is below 8,
    whatever the value it is given. *)
Theorem phase_to_index_bound v :
  ∃ i, returns (phase_to_index v) i ∧ i < 8.
Proof.
  rewrite phase_to_index_spec. destruct v as [| | | |s| |];
    try (exists 0; split; [done|lia]).
  destruct (phase_of_name s) as [p|]; [|exists 0; split; [done|lia]].
  exists (phase_index p). split; [done|apply phase_index_lt].
Qed.

(** Different phases are shown with different art: on the
    canonical names the index determines the name. *)
Theorem phase_to_index_injective s t i :
  s ∈ phase_choices → t ∈ phase_choices →
  returns (phase_to_index (JStr s)) i → returns (phase_to_index (JStr t)) i →
  s = t.
Proof.
  rewrite phase_choices_names, !list_elem_of_fmap.
  intros (p & -> & _) (q & -> & _). rewrite !phase_to_index_name.
  intros [= <-] [= Hpq]. by apply phase_index_inj in Hpq as ->.
Qed.

Lemma phase_to_index_injective_witness : "Full Moon" = "Full Moon".
Proof.
  apply (phase_to_index_injective "Full Moon" "Full Moon" 4);
    [by_compute|by_compute|reflexivity..].
Defined.

(** ** Properties of the loader *)

(** Claim C13. A file that splits into exactly eight blocks at the
    separator is loaded without a message: the result is those eight
    blocks, and joining them with the separator gives the file back. *)
Theorem get_moon_phases_art_loads file_str :
  length (str_split art_separator file_str) = 8 →
  get_moon_phases_art (Some file_str) = mret (str_split art_separator file_str) ∧
  str_join art_separator (str_split art_separator file_str) = file_str.
Proof.
  intros Hlen. rewrite get_moon_phases_art_Some, decide_True by done.
  split; [done|]. unfold str_split.
  rewrite <-(str_drop_0 file_str) at 2.
  by apply (str_join_split_scan art_separator file_str 0); [|lia].
Qed.

Lemma get_moon_phases_art_loads_witness :
  get_moon_phases_art (Some sample_art) = mret (str_split art_separator sample_art) ∧
  str_join art_separator (str_split art_separator sample_art) = sample_art.
Proof. apply get_moon_phases_art_loads. reflexivity. Defined.

(** Claim C25. With any other number of blocks the loader prints its error
    and exits with status 1. *)
Theorem get_moon_phases_art_rejects file_str :
  length (str_split art_separator file_str) ≠ 8 →
  get_moon_phases_art (Some file_str) = Run [OutRich art_error] (Raise (SystemExit 1)) ∧
  exit_status (get_moon_phases_art (Some file_str)) = 1%Z.
Proof.
  intros Hlen. by rewrite get_moon_phases_art_Some, decide_False.
Qed.

Lemma get_moon_phases_art_rejects_witness :
  get_moon_phases_art (Some (sample_art +:+ art_separator +:+ "(ninth)"))
    = Run [OutRich art_error] (Raise (SystemExit 1)) ∧
  exit_status (get_moon_phases_art (Some (sample_art +:+ art_separator +:+ "(ninth)")))
    = 1%Z.
Proof. apply get_moon_phases_art_rejects. by_compute. Defined.

(** Claim C26. When the art is loaded and a phase is selected, the selected
    index is a position of the loaded list: the subscript of line 65 cannot
    raise. *)
Theorem art_lookup_safe file v arts i :
  returns (get_moon_phases_art file) arts → returns (phase_to_index v) i →
  is_Some (arts !! i).
Proof.
  intros Harts Hi. destruct (phase_to_index_bound v) as (j & Hj & Hlt).
  unfold returns in *. rewrite Hi in Hj. injection Hj as ->.
  destruct file as [file_str|]; [|done].
  rewrite get_moon_phases_art_Some in Harts. case_decide as Hlen; [|done].
  injection Harts as <-. apply lookup_lt_is_Some. lia.
Qed.

Lemma art_lookup_safe_witness :
  is_Some (str_split art_separator sample_art !! 2).
Proof.
  apply (art_lookup_safe (Some sample_art) (JStr "First Quarter")); reflexivity.
Defined.
