(* ===== verification/Mapper.v ===== *)
(** The record mapper of src/main.py: [format_moon_data] (lines 196-235).
    The two scanning loops are modelled with the local variables they
    assign kept in a finite map, so that a variable no iteration assigned is
    unbound when the record is built. *)

From stdpp Require Import base tactics option list strings gmap.
From S2P Require Import Prelude PyBuiltins PyFloat Json.

(** The local variables the loops assign: name to value; a name that is
    not in the map is unbound. *)
Abbreviation locals := (gmap string json).

(** Reading a local variable: UnboundLocalError when nothing assigned it. *)
Definition load_local (σ : locals) (name : string) : Py json :=
  match σ !! name with
  | Some v => mret v
  | None => mthrow UnboundLocalError
  end.

(** The body of the loop over [sun_transit], lines 202-209. Each condition
    evaluates [item["phen"]] again, as the source does. *)
Definition sun_step (σ : locals) (item : json) : Py locals :=
  phen ← getitem_str item "phen";
  if eq_str phen "Set"
  then t ← getitem_str item "time"; mret (<["sunset_time" := t]> σ)
  else
    phen ← getitem_str item "phen";
    if eq_str phen "Rise"
    then t ← getitem_str item "time"; mret (<["sunrise_time" := t]> σ)
    else
      phen ← getitem_str item "phen";
      if eq_str phen "Begin Civil Twilight"
      then t ← getitem_str item "time"; mret (<["dawn" := t]> σ)
      else
        phen ← getitem_str item "phen";
        if eq_str phen "End Civil Twilight"
        then t ← getitem_str item "time"; mret (<["dusk" := t]> σ)
        else mret σ.

(** The body of the loop over [moon_transit], lines 212-215. *)
Definition moon_step (σ : locals) (item : json) : Py locals :=
  phen ← getitem_str item "phen";
  if eq_str phen "Set"
  then t ← getitem_str item "time"; mret (<["moonset_time" := t]> σ)
  else
    phen ← getitem_str item "phen";
    if eq_str phen "Rise"
    then t ← getitem_str item "time"; mret (<["moonrise_time" := t]> σ)
    else mret σ.

(** The dict [out_data] of lines 217-228, one field per key. *)
Record almanac : Type := Almanac {
  day_of_week : json;
  current_phase : json;
  fracillum : json;
  sunrise : json;
  sunset : json;
  moonrise : json;
  moonset : json;
  dawn : json;
  dusk : json;
  next_phase : json;
}.

(** The [except KeyError] handler, lines 230-233; [print(KeyError)] prints
    the class. *)
Definition format_error_handler {A} : Py A :=
  py_print "Error formatting data";; py_print "<class 'KeyError'>";; py_exit 1.

(** The first half of the [try], lines 198-215: the two lists are fetched
    and scanned; the result is the local variables the scans assigned. *)
Definition scan_transits (oneday : json) : Py locals :=
  moon_transit ← getitem_str oneday "moondata";
  sun_transit ← getitem_str oneday "sundata";
  items ← py_iter sun_transit;
  σ ← py_for sun_step items ∅;
  items ← py_iter moon_transit;
  py_for moon_step items σ.

(** The second half, lines 217-228: the entries of the dict are evaluated
    in the order they are written. *)
Definition build_out_data (oneday phases : json) (σ : locals) : Py almanac :=
  day_of_week ← getitem_str oneday "day_of_week";
  current_phase ← getitem_str oneday "curphase";
  fracillum ← getitem_str oneday "fracillum";
  sunrise ← load_local σ "sunrise_time";
  sunset ← load_local σ "sunset_time";
  moonrise ← load_local σ "moonrise_time";
  moonset ← load_local σ "moonset_time";
  dawn ← load_local σ "dawn";
  dusk ← load_local σ "dusk";
  next_phase ← getitem_0 phases;
  mret (Almanac day_of_week current_phase fracillum sunrise sunset
          moonrise moonset dawn dusk next_phase).

(** [format_moon_data(oneday, phases)], lines 196-235. *)
Definition format_moon_data (oneday phases : json) : Py almanac :=
  py_try (σ ← scan_transits oneday; build_out_data oneday phases σ)
    is_KeyError format_error_handler.

(** The run of the handler: two lines, then [exit(1)]. *)
Definition format_error_run : Py almanac :=
  Run [OutPrint "Error formatting data"; OutPrint "<class 'KeyError'>"]
    (Raise (SystemExit 1)).

(** ** The scan, by table

    The reference the two loop bodies are compared with: one evaluation of
    [item["phen"]], then the first row of a table of (phenomenon, variable)
    whose phenomenon it equals. *)
Definition sun_table : list (string * string) :=
  [ ("Set", "sunset_time"); ("Rise", "sunrise_time");
    ("Begin Civil Twilight", "dawn"); ("End Civil Twilight", "dusk") ].
Definition moon_table : list (string * string) :=
  [ ("Set", "moonset_time"); ("Rise", "moonrise_time") ].

Definition table_var (table : list (string * string)) (phen : json) : option string :=
  snd <$> find (λ row, eq_str phen row.1) table.

Definition scan_step (table : list (string * string)) (σ : locals) (item : json)
    : Py locals :=
  phen ← getitem_str item "phen";
  match table_var table phen with
  | Some var => t ← getitem_str item "time"; mret (<[var := t]> σ)
  | None => mret σ
  end.

(** An event as the service sends it: a dict with a phenomenon and a time
    (other keys do not matter). *)
Definition is_event (item : json) (phen : string) (time : json) : Prop :=
  ∃ m, item = JObj m ∧ m !! "phen" = Some (JStr phen) ∧ m !! "time" = Some time.

Definition event (phen : string) (time : json) : json :=
  jobj [("phen", JStr phen); ("time", time)].

(** The time of the last event of a list with a given phenomenon. *)
Definition last_time (phen : string) (evs : list (string * json)) : option json :=
  snd <$> find (λ ev, bool_decide (ev.1 = phen)) (reverse evs).

(** What a scan over events assigns. *)
Definition assign_events (table : list (string * string))
    (evs : list (string * json)) (σ : locals) : locals :=
  foldl (λ σ ev, match table_var table (JStr ev.1) with
                 | Some var => <[var := ev.2]> σ
                 | None => σ
                 end) σ evs.

(** The exceptions the guarded block can raise. *)
Definition mapper_excs : list pyexc :=
  [KeyError; TypeError; UnboundLocalError; IndexError].

(** The variable of the scans a field of the record is read from. *)
Definition almanac_var (r : almanac) (var : string) : option json :=
  if bool_decide (var = "sunrise_time") then Some (sunrise r)
  else if bool_decide (var = "sunset_time") then Some (sunset r)
  else if bool_decide (var = "moonrise_time") then Some (moonrise r)
  else if bool_decide (var = "moonset_time") then Some (moonset r)
  else if bool_decide (var = "dawn") then Some (dawn r)
  else if bool_decide (var = "dusk") then Some (dusk r)
  else None.

(** The variables the two tables name. *)
Definition scan_vars : list string :=
  ["sunset_time"; "sunrise_time"; "dawn"; "dusk"; "moonset_time"; "moonrise_time"].

(** What the two scans assign, from no variable bound, over the events
    of the two lists. *)
Definition scanned (sun_evs moon_evs : list (string * json)) : locals :=
  assign_events moon_table moon_evs (assign_events sun_table sun_evs ∅).

(** ** The specification of the mapper

    [describes m np r]: the record [r] is what the one-day data [m] and
    the upcoming phase [np] say: the three top-level fields, for each of
    the six phenomena the time of its last event, and [np]. *)
Definition describes (m : gmap string json) (np : json) (r : almanac) : Prop :=
  ∃ sun_items moon_items sun_evs moon_evs,
    m !! "sundata" = Some (JArr sun_items) ∧
    m !! "moondata" = Some (JArr moon_items) ∧
    Forall2 (λ item ev, is_event item ev.1 ev.2) sun_items sun_evs ∧
    Forall2 (λ item ev, is_event item ev.1 ev.2) moon_items moon_evs ∧
    m !! "day_of_week" = Some (day_of_week r) ∧
    m !! "curphase" = Some (current_phase r) ∧
    m !! "fracillum" = Some (fracillum r) ∧
    last_time "Rise" sun_evs = Some (sunrise r) ∧
    last_time "Set" sun_evs = Some (sunset r) ∧
    last_time "Rise" moon_evs = Some (moonrise r) ∧
    last_time "Set" moon_evs = Some (moonset r) ∧
    last_time "Begin Civil Twilight" sun_evs = Some (dawn r) ∧
    last_time "End Civil Twilight" sun_evs = Some (dusk r) ∧
    next_phase r = np.

(** ** A sample response *)

Definition sample_sun_evs : list (string * json) :=
  [ ("Begin Civil Twilight", JStr "06:21"); ("Rise", JStr "06:50");
    ("Upper Transit", JStr "11:47"); ("Set", JStr "16:44");
    ("End Civil Twilight", JStr "17:13") ].
Definition sample_moon_evs : list (string * json) :=
  [ ("Rise", JStr "13:02"); ("Upper Transit", JStr "18:30"); ("Set", JStr "23:58") ].

Definition sample_data (sun_evs moon_evs : list (string * json)) : gmap string json :=
  list_to_map
    [ ("day_of_week", JStr "Sunday"); ("curphase", JStr "First Quarter");
      ("fracillum", JStr "52%");
      ("moondata", JArr ((λ ev, event ev.1 ev.2) <$> moon_evs));
      ("sundata", JArr ((λ ev, event ev.1 ev.2) <$> sun_evs)) ].

Definition sample_next_phase : json :=
  jobj [ ("phase", JStr "Full Moon"); ("year", JInt 2026); ("month", JInt 11);
         ("day", JInt 24); ("time", JStr "14:53") ].

(** The record the sample response describes. *)
Definition sample_almanac : almanac :=
  Almanac (JStr "Sunday") (JStr "First Quarter") (JStr "52%")
    (JStr "06:50") (JStr "16:44") (JStr "13:02") (JStr "23:58")
    (JStr "06:21") (JStr "17:13") sample_next_phase.

(** ** The loop bodies against the table *)

Lemma load_local_Some (σ : locals) name v : σ !! name = Some v → load_local σ name = mret v.
Proof. unfold load_local. by intros ->. Qed.

Lemma load_local_None (σ : locals) name :
  σ !! name = None → load_local σ name = mthrow UnboundLocalError.
Proof. unfold load_local. by intros ->. Qed.

(** Evaluating [item["phen"]] once per condition or once per item is the
    same: the lookup has no effect and always gives the same value. *)
Lemma sun_step_scan σ item : sun_step σ item = scan_step sun_table σ item.
Proof.
  unfold sun_step, scan_step.
  destruct (getitem_str_cases item "phen")
    as [(m & x & _ & _ & ->)|[(m & _ & _ & ->)|(_ & ->)]]; py_simpl; [|done..].
  unfold table_var, sun_table. cbn [find fst].
  repeat (destruct (eq_str x _); [done|]). done.
Qed.

Lemma moon_step_scan σ item : moon_step σ item = scan_step moon_table σ item.
Proof.
  unfold moon_step, scan_step.
  destruct (getitem_str_cases item "phen")
    as [(m & x & _ & _ & ->)|[(m & _ & _ & ->)|(_ & ->)]]; py_simpl; [|done..].
  unfold table_var, moon_table. cbn [find fst].
  repeat (destruct (eq_str x _); [done|]). done.
Qed.

Lemma py_for_ext {S X} (f g : S → X → Py S) l s :
  (∀ s x, f s x = g s x) → py_for f l s = py_for g l s.
Proof.
  intros Hfg. revert s; induction l as [|x l IH]; intros s; [done|].
  cbn [py_for]. rewrite Hfg. by apply Py_bind_ext.
Qed.

Section scan.
Context (table : list (string * string)).
Implicit Types (σ : locals) (evs : list (string * json)) (items : list json).

Lemma table_var_Some p var :
  table_var table (JStr p) = Some var → (p, var) ∈ table.
Proof.
  unfold table_var. destruct (find _ table) as [[p' var']|] eqn:Hfind; [|done].
  intros [= <-]. apply find_some in Hfind as [Hin Hp]. simpl in Hp.
  apply bool_decide_eq_true in Hp as ->. by apply list_elem_of_In.
Qed.

Lemma table_var_None p var :
  table_var table (JStr p) = None → (p, var) ∉ table.
Proof.
  unfold table_var. destruct (find _ table) as [row|] eqn:Hfind; [done|].
  intros _ Hin%list_elem_of_In. apply (find_none _ _ Hfind) in Hin.
  simpl in Hin. by apply bool_decide_eq_false in Hin.
Qed.

Lemma scan_step_event σ item p t :
  is_event item p t →
  scan_step table σ item =
    mret (match table_var table (JStr p) with
          | Some var => <[var := t]> σ
          | None => σ
          end).
Proof.
  intros (m & -> & Hphen & Htime). unfold scan_step.
  rewrite (getitem_str_Some _ _ _ Hphen). py_simpl.
  destruct (table_var table (JStr p)); [|done].
  rewrite (getitem_str_Some _ _ _ Htime). by py_simpl.
Qed.

Lemma scan_step_not_dict σ bad :
  (∀ d, bad ≠ JObj d) → scan_step table σ bad = mthrow TypeError.
Proof.
  intros Hbad. unfold scan_step.
  destruct bad as [| | | | | |d]; [..|by destruct (Hbad d)]; cbn [getitem_str]; by py_simpl.
Qed.

Lemma scan_step_no_phen σ d :
  d !! "phen" = None → scan_step table σ (JObj d) = mthrow KeyError.
Proof. intros Hphen. unfold scan_step. rewrite (getitem_str_None _ _ Hphen). by py_simpl. Qed.

Lemma table_var_in phen var : table_var table phen = Some var → var ∈ table.*2.
Proof.
  unfold table_var. destruct (find _ table) as [row|] eqn:Hfind; [|done].
  intros [= <-]. apply find_some in Hfind as [Hin _].
  apply list_elem_of_fmap. exists row. by rewrite list_elem_of_In.
Qed.

(** One iteration leaves the variables alone or assigns one of the table. *)
Lemma scan_step_returns σ item σ' :
  returns (scan_step table σ item) σ' →
  σ' = σ ∨ ∃ var t, var ∈ table.*2 ∧ σ' = <[var := t]> σ.
Proof.
  unfold scan_step. intros (phen & _ & Hr)%returns_bind.
  destruct (table_var table phen) as [var|] eqn:Hvar; [|left; by injection Hr].
  apply returns_bind in Hr as (t & _ & [= <-]). right. exists var, t.
  eauto using table_var_in.
Qed.

(** A whole scan only binds variables of the table and unbinds none. *)
#[local] Set Warnings "-clear-no-such-hyp".
Lemma py_for_scan_dom σ items σ' :
  returns (py_for (scan_step table) items σ) σ' →
  dom σ ⊆ dom σ' ∧ dom σ' ⊆ dom σ ∪ list_to_set table.*2.
Proof.
  revert σ. induction items as [|item items IH]; intros σ.
  - intros [= <-]. set_solver.
  - cbn [py_for]. intros (σ1 & Hstep & Hrest)%returns_bind.
    apply IH in Hrest as [Hlo Hhi].
    apply scan_step_returns in Hstep as [->|(var & t & Hvar & ->)]; [done|].
    rewrite dom_insert in Hlo, Hhi. set_solver.
Qed.
#[local] Set Warnings "clear-no-such-hyp".

(** A scan over well-formed events performs their assignments. *)
Lemma py_for_scan_events σ items evs :
  Forall2 (λ item ev, is_event item ev.1 ev.2) items evs →
  py_for (scan_step table) items σ = mret (assign_events table evs σ).
Proof.
  intros Hevs. revert σ. induction Hevs as [|item [p t] items evs Hev _ IH];
    intros σ; [done|].
  cbn [py_for]. rewrite (scan_step_event _ _ p t Hev). py_simpl. apply IH.
Qed.

Lemma assign_events_snoc evs ev σ :
  assign_events table (evs ++ [ev]) σ =
    match table_var table (JStr ev.1) with
    | Some var => <[var := ev.2]> (assign_events table evs σ)
    | None => assign_events table evs σ
    end.
Proof. unfold assign_events. by rewrite foldl_app. Qed.

Lemma last_time_snoc p evs ev :
  last_time p (evs ++ [ev]) = if decide (ev.1 = p) then Some ev.2 else last_time p evs.
Proof.
  unfold last_time. rewrite reverse_snoc. cbn [find].
  case_decide as Hp; [by rewrite bool_decide_eq_true_2|].
  by rewrite bool_decide_eq_false_2.
Qed.

Lemma last_time_app p t pre post :
  p ∉ post.*1 → last_time p (pre ++ (p, t) :: post) = Some t.
Proof.
  induction post as [|ev post IH] using rev_ind; intros Hpost.
  - rewrite (last_time_snoc p pre (p, t)). by rewrite decide_True.
  - rewrite fmap_app, not_elem_of_app in Hpost. destruct Hpost as [Hpost Hev].
    rewrite app_comm_cons, app_assoc, last_time_snoc, decide_False; [by apply IH|].
    intros <-. apply Hev. by left.
Qed.

(** A variable the table does not name is left alone. *)
Lemma assign_events_other evs σ var :
  var ∉ table.*2 → assign_events table evs σ !! var = σ !! var.
Proof.
  intros Hvar. induction evs as [|ev evs IH] using rev_ind; [done|].
  rewrite assign_events_snoc.
  destruct (table_var table (JStr ev.1)) as [var'|] eqn:Hrow; [|done].
  apply table_var_Some in Hrow. rewrite lookup_insert_ne; [done|].
  intros <-. apply Hvar. apply list_elem_of_fmap. by exists (ev.1, var').
Qed.

(** A variable of the table holds the time of the last event with its
    phenomenon, and keeps its value when there is none. *)
Lemma assign_events_lookup evs σ p var :
  NoDup table.*1 → NoDup table.*2 → (p, var) ∈ table →
  assign_events table evs σ !! var =
    match last_time p evs with Some t => Some t | None => σ !! var end.
Proof.
  intros Hnames Hvars Hrow. induction evs as [|ev evs IH] using rev_ind; [done|].
  rewrite assign_events_snoc, last_time_snoc.
  destruct (table_var table (JStr ev.1)) as [var'|] eqn:Hev.
  - apply table_var_Some in Hev. case_decide as Hp.
    + subst p. rewrite (NoDup_fst_functional table ev.1 var var') by done.
      apply lookup_insert_eq.
    + rewrite lookup_insert_ne; [done|]. intros <-. apply Hp.
      by apply (NoDup_snd_injective table ev.1 p var').
  - rewrite decide_False; [done|]. intros <-.
    by apply (table_var_None _ var) in Hev.
Qed.

End scan.

(** ** Footprint of the mapper *)

Lemma load_local_tame E (σ : locals) name :
  UnboundLocalError ∈ E → tame E (load_local σ name).
Proof. intros HE. unfold load_local. destruct (σ !! name); auto using tame_ret, tame_throw. Qed.

#[export] Hint Extern 1 (tame _ (load_local _ _)) => apply load_local_tame; by_compute : py.

Lemma scan_step_tame table σ item : tame mapper_excs (scan_step table σ item).
Proof. unfold scan_step. solve_tame. Qed.

Lemma scan_transits_tame oneday : tame mapper_excs (scan_transits oneday).
Proof.
  unfold scan_transits. solve_tame.
Qed.

Lemma build_out_data_tame oneday phases σ :
  tame mapper_excs (build_out_data oneday phases σ).
Proof. unfold build_out_data. solve_tame. Qed.

(** The guard, by the outcome of the guarded block. *)
Lemma format_moon_data_guard oneday phases :
  format_moon_data oneday phases =
    match result (σ ← scan_transits oneday; build_out_data oneday phases σ) with
    | Return r => mret r
    | Raise KeyError => format_error_run
    | Raise e => mthrow e
    end.
Proof.
  unfold format_moon_data.
  rewrite (tame_Run mapper_excs (_ ≫= _))
    by (apply tame_bind; auto using scan_transits_tame, build_out_data_tame).
  simpl. destruct (result _) as [r|[]]; by py_simpl.
Qed.

(** The mapper prints messages only, and its only exit is 1. *)
Lemma format_moon_data_confined oneday phases :
  confined (λ ev, is_message ev = true) [1]%Z (format_moon_data oneday phases).
Proof.
  unfold format_moon_data, format_error_handler. apply confined_try; [|solve_confined].
  apply (confined_tame _ _ mapper_excs); [|by repeat constructor].
  apply tame_bind; auto using scan_transits_tame, build_out_data_tame.
Qed.

Lemma scan_vars_tables : scan_vars = sun_table.*2 ++ moon_table.*2.
Proof. done. Qed.

Lemma load_local_returns (σ : locals) name v :
  returns (load_local σ name) v ↔ σ !! name = Some v.
Proof.
  unfold load_local. destruct (σ !! name) as [w|]; [|done].
  split; by intros [= ->].
Qed.

Lemma getitem_str_returns m k v :
  returns (getitem_str (JObj m) k) v ↔ m !! k = Some v.
Proof.
  simpl. destruct (m !! k) as [w|]; [|done]. split; by intros [= ->].
Qed.

(** ** Building the record *)

(** When the record is built, every field read from a scan variable holds
    that variable's value. *)
Lemma build_out_data_returns oneday phases σ r var :
  returns (build_out_data oneday phases σ) r → var ∈ scan_vars →
  almanac_var r var = σ !! var.
Proof.
  intros Hr Hvar. unfold build_out_data in Hr.
  repeat (apply returns_bind in Hr as (? & ?Hstep & Hr)).
  injection Hr as <-. apply load_local_returns in Hstep2, Hstep3, Hstep4, Hstep5,
    Hstep6, Hstep7.
  repeat (apply elem_of_cons in Hvar as [->|Hvar]; [by symmetry|]).
  by apply elem_of_nil in Hvar.
Qed.

(** With the three top-level keys present, an unbound scan variable makes
    the construction raise UnboundLocalError. *)
Lemma build_out_data_unbound m phases σ var dow cp fi :
  m !! "day_of_week" = Some dow → m !! "curphase" = Some cp →
  m !! "fracillum" = Some fi →
  var ∈ scan_vars → σ !! var = None →
  build_out_data (JObj m) phases σ = mthrow UnboundLocalError.
Proof.
  intros Hdow Hcp Hfi Hvar Hnone. unfold build_out_data.
  rewrite (getitem_str_Some _ _ _ Hdow), (getitem_str_Some _ _ _ Hcp),
    (getitem_str_Some _ _ _ Hfi). py_simpl. unfold load_local.
  repeat (apply elem_of_cons in Hvar as [->|Hvar];
    [rewrite Hnone; by repeat (case_match; py_simpl)|]).
  by apply elem_of_nil in Hvar.
Qed.

(** With everything bound, the construction ends with [phases[0]]. *)
Lemma build_out_data_bound m phases σ dow cp fi sr ss mr ms dn dk :
  m !! "day_of_week" = Some dow → m !! "curphase" = Some cp →
  m !! "fracillum" = Some fi →
  σ !! "sunrise_time" = Some sr → σ !! "sunset_time" = Some ss →
  σ !! "moonrise_time" = Some mr → σ !! "moonset_time" = Some ms →
  σ !! "dawn" = Some dn → σ !! "dusk" = Some dk →
  build_out_data (JObj m) phases σ =
    np ← getitem_0 phases; mret (Almanac dow cp fi sr ss mr ms dn dk np).
Proof.
  intros Hdow Hcp Hfi Hsr Hss Hmr Hms Hdn Hdk. unfold build_out_data.
  rewrite (getitem_str_Some _ _ _ Hdow), (getitem_str_Some _ _ _ Hcp),
    (getitem_str_Some _ _ _ Hfi).
  rewrite (load_local_Some _ _ _ Hsr), (load_local_Some _ _ _ Hss),
    (load_local_Some _ _ _ Hmr), (load_local_Some _ _ _ Hms),
    (load_local_Some _ _ _ Hdn), (load_local_Some _ _ _ Hdk).
  by py_simpl.
Qed.

(** A missing top-level key is the first thing the construction meets. *)
Lemma build_out_data_missing_key m phases σ k :
  k ∈ ["day_of_week"; "curphase"; "fracillum"] → m !! k = None →
  build_out_data (JObj m) phases σ = mthrow KeyError.
Proof.
  intros Hk Hnone. unfold build_out_data.
  repeat (apply elem_of_cons in Hk as [->|Hk];
    [simpl; rewrite ?Hnone; by repeat (case_match; py_simpl)|]).
  by apply elem_of_nil in Hk.
Qed.

(** ** Well-formed responses

    The one-day data is a dict [m] whose "sundata" and "moondata" are lists
    of events; [sun_evs] and [moon_evs] are the (phenomenon, time) pairs of
    those events, in order. *)
Section responses.
Context (m : gmap string json) (sun_items moon_items : list json).
Context (sun_evs moon_evs : list (string * json)).
Hypothesis Hmoondata : m !! "moondata" = Some (JArr moon_items).
Hypothesis Hsundata : m !! "sundata" = Some (JArr sun_items).
Hypothesis Hsun : Forall2 (λ item ev, is_event item ev.1 ev.2) sun_items sun_evs.
Hypothesis Hmoon : Forall2 (λ item ev, is_event item ev.1 ev.2) moon_items moon_evs.


Lemma scan_transits_events : scan_transits (JObj m) = mret (scanned sun_evs moon_evs).
Proof using Hmoondata Hsundata Hsun Hmoon.
  unfold scan_transits.
  rewrite (getitem_str_Some _ _ _ Hmoondata), (getitem_str_Some _ _ _ Hsundata).
  py_simpl. cbn [py_iter]. py_simpl.
  rewrite (py_for_ext _ _ _ _ sun_step_scan), (py_for_scan_events _ _ _ _ Hsun).
  py_simpl. rewrite (py_for_ext _ _ _ _ moon_step_scan).
  apply (py_for_scan_events _ _ _ _ Hmoon).
Qed.

Lemma scanned_sun p var :
  (p, var) ∈ sun_table → scanned sun_evs moon_evs !! var = last_time p sun_evs.
Proof using Type.
  intros Hrow. unfold scanned. rewrite assign_events_other.
  - rewrite (assign_events_lookup sun_table _ _ p) by (done || by_compute).
    by destruct (last_time p sun_evs).
  - repeat (apply elem_of_cons in Hrow as [[= -> ->]|Hrow]; [by_compute|]).
    by apply elem_of_nil in Hrow.
Qed.

Lemma scanned_moon p var :
  (p, var) ∈ moon_table → scanned sun_evs moon_evs !! var = last_time p moon_evs.
Proof using Type.
  intros Hrow. unfold scanned.
  rewrite (assign_events_lookup moon_table _ _ p) by (done || by_compute).
  destruct (last_time p moon_evs); [done|]. rewrite assign_events_other; [done|].
  repeat (apply elem_of_cons in Hrow as [[= -> ->]|Hrow]; [by_compute|]).
  by apply elem_of_nil in Hrow.
Qed.

(** The six variables, by name. *)
Lemma scanned_vars :
  scanned sun_evs moon_evs !! "sunrise_time" = last_time "Rise" sun_evs ∧
  scanned sun_evs moon_evs !! "sunset_time" = last_time "Set" sun_evs ∧
  scanned sun_evs moon_evs !! "moonrise_time" = last_time "Rise" moon_evs ∧
  scanned sun_evs moon_evs !! "moonset_time" = last_time "Set" moon_evs ∧
  scanned sun_evs moon_evs !! "dawn" = last_time "Begin Civil Twilight" sun_evs ∧
  scanned sun_evs moon_evs !! "dusk" = last_time "End Civil Twilight" sun_evs.
Proof using Type.
  split_and!; (apply scanned_sun || apply scanned_moon); by_compute.
Qed.

Lemma format_moon_data_scanned phases :
  format_moon_data (JObj m) phases =
    py_try (build_out_data (JObj m) phases (scanned sun_evs moon_evs)) is_KeyError format_error_handler.
Proof using Hmoondata Hsundata Hsun Hmoon.
  unfold format_moon_data. by rewrite scan_transits_events, Py_bind_ret_l.
Qed.

End responses.

(** The mapper implements its specification: from data that describe a
    record it returns that record and prints nothing. *)
Lemma format_moon_data_describes m np rest r :
  describes m np r → format_moon_data (JObj m) (JArr (np :: rest)) = mret r.
Proof.
  intros (sun_items & moon_items & sun_evs & moon_evs & Hsd & Hmd & Hsun & Hmoon
          & Hdow & Hcp & Hfi & Hsr & Hss & Hmr & Hms & Hdn & Hdk & Hnp).
  rewrite (format_moon_data_scanned _ _ _ sun_evs moon_evs) by done.
  destruct (scanned_vars sun_evs moon_evs) as (E1 & E2 & E3 & E4 & E5 & E6).
  rewrite <- E1 in Hsr. rewrite <- E2 in Hss. rewrite <- E3 in Hmr.
  rewrite <- E4 in Hms. rewrite <- E5 in Hdn. rewrite <- E6 in Hdk.
  rewrite (build_out_data_bound _ _ _ _ _ _ _ _ _ _ _ _ Hdow Hcp Hfi Hsr Hss Hmr Hms Hdn Hdk).
  destruct r; simpl in *; subst. by py_simpl.
Qed.

Lemma describes_curphase m np r : describes m np r → m !! "curphase" = Some (current_phase r).
Proof. by intros (? & ? & ? & ? & ? & ? & ? & ? & ? & ? & _). Qed.

Lemma describes_next_phase m np r : describes m np r → next_phase r = np.
Proof. by intros (? & ? & ? & ? & ? & ? & ? & ? & ? & ? & ? & ? & ? & ? & ? & ? & ? & ?). Qed.

(** ** Properties of the mapper on well-formed responses *)
Section mapper_claims.
Context (m : gmap string json) (sun_items moon_items : list json).
Context (sun_evs moon_evs : list (string * json)) (phases : json).
Hypothesis Hmoondata : m !! "moondata" = Some (JArr moon_items).
Hypothesis Hsundata : m !! "sundata" = Some (JArr sun_items).
Hypothesis Hsun : Forall2 (λ item ev, is_event item ev.1 ev.2) sun_items sun_evs.
Hypothesis Hmoon : Forall2 (λ item ev, is_event item ev.1 ev.2) moon_items moon_evs.

(** Claim C1. From a response that holds the three top-level fields, the
    six phenomena and a first upcoming phase, the mapper returns the record
    whose time fields are the times of the last event of each phenomenon,
    and prints nothing. *)
Theorem format_moon_data_maps dow cp fi sr ss mr ms dn dk np rest :
  m !! "day_of_week" = Some dow → m !! "curphase" = Some cp →
  m !! "fracillum" = Some fi →
  last_time "Rise" sun_evs = Some sr → last_time "Set" sun_evs = Some ss →
  last_time "Rise" moon_evs = Some mr → last_time "Set" moon_evs = Some ms →
  last_time "Begin Civil Twilight" sun_evs = Some dn →
  last_time "End Civil Twilight" sun_evs = Some dk →
  phases = JArr (np :: rest) →
  format_moon_data (JObj m) phases = mret (Almanac dow cp fi sr ss mr ms dn dk np).
Proof using Hmoondata Hsundata Hsun Hmoon.
  intros Hdow Hcp Hfi Hsr Hss Hmr Hms Hdn Hdk ->.
  rewrite (format_moon_data_scanned _ _ _ sun_evs moon_evs) by done.
  destruct (scanned_vars sun_evs moon_evs) as (E1 & E2 & E3 & E4 & E5 & E6).
  rewrite (build_out_data_bound _ _ _ dow cp fi sr ss mr ms dn dk); [done|done..| | | | | |];
    congruence.
Qed.

(** Claim C5. When one of the six phenomena is absent from its list (the
    top-level fields being present), the mapper raises UnboundLocalError.
    The [except KeyError] clause does not catch it: no record is returned,
    "Error formatting data" is not printed, and the interpreter exits with
    status 1. *)
Theorem format_moon_data_missing_phenomenon p var dow cp fi :
  m !! "day_of_week" = Some dow → m !! "curphase" = Some cp →
  m !! "fracillum" = Some fi →
  ((p, var) ∈ sun_table ∧ last_time p sun_evs = None) ∨
  ((p, var) ∈ moon_table ∧ last_time p moon_evs = None) →
  format_moon_data (JObj m) phases = mthrow UnboundLocalError ∧
  exit_status (format_moon_data (JObj m) phases) = 1%Z.
Proof using Hmoondata Hsundata Hsun Hmoon.
  intros Hdow Hcp Hfi Hmiss.
  rewrite (format_moon_data_scanned _ _ _ sun_evs moon_evs) by done.
  rewrite (build_out_data_unbound _ _ _ var dow cp fi); [done|done..| |].
  - rewrite scan_vars_tables, elem_of_app, !list_elem_of_fmap.
    destruct Hmiss as [[Hrow _]|[Hrow _]]; [left|right]; by exists (p, var).
  - destruct Hmiss as [[Hrow <-]|[Hrow <-]];
      [by apply scanned_sun|by apply scanned_moon].
Qed.

(** Claim C20. When "day_of_week", "curphase" or "fracillum" is absent, the
    KeyError is caught: the two lines of the handler are printed and the
    process exits with status 1. *)
Theorem format_moon_data_missing_field k :
  k ∈ ["day_of_week"; "curphase"; "fracillum"] → m !! k = None →
  format_moon_data (JObj m) phases = format_error_run ∧
  exit_status (format_moon_data (JObj m) phases) = 1%Z.
Proof using Hmoondata Hsundata Hsun Hmoon.
  intros Hk Hnone.
  rewrite (format_moon_data_scanned _ _ _ sun_evs moon_evs) by done.
  by rewrite (build_out_data_missing_key _ _ _ k).
Qed.

(** Claim C15. When a phenomenon occurs more than once, the time of its
    last occurrence is the one in the record. *)
Theorem format_moon_data_last_wins r p var t pre post :
  returns (format_moon_data (JObj m) phases) r →
  (p, var) ∈ sun_table → sun_evs = pre ++ (p, t) :: post → p ∉ post.*1 →
  almanac_var r var = Some t.
Proof using Hmoondata Hsundata Hsun Hmoon.
  intros Hr Hrow Hevs Hpost. unfold returns in Hr.
  rewrite (format_moon_data_scanned _ _ _ sun_evs moon_evs), py_try_outcome in Hr
    by done.
  destruct (result (build_out_data _ _ _)) as [r'|e] eqn:Hbuild;
    [injection Hr as ->|by destruct e].
  rewrite (build_out_data_returns _ _ _ _ var Hbuild).
  - rewrite (scanned_sun _ _ p) by done. subst sun_evs. by apply last_time_app.
  - rewrite scan_vars_tables, elem_of_app, !list_elem_of_fmap. left. by exists (p, var).
Qed.

(** Claim C35. The upcoming phase is [phases[0]]: an empty list raises
    IndexError, which is not caught; a dict has no key 0 and raises
    KeyError, which is. *)
Theorem format_moon_data_next_phase dow cp fi sr ss mr ms dn dk :
  m !! "day_of_week" = Some dow → m !! "curphase" = Some cp →
  m !! "fracillum" = Some fi →
  last_time "Rise" sun_evs = Some sr → last_time "Set" sun_evs = Some ss →
  last_time "Rise" moon_evs = Some mr → last_time "Set" moon_evs = Some ms →
  last_time "Begin Civil Twilight" sun_evs = Some dn →
  last_time "End Civil Twilight" sun_evs = Some dk →
  (phases = JArr [] → format_moon_data (JObj m) phases = mthrow IndexError) ∧
  (∀ d, phases = JObj d → format_moon_data (JObj m) phases = format_error_run).
Proof using Hmoondata Hsundata Hsun Hmoon.
  intros Hdow Hcp Hfi Hsr Hss Hmr Hms Hdn Hdk.
  destruct (scanned_vars sun_evs moon_evs) as (E1 & E2 & E3 & E4 & E5 & E6).
  rewrite (format_moon_data_scanned _ _ _ sun_evs moon_evs) by done.
  rewrite (build_out_data_bound _ _ _ dow cp fi sr ss mr ms dn dk) by congruence.
  split; [intros ->|intros d ->]; done.
Qed.

End mapper_claims.

(** ** Properties of the mapper on any response *)

(** Claim C33. When "moondata" or "sundata" is absent from the one-day
    dict, the handler runs: its two lines are printed and the process exits
    with status 1. *)
Theorem format_moon_data_missing_transit m phases :
  m !! "moondata" = None ∨ m !! "sundata" = None →
  format_moon_data (JObj m) phases = format_error_run.
Proof.
  intros Hmiss. unfold format_moon_data, scan_transits.
  destruct (m !! "moondata") as [moon|] eqn:Hmoon.
  - destruct Hmiss as [?|Hsun]; [done|].
    rewrite (getitem_str_Some _ _ _ Hmoon), (getitem_str_None _ _ Hsun). by py_simpl.
  - rewrite (getitem_str_None _ _ Hmoon). by py_simpl.
Qed.

(** Claim C36. The two loop bodies are table lookups: evaluating
    [item["phen"]] in every condition of the if-chain gives what one
    evaluation followed by a search of the table gives. *)
Theorem loop_bodies_follow_tables σ item :
  sun_step σ item = scan_step sun_table σ item ∧
  moon_step σ item = scan_step moon_table σ item.
Proof. split; [apply sun_step_scan|apply moon_step_scan]. Qed.

(** Claim C37. Whatever the items, when the sun scan and then the moon scan
    complete, no variable has been unbound, the sun scan has bound only
    variables of its table and the moon scan only variables of its own. *)
Theorem scans_bind_own_variables sun_items moon_items (σ σ1 σ2 : locals) :
  returns (py_for sun_step sun_items σ) σ1 →
  returns (py_for moon_step moon_items σ1) σ2 →
  dom σ ⊆ dom σ1 ∧ dom σ1 ⊆ dom σ2 ∧
  dom σ1 ⊆ dom σ ∪ list_to_set sun_table.*2 ∧
  dom σ2 ⊆ dom σ1 ∪ list_to_set moon_table.*2.
Proof.
  rewrite (py_for_ext _ _ _ _ sun_step_scan), (py_for_ext _ _ _ _ moon_step_scan).
  intros [? ?]%py_for_scan_dom [? ?]%py_for_scan_dom. by split_and!.
Qed.

(** An item that is not a dict, after well-formed ones, ends the scan with
    TypeError; a dict without "phen" ends it with KeyError. *)
Lemma py_for_scan_bad table σ pre evs bad post :
  Forall2 (λ item ev, is_event item ev.1 ev.2) pre evs →
  py_for (scan_step table) (pre ++ bad :: post) σ =
    σ' ← scan_step table (assign_events table evs σ) bad;
    py_for (scan_step table) post σ'.
Proof.
  intros Hpre. by rewrite py_for_app, (py_for_scan_events _ _ _ _ Hpre), Py_bind_ret_l.
Qed.

(** Claim C34. A malformed event in "sundata" is fatal in two different
    ways: an item that is not a dict raises TypeError, which is not caught;
    a dict without "phen" raises KeyError, which the handler reports. *)
Theorem format_moon_data_malformed_item m phases moon pre evs bad post :
  m !! "moondata" = Some moon → m !! "sundata" = Some (JArr (pre ++ bad :: post)) →
  Forall2 (λ item ev, is_event item ev.1 ev.2) pre evs →
  ((∀ d, bad ≠ JObj d) → format_moon_data (JObj m) phases = mthrow TypeError) ∧
  (∀ d, bad = JObj d → d !! "phen" = None →
     format_moon_data (JObj m) phases = format_error_run).
Proof.
  intros Hmoon Hsun Hpre. unfold format_moon_data, scan_transits.
  rewrite (getitem_str_Some _ _ _ Hmoon), (getitem_str_Some _ _ _ Hsun).
  py_simpl. cbn [py_iter]. py_simpl.
  rewrite (py_for_ext _ _ _ _ sun_step_scan), (py_for_scan_bad _ _ _ _ _ _ Hpre).
  split.
  - intros Hbad. rewrite scan_step_not_dict by done. by py_simpl.
  - intros d -> Hphen. rewrite scan_step_no_phen by done. by py_simpl.
Qed.

(** Claim C10. The mapper ends in one of three ways: it returns a record
    and prints nothing; or the handler has printed its two lines and the
    process exits with status 1; or TypeError, UnboundLocalError or
    IndexError escapes with nothing printed. KeyError never escapes, and
    the exit status is 0 or 1. *)
Theorem format_moon_data_outcomes oneday phases :
  ((∃ r, format_moon_data oneday phases = mret r) ∨
   format_moon_data oneday phases = format_error_run ∨
   (∃ e, e ∈ [TypeError; UnboundLocalError; IndexError] ∧
         format_moon_data oneday phases = mthrow e)) ∧
  (exit_status (format_moon_data oneday phases) = 0 ∨
   exit_status (format_moon_data oneday phases) = 1)%Z.
Proof.
  rewrite format_moon_data_guard.
  assert (Htame : tame mapper_excs
    (σ ← scan_transits oneday; build_out_data oneday phases σ))
    by (apply tame_bind; auto using scan_transits_tame, build_out_data_tame).
  destruct Htame as [_ Hexc]. unfold raises in Hexc.
  destruct (result _) as [r|e]; [split; [left; by exists r|by left]|].
  specialize (Hexc e eq_refl).
  repeat (apply elem_of_cons in Hexc as [->|Hexc];
    [split; [|by right]; first [by right; left | right; right; eexists; split; [|done]; by_compute]|]).
  by apply elem_of_nil in Hexc.
Qed.

(** ** The properties on the sample response *)

Lemma is_event_event p t : is_event (event p t) p t.
Proof. by eexists. Qed.

Lemma events_well_formed evs :
  Forall2 (λ item ev, is_event item ev.1 ev.2) ((λ ev, event ev.1 ev.2) <$> evs) evs.
Proof. induction evs as [|[p t] evs IH]; constructor; [apply is_event_event|done]. Qed.

Lemma sample_describes :
  describes (sample_data sample_sun_evs sample_moon_evs) sample_next_phase sample_almanac.
Proof.
  exists ((λ ev, event ev.1 ev.2) <$> sample_sun_evs),
    ((λ ev, event ev.1 ev.2) <$> sample_moon_evs), sample_sun_evs, sample_moon_evs.
  split_and!; first [apply events_well_formed | reflexivity].
Qed.

Lemma format_moon_data_maps_witness :
  format_moon_data (JObj (sample_data sample_sun_evs sample_moon_evs))
    (JArr [sample_next_phase])
  = mret (Almanac (JStr "Sunday") (JStr "First Quarter") (JStr "52%")
            (JStr "06:50") (JStr "16:44") (JStr "13:02") (JStr "23:58")
            (JStr "06:21") (JStr "17:13") sample_next_phase).
Proof.
  eapply format_moon_data_maps
    with (sun_evs := sample_sun_evs) (moon_evs := sample_moon_evs);
    first [apply events_well_formed | reflexivity].
Defined.

Lemma format_moon_data_missing_phenomenon_witness :
  format_moon_data (JObj (sample_data sample_sun_evs [("Set", JStr "23:58")]))
    (JArr [sample_next_phase]) = mthrow UnboundLocalError ∧
  exit_status (format_moon_data
    (JObj (sample_data sample_sun_evs [("Set", JStr "23:58")]))
    (JArr [sample_next_phase])) = 1%Z.
Proof.
  eapply format_moon_data_missing_phenomenon
    with (sun_evs := sample_sun_evs) (moon_evs := [("Set", JStr "23:58")])
         (p := "Rise") (var := "moonrise_time");
    first [apply events_well_formed | reflexivity | right; split; [by_compute|reflexivity]].
Defined.

Lemma format_moon_data_missing_field_witness :
  format_moon_data
    (JObj (delete "curphase" (sample_data sample_sun_evs sample_moon_evs)))
    (JArr [sample_next_phase]) = format_error_run ∧
  exit_status (format_moon_data
    (JObj (delete "curphase" (sample_data sample_sun_evs sample_moon_evs)))
    (JArr [sample_next_phase])) = 1%Z.
Proof.
  eapply format_moon_data_missing_field
    with (sun_evs := sample_sun_evs) (moon_evs := sample_moon_evs) (k := "curphase");
    first [apply events_well_formed | reflexivity | by_compute].
Defined.

Lemma format_moon_data_last_wins_witness :
  almanac_var
    (Almanac (JStr "Sunday") (JStr "First Quarter") (JStr "52%")
       (JStr "07:00") (JStr "16:44") (JStr "13:02") (JStr "23:58")
       (JStr "06:21") (JStr "17:13") sample_next_phase)
    "sunrise_time" = Some (JStr "07:00").
Proof.
  eapply format_moon_data_last_wins
    with (m := sample_data (sample_sun_evs ++ [("Rise", JStr "07:00")]) sample_moon_evs)
         (sun_evs := sample_sun_evs ++ [("Rise", JStr "07:00")])
         (moon_evs := sample_moon_evs) (phases := JArr [sample_next_phase])
         (p := "Rise") (pre := sample_sun_evs) (post := []);
    first [apply events_well_formed | reflexivity | by_compute].
Defined.

Lemma format_moon_data_next_phase_witness :
  (JArr [] = JArr [] →
   format_moon_data (JObj (sample_data sample_sun_evs sample_moon_evs)) (JArr [])
   = mthrow IndexError) ∧
  (∀ d, JArr [] = JObj d →
   format_moon_data (JObj (sample_data sample_sun_evs sample_moon_evs)) (JArr [])
   = format_error_run).
Proof.
  eapply format_moon_data_next_phase
    with (sun_evs := sample_sun_evs) (moon_evs := sample_moon_evs);
    first [apply events_well_formed | reflexivity].
Defined.

Lemma format_moon_data_missing_transit_witness :
  format_moon_data
    (JObj (delete "sundata" (sample_data sample_sun_evs sample_moon_evs)))
    (JArr [sample_next_phase]) = format_error_run.
Proof. apply format_moon_data_missing_transit. right. reflexivity. Defined.

Lemma format_moon_data_malformed_item_witness :
  ((∀ d, JStr "Rise" ≠ JObj d) →
   format_moon_data
     (JObj (<["sundata" := JArr ([event "Set" (JStr "16:44")] ++ JStr "Rise" :: [])]>
              (sample_data sample_sun_evs sample_moon_evs)))
     (JArr [sample_next_phase]) = mthrow TypeError) ∧
  (∀ d, JStr "Rise" = JObj d → d !! "phen" = None →
   format_moon_data
     (JObj (<["sundata" := JArr ([event "Set" (JStr "16:44")] ++ JStr "Rise" :: [])]>
              (sample_data sample_sun_evs sample_moon_evs)))
     (JArr [sample_next_phase]) = format_error_run).
Proof.
  eapply format_moon_data_malformed_item with (evs := [("Set", JStr "16:44")]);
    first [apply (events_well_formed [("Set", JStr "16:44")]) | reflexivity].
Defined.

Lemma scans_bind_own_variables_witness :
  dom (∅ : locals) ⊆ dom ({["sunrise_time" := JNull]} : locals) ∧
  dom ({["sunrise_time" := JNull]} : locals)
    ⊆ dom (<["moonset_time" := JNull]> {["sunrise_time" := JNull]} : locals) ∧
  dom ({["sunrise_time" := JNull]} : locals)
    ⊆ dom (∅ : locals) ∪ list_to_set sun_table.*2 ∧
  dom (<["moonset_time" := JNull]> {["sunrise_time" := JNull]} : locals)
    ⊆ dom ({["sunrise_time" := JNull]} : locals) ∪ list_to_set moon_table.*2.
Proof.
  apply (scans_bind_own_variables
           [event "Rise" JNull; event "Noon" JNull] [event "Set" JNull]);
    reflexivity.
Defined.
