(* ===== verification/Render.v ===== *)
(** The text of the right pane, assembled in [main] (src/main.py lines
    44-60), and [print_rich_console] (lines 181-193). *)

From stdpp Require Import base tactics option list strings.
From Stdlib Require Import Ascii.
From S2P Require Import Prelude PyBuiltins PyFloat Json PyFormat Coords Mapper.

(** What [datetime.date.today()] returns. *)
Record date : Type := Date { year : Z; month : Z; day : Z }.

Definition newline : string := String "010" EmptyString.

(** The markup around every label, lines 44-45. *)
Definition style : string := "[bold medium_purple]".
Definition end_style : string := "[/]".

(** The five keys of the next phase the text reads. *)
Definition next_phase_keys : list string := ["phase"; "month"; "day"; "year"; "time"].

Section text.
Context `{JsonPrinter} `{FloatPrinter}.

(** The eleven lines of lines 48-58, given the five fields read from
    [data['next_phase']]. *)
Definition display_lines (data : almanac) (lat long : pyfloat) (curr_date : date)
    (np_phase np_month np_day np_year np_time : json) : list string :=
  [ style +:+ "Date:" +:+ end_style +:+ " " +:+ json_str (day_of_week data) +:+ " "
      +:+ int_str (month curr_date) +:+ "/" +:+ int_str (day curr_date) +:+ "/"
      +:+ int_str (year curr_date);
    style +:+ "Coordinates: " +:+ end_style +:+ float_repr lat +:+ ", " +:+ float_repr long;
    style +:+ "Current Phase:" +:+ end_style +:+ " " +:+ json_str (current_phase data);
    style +:+ "Fracillum:" +:+ end_style +:+ " " +:+ json_str (fracillum data);
    style +:+ "Next Phase: " +:+ end_style +:+ json_str np_phase +:+ " "
      +:+ json_str np_month +:+ "/" +:+ json_str np_day +:+ "/" +:+ json_str np_year
      +:+ " " +:+ json_str np_time;
    style +:+ "Moonrise:" +:+ end_style +:+ " " +:+ json_str (moonrise data);
    style +:+ "Moonset:" +:+ end_style +:+ " " +:+ json_str (moonset data);
    style +:+ "Sunrise:" +:+ end_style +:+ " " +:+ json_str (sunrise data);
    style +:+ "Sunset:" +:+ end_style +:+ " " +:+ json_str (sunset data);
    style +:+ "Dawn:" +:+ end_style +:+ " " +:+ json_str (dawn data);
    style +:+ "Dusk:" +:+ end_style +:+ " " +:+ json_str (dusk data) ].

(** [text_to_display], lines 46-60: the f-strings are evaluated in order,
    and those of the fifth line subscript [data['next_phase']] five times,
    in the order phase, month, day, year, time. *)
Definition text_to_display (data : almanac) (lat long : pyfloat) (curr_date : date)
    : Py string :=
  np_phase ← getitem_str (next_phase data) "phase";
  np_month ← getitem_str (next_phase data) "month";
  np_day ← getitem_str (next_phase data) "day";
  np_year ← getitem_str (next_phase data) "year";
  np_time ← getitem_str (next_phase data) "time";
  mret (str_join newline
          (display_lines data lat long curr_date np_phase np_month np_day np_year np_time)).

End text.

(** [print_rich_console(moon_art, text_to_display, term_width, term_height)],
    lines 181-193: one layout is painted, the art (after a line feed) in a
    left pane of size 30 and the text in a right pane of size
    [term_width - 30], on a console of height [term_height]. *)
Definition print_rich_console (moon_art text : string) (term_width term_height : Z)
    : Py unit :=
  Run [OutLayout (newline +:+ moon_art) text 30 (term_width - 30) term_height]
    (Return tt).

(** ** Properties *)

Section text_facts.
Context `{JsonPrinter} `{FloatPrinter}.

Lemma text_to_display_tame data lat long curr_date :
  tame [KeyError; TypeError] (text_to_display data lat long curr_date).
Proof. unfold text_to_display. solve_tame. Qed.

Lemma text_to_display_fields data lat long curr_date m ph mo dy yr tm :
  next_phase data = JObj m →
  m !! "phase" = Some ph → m !! "month" = Some mo → m !! "day" = Some dy →
  m !! "year" = Some yr → m !! "time" = Some tm →
  text_to_display data lat long curr_date =
    mret (str_join newline (display_lines data lat long curr_date ph mo dy yr tm)).
Proof.
  intros Hnp Hph Hmo Hdy Hyr Htm. unfold text_to_display. rewrite Hnp.
  rewrite (getitem_str_Some _ _ _ Hph), (getitem_str_Some _ _ _ Hmo),
    (getitem_str_Some _ _ _ Hdy), (getitem_str_Some _ _ _ Hyr),
    (getitem_str_Some _ _ _ Htm).
  by py_simpl.
Qed.

Lemma display_lines_length data lat long d a b c e f :
  length (display_lines data lat long d a b c e f) = 11.
Proof. done. Qed.

(** Claim C18. For a record whose next phase holds the five fields, the
    text is eleven lines joined by line feeds; when the current phase is a
    string, the third line is the label "Current Phase:" in the style
    followed by the phase as it stands, and the fifth gives the next
    phase as name, month/day/year and time. The other nine lines are the
    date, the coordinates, the illuminated fraction and the six times,
    each under its label, in the order of the source. *)
Theorem text_to_display_shows data lat long curr_date m ph mo dy yr tm name :
  next_phase data = JObj m →
  m !! "phase" = Some ph → m !! "month" = Some mo → m !! "day" = Some dy →
  m !! "year" = Some yr → m !! "time" = Some tm →
  current_phase data = JStr name →
  ∃ lines,
    text_to_display data lat long curr_date = mret (str_join newline lines) ∧
    length lines = 11 ∧
    lines !! 2 = Some ("[bold medium_purple]Current Phase:[/] " +:+ name) ∧
    lines !! 4 = Some ("[bold medium_purple]Next Phase: [/]" +:+ json_str ph +:+ " "
                       +:+ json_str mo +:+ "/" +:+ json_str dy +:+ "/" +:+ json_str yr
                       +:+ " " +:+ json_str tm) ∧
    lines !! 0 = Some ("[bold medium_purple]Date:[/] " +:+ json_str (day_of_week data)
                       +:+ " " +:+ int_str (month curr_date) +:+ "/"
                       +:+ int_str (day curr_date) +:+ "/" +:+ int_str (year curr_date)) ∧
    lines !! 1 = Some ("[bold medium_purple]Coordinates: [/]" +:+ float_repr lat
                       +:+ ", " +:+ float_repr long) ∧
    lines !! 3 = Some ("[bold medium_purple]Fracillum:[/] " +:+ json_str (fracillum data)) ∧
    lines !! 5 = Some ("[bold medium_purple]Moonrise:[/] " +:+ json_str (moonrise data)) ∧
    lines !! 6 = Some ("[bold medium_purple]Moonset:[/] " +:+ json_str (moonset data)) ∧
    lines !! 7 = Some ("[bold medium_purple]Sunrise:[/] " +:+ json_str (sunrise data)) ∧
    lines !! 8 = Some ("[bold medium_purple]Sunset:[/] " +:+ json_str (sunset data)) ∧
    lines !! 9 = Some ("[bold medium_purple]Dawn:[/] " +:+ json_str (dawn data)) ∧
    lines !! 10 = Some ("[bold medium_purple]Dusk:[/] " +:+ json_str (dusk data)).
Proof.
  intros Hnp Hph Hmo Hdy Hyr Htm Hcur.
  exists (display_lines data lat long curr_date ph mo dy yr tm).
  split; [by apply (text_to_display_fields _ _ _ _ m)|].
  split; [done|]. simpl. by rewrite Hcur, json_str_JStr.
Qed.

(** Claim C27. When the next phase is a dict that lacks one of the five
    fields, composing the text raises KeyError; nothing is printed. *)
Theorem text_to_display_missing data lat long curr_date m k :
  next_phase data = JObj m → k ∈ next_phase_keys → m !! k = None →
  text_to_display data lat long curr_date = mthrow KeyError.
Proof.
  intros Hnp Hk Hnone. unfold text_to_display. rewrite Hnp.
  repeat match goal with
  | |- context [getitem_str (JObj m) ?key] =>
      destruct (m !! key) eqn:?;
        [rewrite (getitem_str_Some m key _) by done; py_simpl
        |by rewrite (getitem_str_None m key)]
  end.
  unfold next_phase_keys in Hk.
  repeat (apply elem_of_cons in Hk as [->|Hk]; [congruence|]).
  by apply elem_of_nil in Hk.
Qed.

End text_facts.

(** ** Runs with the printers of PyFormat *)

Lemma text_to_display_shows_witness :
  ∃ lines,
    text_to_display sample_almanac default_coords.1 default_coords.2 (Date 2026 11 8)
      = mret (str_join newline lines) ∧
    length lines = 11 ∧
    lines !! 2 = Some "[bold medium_purple]Current Phase:[/] First Quarter" ∧
    lines !! 4 = Some "[bold medium_purple]Next Phase: [/]Full Moon 11/24/2026 14:53" ∧
    lines !! 0 = Some "[bold medium_purple]Date:[/] Sunday 11/8/2026" ∧
    lines !! 1 = Some "[bold medium_purple]Coordinates: [/]42.1, -75.9" ∧
    lines !! 3 = Some "[bold medium_purple]Fracillum:[/] 52%" ∧
    lines !! 5 = Some "[bold medium_purple]Moonrise:[/] 13:02" ∧
    lines !! 6 = Some "[bold medium_purple]Moonset:[/] 23:58" ∧
    lines !! 7 = Some "[bold medium_purple]Sunrise:[/] 06:50" ∧
    lines !! 8 = Some "[bold medium_purple]Sunset:[/] 16:44" ∧
    lines !! 9 = Some "[bold medium_purple]Dawn:[/] 06:21" ∧
    lines !! 10 = Some "[bold medium_purple]Dusk:[/] 17:13".
Proof.
  vm_cast_no_check
    (@text_to_display_shows _ _ sample_almanac
       default_coords.1 default_coords.2 (Date 2026 11 8) _
       (JStr "Full Moon") (JInt 11) (JInt 24) (JInt 2026) (JStr "14:53") "First Quarter"
       eq_refl eq_refl eq_refl eq_refl eq_refl eq_refl eq_refl).
Defined.

Lemma text_to_display_missing_witness :
  text_to_display
    (Almanac (JStr "Sunday") (JStr "First Quarter") (JStr "52%")
       (JStr "06:50") (JStr "16:44") (JStr "13:02") (JStr "23:58")
       (JStr "06:21") (JStr "17:13")
       (jobj [("phase", JStr "Full Moon"); ("year", JInt 2026); ("month", JInt 11);
              ("day", JInt 24)]))
    default_coords.1 default_coords.2 (Date 2026 11 8)
  = mthrow KeyError.
Proof.
  eapply text_to_display_missing with (k := "time"); [reflexivity|by_compute|reflexivity].
Defined.
