(* ===== verification/Client.v ===== *)
(** The almanac client of src/main.py: [send_request_moonsun_oneday] (lines
    146-162) and [send_request_moonphases] (lines 165-178). The service is a
    function from requests to responses; [json.loads] is the interface
    [JsonLoader]. *)

From stdpp Require Import base tactics option list strings.
From S2P Require Import Prelude PyBuiltins PyFloat Json PyFormat Render.

(** What [requests.get] returns, as far as the program looks at it. *)
Record response : Type := Response { status_code : Z; text : string }.

(** The service and the network before it: the response to a GET of a URL
    with query parameters, or [None] when [requests.get] raises (its
    exceptions are OSErrors). *)
Definition http : Type := string → list (string * string) → option response.

(** [json.loads(s)]: [None] when it raises (JSONDecodeError, a ValueError). *)
Class JsonLoader : Type := json_loads : string → option json.

Definition py_json_loads `{JsonLoader} (s : string) : Py json :=
  match json_loads s with
  | Some v => mret v
  | None => mthrow ValueError
  end.

(** [requests.get(url, params)]: the request is sent, then the response
    comes back or the call raises. *)
Definition requests_get (net : http) (url : string) (params : list (string * string))
    : Py response :=
  Run [OutGet url params]
    (match net url params with
     | Some resp => Return resp
     | None => Raise OSError
     end).

Definition oneday_error : string :=
  "[red] Invalid non-200 api response (moon and sun one day)[/]".
Definition phases_error : string := "[red]Invalid non-200 api response (phases)[/]".

(** [f"{date.year}-{date.month}-{date.day}"] *)
Definition date_str (d : date) : string :=
  int_str (year d) +:+ "-" +:+ int_str (month d) +:+ "-" +:+ int_str (day d).

(** A loader given by the documents it knows, for the examples. *)
Definition table_loader (docs : list (string * json)) : JsonLoader :=
  λ s, (λ r, r.2.2) <$> list_find (λ d, d.1 = s) docs.

Section client.
Context `{JsonLoader} `{FloatPrinter}.

(** The URL of line 156. *)
Definition oneday_url (lat long : pyfloat) (d : date) (time_zone : Z) : string :=
  "https://aa.usno.navy.mil/api/rstt/oneday?coords=" +:+ float_repr lat +:+ ","
    +:+ float_repr long +:+ "&date=" +:+ date_str d +:+ "&tz=" +:+ int_str time_zone.

(** [send_request_moonsun_oneday(lat, long, date, time_zone)], lines
    146-162. The dict [params] of lines 149-153 is built and not used. *)
Definition send_request_moonsun_oneday (net : http) (lat long : pyfloat) (d : date)
    (time_zone : Z) : Py json :=
  let params :=
    [ ("coords", float_repr lat +:+ "," +:+ float_repr long);
      ("date", date_str d); ("tz", "-5") ] in
  resp ← requests_get net (oneday_url lat long d time_zone) [];
  if bool_decide (status_code resp ≠ 200%Z)
  then rprint oneday_error;; py_exit 1
  else py_json_loads (text resp).

Definition phases_url : string := "https://aa.usno.navy.mil/api/moon/phases/date".

(** [send_request_moonphases(date)], lines 165-178. *)
Definition send_request_moonphases (net : http) (d : date) : Py json :=
  let num_phases := 2%Z in
  let params := [ ("nump", int_str num_phases); ("date", date_str d) ] in
  resp ← requests_get net phases_url params;
  if negb (bool_decide (status_code resp = 200%Z))
  then rprint phases_error;; py_exit 1
  else py_json_loads (text resp).

End client.

(** ** Properties *)

Section client_facts.
Context `{JsonLoader} `{FloatPrinter}.
Implicit Types (net : http) (d : date).

(** What each request function does, by the answer of the service. *)
Lemma send_request_moonsun_oneday_spec net lat long d tz :
  send_request_moonsun_oneday net lat long d tz =
    Run [OutGet (oneday_url lat long d tz) []] (Return ()) ≫= λ _,
    match net (oneday_url lat long d tz) [] with
    | None => mthrow OSError
    | Some resp =>
        if decide (status_code resp = 200%Z) then py_json_loads (text resp)
        else Run [OutRich oneday_error] (Raise (SystemExit 1))
    end.
Proof.
  unfold send_request_moonsun_oneday, requests_get.
  destruct (net _ _) as [resp|]; py_simpl; [|done].
  case_decide as Hst.
  - by rewrite bool_decide_eq_false_2 by (by intros ?).
  - by rewrite bool_decide_eq_true_2.
Qed.

Lemma send_request_moonphases_spec net d :
  send_request_moonphases net d =
    Run [OutGet phases_url [("nump", "2"); ("date", date_str d)]] (Return ()) ≫= λ _,
    match net phases_url [("nump", "2"); ("date", date_str d)] with
    | None => mthrow OSError
    | Some resp =>
        if decide (status_code resp = 200%Z) then py_json_loads (text resp)
        else Run [OutRich phases_error] (Raise (SystemExit 1))
    end.
Proof.
  unfold send_request_moonphases, requests_get. cbv zeta.
  change (int_str 2) with "2".
  destruct (net _ _) as [resp|]; py_simpl; [|done].
  case_decide as Hst.
  - by rewrite bool_decide_eq_true_2.
  - by rewrite bool_decide_eq_false_2.
Qed.

(** A request the service answers with status 200 and a body [json.loads]
    accepts returns the document, having sent the request and printed
    nothing else. *)
Lemma send_request_moonsun_oneday_ok net lat long d tz body doc :
  net (oneday_url lat long d tz) [] = Some (Response 200 body) →
  json_loads body = Some doc →
  send_request_moonsun_oneday net lat long d tz =
    Run [OutGet (oneday_url lat long d tz) []] (Return doc).
Proof.
  intros Hnet Hdoc. rewrite send_request_moonsun_oneday_spec, Hnet. simpl.
  unfold py_json_loads. by rewrite Hdoc.
Qed.

Lemma send_request_moonphases_ok net d body doc :
  net phases_url [("nump", "2"); ("date", date_str d)] = Some (Response 200 body) →
  json_loads body = Some doc →
  send_request_moonphases net d =
    Run [OutGet phases_url [("nump", "2"); ("date", date_str d)]] (Return doc).
Proof.
  intros Hnet Hdoc. rewrite send_request_moonphases_spec, Hnet. simpl.
  unfold py_json_loads. by rewrite Hdoc.
Qed.

(** A request the service answers with another status prints the message
    and exits with status 1. *)
Lemma send_request_moonsun_oneday_rejected net lat long d tz resp :
  net (oneday_url lat long d tz) [] = Some resp → status_code resp ≠ 200%Z →
  send_request_moonsun_oneday net lat long d tz =
    Run [OutGet (oneday_url lat long d tz) []; OutRich oneday_error] (Raise (SystemExit 1)).
Proof.
  intros Hnet Hst. rewrite send_request_moonsun_oneday_spec, Hnet. by rewrite decide_False.
Qed.

Lemma send_request_moonphases_rejected net d resp :
  net phases_url [("nump", "2"); ("date", date_str d)] = Some resp →
  status_code resp ≠ 200%Z →
  send_request_moonphases net d =
    Run [OutGet phases_url [("nump", "2"); ("date", date_str d)]; OutRich phases_error]
      (Raise (SystemExit 1)).
Proof.
  intros Hnet Hst. rewrite send_request_moonphases_spec, Hnet. by rewrite decide_False.
Qed.

(** Each function sends its one request first; what it prints after it is
    a message. *)
Lemma send_request_moonsun_oneday_output net lat long d tz :
  ∃ o, output (send_request_moonsun_oneday net lat long d tz)
       = OutGet (oneday_url lat long d tz) [] :: o ∧
       Forall (λ ev, is_message ev = true) o.
Proof.
  rewrite send_request_moonsun_oneday_spec. destruct (net _ _) as [resp|]; [|by exists []].
  case_decide; [|by exists [OutRich oneday_error]; repeat constructor].
  unfold py_json_loads. destruct (json_loads _); by exists [].
Qed.

Lemma send_request_moonphases_output net d :
  ∃ o, output (send_request_moonphases net d)
       = OutGet phases_url [("nump", "2"); ("date", date_str d)] :: o ∧
       Forall (λ ev, is_message ev = true) o.
Proof.
  rewrite send_request_moonphases_spec. destruct (net _ _) as [resp|]; [|by exists []].
  case_decide; [|by exists [OutRich phases_error]; repeat constructor].
  unfold py_json_loads. destruct (json_loads _); by exists [].
Qed.

(** The requests print a request and messages, and their only exit is 1. *)
Lemma py_json_loads_tame E s : ValueError ∈ E → tame E (py_json_loads s).
Proof. intros HE. unfold py_json_loads. destruct (json_loads s); [apply tame_ret|by apply tame_throw]. Qed.

Lemma requests_get_confined P C net url params :
  P (OutGet url params) → confined P C (requests_get net url params).
Proof.
  intros HP. apply confined_Run; [by repeat constructor|].
  by destruct (net url params).
Qed.

Lemma send_request_moonsun_oneday_confined net lat long d tz :
  confined (λ ev, is_layout ev = false) [1]%Z (send_request_moonsun_oneday net lat long d tz).
Proof.
  unfold send_request_moonsun_oneday. apply confined_bind; [by apply requests_get_confined|].
  intros resp. apply confined_if; [solve_confined|].
  apply confined_errors, py_json_loads_tame. by_compute.
Qed.

Lemma send_request_moonphases_confined net d :
  confined (λ ev, is_layout ev = false) [1]%Z (send_request_moonphases net d).
Proof.
  unfold send_request_moonphases. apply confined_bind; [by apply requests_get_confined|].
  intros resp. apply confined_if; [solve_confined|].
  apply confined_errors, py_json_loads_tame. by_compute.
Qed.

End client_facts.
