(* ===== verification/Main.v ===== *)
(** The program: [main] (src/main.py lines 20-69) and [print_usage_msg]
    (lines 109-111), over a record of what the process is given. *)

From stdpp Require Import base tactics option list strings gmap.
From S2P Require Import Prelude PyBuiltins PyFloat FloatSyntax Json PyFormat.
From S2P Require Import Coords Phases Mapper Render Client.

(** What the process is given: its arguments, the size
    [get_terminal_size((80, 20))] reports, today's date, the service, and
    the content of phases.txt ([None] when it cannot be opened). *)
Record world : Type := World {
  argv : list string;
  terminal_size : Z * Z;
  today : date;
  network : http;
  art_file : option string;
}.

Definition usage_title : string :=
  "[bold medium_purple3]croon[/] - a terminal lunar/solar information display".

(** [--help] or [help] is among the arguments. *)
Definition help_asked (w : world) : Prop := "--help" ∈ argv w ∨ "help" ∈ argv w.

#[export] Instance help_asked_dec w : Decision (help_asked w).
Proof. unfold help_asked. apply _. Defined.

Section main.
Context `{FloatParser} `{FloatPrinter} `{JsonLoader} `{JsonPrinter} `{RichMarkup}.

(** [print_usage_msg()], lines 109-111. *)
Definition print_usage_msg : Py unit :=
  rprint usage_title;;
  rprint ("[bold blue]Usage: [/][blue]croon -c "
          +:+ markup_escape "[[latitude],[longitude]]").

(** [main()], lines 20-69. In the call of line 64 the arguments are
    evaluated from left to right: the art is selected before the layout is
    painted. *)
Definition main (w : world) : Py unit :=
  let args := argv w in
  if list_in "--help" (argv w) || list_in "help" (argv w)
  then print_usage_msg;; py_exit 0
  else
    '(lat, long) ← get_coord_args args;
    let time_zone := (-5)%Z in
    let '(term_width, term_height) := terminal_size w in
    let curr_date := today w in
    oneday_resp_json ← send_request_moonsun_oneday (network w) lat long curr_date time_zone;
    phase_resp_data ← send_request_moonphases (network w) curr_date;
    properties ← getitem_str oneday_resp_json "properties";
    oneday_data ← getitem_str properties "data";
    phase_data ← getitem_str phase_resp_data "phasedata";
    data ← format_moon_data oneday_data phase_data;
    text ← text_to_display data lat long curr_date;
    moon_phases ← get_moon_phases_art (art_file w);
    curphase ← getitem_str oneday_data "curphase";
    index ← phase_to_index curphase;
    moon_art ← list_getitem moon_phases index;
    print_rich_console moon_art text term_width 14.

(** The run of the help branch. *)
Definition usage_run : Py unit :=
  Run [ OutRich usage_title;
        OutRich ("[bold blue]Usage: [/][blue]croon -c "
                 +:+ markup_escape "[[latitude],[longitude]]") ]
    (Raise (SystemExit 0)).

(** Lines 37-65 of [main]: from the two responses to the art and the text
    that are handed to [print_rich_console]. *)
Definition compose (w : world) (lat long : pyfloat)
    (oneday_resp_json phase_resp_data : json) : Py (string * string) :=
  properties ← getitem_str oneday_resp_json "properties";
  oneday_data ← getitem_str properties "data";
  phase_data ← getitem_str phase_resp_data "phasedata";
  data ← format_moon_data oneday_data phase_data;
  text ← text_to_display data lat long (today w);
  moon_phases ← get_moon_phases_art (art_file w);
  curphase ← getitem_str oneday_data "curphase";
  index ← phase_to_index curphase;
  moon_art ← list_getitem moon_phases index;
  mret (moon_art, text).

(** Lines 26-65: the pipeline from the arguments to the art and the text. *)
Definition pipeline (w : world) : Py (string * string) :=
  '(lat, long) ← get_coord_args (argv w);
  oneday_resp_json ← send_request_moonsun_oneday (network w) lat long (today w) (-5);
  phase_resp_data ← send_request_moonphases (network w) (today w);
  compose w lat long oneday_resp_json phase_resp_data.

(** Lines 22-65: everything [main] does before it paints. *)
Definition prepare (w : world) : Py (string * string) :=
  if list_in "--help" (argv w) || list_in "help" (argv w)
  then print_usage_msg;; py_exit 0
  else pipeline w.

(** The two requests of a run that got as far as both. *)
Definition requests (w : world) (lat long : pyfloat) : list out_event :=
  [ OutGet (oneday_url lat long (today w) (-5)) [];
    OutGet phases_url [("nump", "2"); ("date", date_str (today w))] ].

(** The requests a run may send: none when help is asked or the
    coordinates are not read, else those of [requests] for the coordinates
    read. *)
Definition expected_requests (w : world) : list out_event :=
  if bool_decide (help_asked w) then []
  else match result (get_coord_args (argv w)) with
       | Return (lat, long) => requests w lat long
       | Raise _ => []
       end.

End main.

(** ** A sample run: the arguments [-c 42.1,-75.9], a terminal of 100
    columns, the sample responses of the mapper and the sample art. *)
Definition sample_oneday_doc : json :=
  jobj [ ("properties",
          jobj [ ("data", JObj (sample_data sample_sun_evs sample_moon_evs)) ]) ].
Definition sample_phases_doc : json :=
  jobj [ ("phasedata", JArr [sample_next_phase]) ].

#[local] Instance sample_loader : JsonLoader :=
  table_loader [ ("<oneday>", sample_oneday_doc); ("<phases>", sample_phases_doc);
                 ("<empty>", jobj []) ].

(** A service that answers the one-day request with [oneday] and the
    phases request with [phases]. *)
Definition service (oneday phases : response) : http := λ url params,
  Some (if bool_decide (url = phases_url) then phases else oneday).

Definition sample_network : http :=
  service (Response 200 "<oneday>") (Response 200 "<phases>").

Definition sample_world : world :=
  {| argv := ["croon"; "-c"; "42.1,-75.9"];
     terminal_size := (100, 40)%Z;
     today := Date 2026 11 8;
     network := sample_network;
     art_file := Some sample_art |}.

(** The sample world with a service that answers as given. *)
Definition sample_world_with (net : http) : world :=
  {| argv := ["croon"; "-c"; "42.1,-75.9"];
     terminal_size := (100, 40)%Z;
     today := Date 2026 11 8;
     network := net;
     art_file := Some sample_art |}.

(** The text of the sample run. *)
Definition sample_text : string :=
  str_join newline
    [ "[bold medium_purple]Date:[/] Sunday 11/8/2026";
      "[bold medium_purple]Coordinates: [/]42.1, -75.9";
      "[bold medium_purple]Current Phase:[/] First Quarter";
      "[bold medium_purple]Fracillum:[/] 52%";
      "[bold medium_purple]Next Phase: [/]Full Moon 11/24/2026 14:53";
      "[bold medium_purple]Moonrise:[/] 13:02";
      "[bold medium_purple]Moonset:[/] 23:58";
      "[bold medium_purple]Sunrise:[/] 06:50";
      "[bold medium_purple]Sunset:[/] 16:44";
      "[bold medium_purple]Dawn:[/] 06:21";
      "[bold medium_purple]Dusk:[/] 17:13" ].

(** ** Properties *)

Section main_facts.
Context `{FloatParser} `{FloatPrinter} `{JsonLoader} `{JsonPrinter} `{RichMarkup}.
Implicit Types (w : world) (lat long : pyfloat).

Lemma help_flag w :
  list_in "--help" (argv w) || list_in "help" (argv w) = bool_decide (help_asked w).
Proof.
  unfold help_asked, list_in.
  by rewrite <- bool_decide_or.
Qed.

(** [main] is its preparation followed by the painting. *)
Lemma main_prepare w :
  main w = '(art, text) ← prepare w; print_rich_console art text (terminal_size w).1 14.
Proof.
  unfold main, prepare, pipeline, compose. destruct (terminal_size w) as [tw th].
  destruct (_ || _).
  - unfold py_exit. by rewrite Py_bind_assoc.
  - rewrite Py_bind_assoc. apply Py_bind_ext. intros [lat long].
    repeat (rewrite Py_bind_assoc; apply Py_bind_ext; intros ?).
    by rewrite Py_bind_ret_l.
Qed.

Lemma main_help_run w : help_asked w → main w = usage_run.
Proof. intros Hh. unfold main. rewrite help_flag, bool_decide_eq_true_2 by done. done. Qed.

(** Without a help flag, [main] is the reading of the coordinates, the two
    requests, the composition and the painting, in this order. *)
Lemma prepare_pipeline w : ¬ help_asked w → prepare w = pipeline w.
Proof. intros Hh. unfold prepare. by rewrite help_flag, bool_decide_eq_false_2. Qed.

Lemma main_pipeline w :
  ¬ help_asked w →
  main w =
    '(lat, long) ← get_coord_args (argv w);
    oneday_resp_json ← send_request_moonsun_oneday (network w) lat long (today w) (-5);
    phase_resp_data ← send_request_moonphases (network w) (today w);
    '(art, text) ← compose w lat long oneday_resp_json phase_resp_data;
    print_rich_console art text (terminal_size w).1 14.
Proof.
  intros Hh. rewrite main_prepare, prepare_pipeline by done. unfold pipeline.
  rewrite Py_bind_assoc. apply Py_bind_ext. intros [lat long].
  rewrite Py_bind_assoc. apply Py_bind_ext. intros j1. by rewrite Py_bind_assoc.
Qed.

(** The composition prints messages only, and its only exit is 1. *)
Lemma compose_confined w lat long j1 j2 :
  confined (λ ev, is_message ev = true) [1]%Z (compose w lat long j1 j2).
Proof.
  unfold compose.
  repeat (apply confined_bind; [|intros ?]);
    auto using format_moon_data_confined, get_moon_phases_art_confined,
      phase_to_index_confined, confined_ret;
    try (apply confined_errors; solve_tame).
Qed.

(** Without a help flag, the preparation paints nothing and exits with 1
    if it exits. *)
Lemma pipeline_confined w : confined (λ ev, is_layout ev = false) [1]%Z (pipeline w).
Proof.
  unfold pipeline. apply confined_bind; [weaken_confined get_coord_args_confined|]. intros [lat long].
  apply confined_bind; [apply send_request_moonsun_oneday_confined|]. intros j1.
  apply confined_bind; [apply send_request_moonphases_confined|]. intros j2.
  weaken_confined compose_confined.
Qed.

Lemma prepare_confined w :
  confined (λ ev, is_layout ev = false) [0; 1]%Z (prepare w).
Proof.
  unfold prepare, print_usage_msg. apply confined_if; [solve_confined|].
  weaken_confined pipeline_confined.
Qed.

(** The composition, when each of its steps returns. *)
Lemma compose_runs w lat long doc1 doc2 props oneday phases data text arts cur o i art :
  getitem_str doc1 "properties" = mret props →
  getitem_str props "data" = mret oneday →
  getitem_str doc2 "phasedata" = mret phases →
  format_moon_data oneday phases = mret data →
  text_to_display data lat long (today w) = mret text →
  get_moon_phases_art (art_file w) = mret arts →
  getitem_str oneday "curphase" = mret cur →
  phase_to_index cur = Run o (Return i) →
  arts !! i = Some art →
  compose w lat long doc1 doc2 = Run o (Return (art, text)).
Proof.
  intros Hprops Hdata Hphases Hfmt Htext Harts Hcur Hidx Hart. unfold compose.
  rewrite Hprops, Py_bind_ret_l, Hdata, Py_bind_ret_l, Hphases, Py_bind_ret_l.
  rewrite Hfmt, Py_bind_ret_l, Htext, Py_bind_ret_l, Harts, Py_bind_ret_l.
  rewrite Hcur, Py_bind_ret_l, Hidx. py_simpl.
  rewrite (list_getitem_Some _ _ _ Hart). by py_simpl.
Qed.

(** Claim C3. A run in which every step succeeds: the two requests are
    sent, the one-day request first; the notice of [phase_to_index], if
    any, is printed; then the layout is painted once, the art selected by
    the current phase on the left in 30 columns, the text on the right in
    the remaining columns, 14 rows high; the run returns. *)
Theorem main_runs w lat long body1 body2 doc1 doc2 props oneday phases data text
    arts cur o i art :
  ¬ help_asked w →
  get_coord_args (argv w) = mret (lat, long) →
  network w (oneday_url lat long (today w) (-5)) [] = Some (Response 200 body1) →
  json_loads body1 = Some doc1 →
  network w phases_url [("nump", "2"); ("date", date_str (today w))]
    = Some (Response 200 body2) →
  json_loads body2 = Some doc2 →
  getitem_str doc1 "properties" = mret props →
  getitem_str props "data" = mret oneday →
  getitem_str doc2 "phasedata" = mret phases →
  format_moon_data oneday phases = mret data →
  text_to_display data lat long (today w) = mret text →
  get_moon_phases_art (art_file w) = mret arts →
  getitem_str oneday "curphase" = mret cur →
  phase_to_index cur = Run o (Return i) →
  arts !! i = Some art →
  main w = Run (requests w lat long ++ o ++
                [OutLayout (newline +:+ art) text 30 ((terminal_size w).1 - 30) 14])
             (Return tt).
Proof.
  intros Hh Hcoords Hnet1 Hdoc1 Hnet2 Hdoc2 ? ? ? ? ? ? ? ? ?.
  rewrite main_pipeline, Hcoords, Py_bind_ret_l by done.
  rewrite (send_request_moonsun_oneday_ok _ _ _ _ _ _ _ Hnet1 Hdoc1). py_simpl.
  rewrite (send_request_moonphases_ok _ _ _ _ Hnet2 Hdoc2). py_simpl.
  by rewrite (compose_runs w lat long doc1 doc2 props oneday phases data text arts cur o i art).
Qed.

(** Claim C2. End to end, on well-formed inputs: when the arguments give
    coordinates, the service answers both requests with status 200 and
    documents of the expected shape, the one-day data describe a record
    whose current phase is one of the eight phases, the first upcoming
    phase has its five fields and the art file has eight blocks, the
    program sends the two requests and paints, beside the block of the
    current phase, the eleven lines of the record; nothing else is
    printed. *)
Theorem main_displays w lat long body1 body2 d1 dp m d2 npm rest r p file ph mo dy yr tm :
  ¬ help_asked w →
  get_coord_args (argv w) = mret (lat, long) →
  network w (oneday_url lat long (today w) (-5)) [] = Some (Response 200 body1) →
  json_loads body1 = Some (JObj d1) →
  d1 !! "properties" = Some (JObj dp) → dp !! "data" = Some (JObj m) →
  network w phases_url [("nump", "2"); ("date", date_str (today w))]
    = Some (Response 200 body2) →
  json_loads body2 = Some (JObj d2) →
  d2 !! "phasedata" = Some (JArr (JObj npm :: rest)) →
  describes m (JObj npm) r → current_phase r = JStr (phase_name p) →
  npm !! "phase" = Some ph → npm !! "month" = Some mo → npm !! "day" = Some dy →
  npm !! "year" = Some yr → npm !! "time" = Some tm →
  art_file w = Some file → length (str_split art_separator file) = 8 →
  ∃ art,
    str_split art_separator file !! phase_index p = Some art ∧
    main w =
      Run (requests w lat long ++
           [OutLayout (newline +:+ art)
              (str_join newline (display_lines r lat long (today w) ph mo dy yr tm))
              30 ((terminal_size w).1 - 30) 14])
        (Return tt).
Proof.
  intros Hh Hcoords Hnet1 Hdoc1 Hprops Hdata Hnet2 Hdoc2 Hphases Hr Hcur
    Hph Hmo Hdy Hyr Htm Hfile Hlen.
  destruct (lookup_lt_is_Some_2 (str_split art_separator file) (phase_index p))
    as [art Hart]; [rewrite Hlen; apply phase_index_lt|].
  exists art. split; [done|].
  rewrite main_pipeline, Hcoords, Py_bind_ret_l by done.
  rewrite (send_request_moonsun_oneday_ok _ _ _ _ _ _ _ Hnet1 Hdoc1). py_simpl.
  rewrite (send_request_moonphases_ok _ _ _ _ Hnet2 Hdoc2). py_simpl.
  rewrite (compose_runs w lat long (JObj d1) (JObj d2) (JObj dp) (JObj m)
             (JArr (JObj npm :: rest)) r
             (str_join newline (display_lines r lat long (today w) ph mo dy yr tm))
             (str_split art_separator file) (JStr (phase_name p)) [] (phase_index p) art);
    [by py_simpl|..]; try done; try (by apply getitem_str_Some);
    [| | | |apply phase_to_index_name].
  - by apply format_moon_data_describes.
  - apply (text_to_display_fields _ _ _ _ npm); [exact (describes_next_phase _ _ _ Hr)|done..].
  - rewrite Hfile, get_moon_phases_art_Some. by rewrite decide_True.
  - apply getitem_str_Some. by rewrite (describes_curphase _ _ _ Hr), Hcur.
Qed.

(** Claim C17. With [--help] or [help] among the arguments the two usage
    lines are printed and the process exits with status 0; nothing is read,
    requested or painted. *)
Theorem main_help w :
  help_asked w → main w = usage_run ∧ exit_status (main w) = 0%Z.
Proof. intros Hh. by rewrite main_help_run. Qed.

(** Claim C6. The exit status of the program is 0 when help was asked or
    the run reached its end, and 1 in every other case. *)
Theorem main_exit_status w :
  exit_status (main w) = if bool_decide (help_asked w ∨ returns (main w) tt) then 0%Z else 1%Z.
Proof.
  destruct (decide (help_asked w)) as [Hh|Hh].
  { rewrite bool_decide_eq_true_2 by auto. by rewrite main_help_run. }
  assert (Hc : confined (λ _, True) [1]%Z (main w)).
  { rewrite main_prepare, prepare_pipeline by done. apply confined_bind.
    - eapply confined_weaken; [| |apply pipeline_confined]; done.
    - intros [art text]. apply confined_Run; [by repeat constructor|done]. }
  rewrite (confined_exit_status_1 _ _ Hc). case_bool_decide as Hb.
  - destruct Hb as [?|Hr]; [done|]. unfold returns in Hr. by rewrite Hr.
  - destruct (result (main w)) as [[]|e] eqn:Hr; [|done]. destruct Hb. by right.
Qed.

(** Claim C9. The layout is painted exactly in the runs that return: it is
    then the last thing the run does, once, with a left pane of 30 columns,
    a right pane of the terminal width less 30 and a height of 14; a run
    that ends in an exception or an exit has painted nothing. *)
Theorem main_paints_last w :
  match result (main w) with
  | Return _ =>
      ∃ o art text,
        output (main w) =
          o ++ [OutLayout (newline +:+ art) text 30 ((terminal_size w).1 - 30) 14] ∧
        Forall (λ ev, is_layout ev = false) o
  | Raise _ => Forall (λ ev, is_layout ev = false) (output (main w))
  end.
Proof.
  rewrite main_prepare. destruct (prepare_confined w) as [Ho _].
  destruct (prepare w) as [o [[art text]|e]]; simpl in *; py_simpl; simpl; [|done].
  by exists o, art, text.
Qed.

(** What is printed after the coordinates are read holds the requests of
    [requests], in order, as far as the run got. *)
Lemma filter_gets_messages o :
  Forall (λ ev, is_message ev = true) o → filter (λ ev, is_get ev = true) o = [].
Proof.
  intros Ho. apply (confined_filter (λ ev, is_message ev = true) [] is_get (Run o (Return tt))).
  - by split.
  - by intros [].
Qed.

Lemma present_no_gets w lat long j1 j2 :
  filter (λ ev, is_get ev = true)
    (output ('(art, text) ← compose w lat long j1 j2;
             print_rich_console art text (terminal_size w).1 14)) = [].
Proof.
  apply (confined_filter (λ ev, is_get ev = false) [1]%Z); [|done].
  apply confined_bind; [weaken_confined compose_confined|].
  intros [art text]. apply confined_Run; [by repeat constructor|done].
Qed.

(** Past the help check and with the coordinates read, the requests sent
    are those of [requests], in order, as far as the run got. *)
Lemma main_requests_after_args w lat long :
  ¬ help_asked w → get_coord_args (argv w) = mret (lat, long) →
  filter (λ ev, is_get ev = true) (output (main w)) `prefix_of` requests w lat long ∧
  (returns (main w) tt →
   filter (λ ev, is_get ev = true) (output (main w)) = requests w lat long).
Proof.
  intros Hh Hcoords. unfold returns.
  rewrite main_pipeline, Hcoords, Py_bind_ret_l by done.
  destruct (send_request_moonsun_oneday_output (network w) lat long (today w) (-5))
    as (o1 & Ho1 & Hm1%filter_gets_messages).
  destruct (send_request_moonphases_output (network w) (today w))
    as (o2 & Ho2 & Hm2%filter_gets_messages).
  rewrite output_bind, Ho1. simpl. rewrite filter_cons_True, filter_app, Hm1 by done.
  destruct (result (send_request_moonsun_oneday _ _ _ _ _)) as [j1|e1] eqn:Hr1;
    rewrite result_bind, Hr1; simpl; [|split; [by eexists [_]|done]].
  rewrite output_bind, Ho2. simpl. rewrite filter_cons_True, filter_app, Hm2 by done.
  destruct (result (send_request_moonphases _ _)) as [j2|e2] eqn:Hr2;
    rewrite result_bind, Hr2; simpl; [|split; [by exists []|done]].
  by rewrite present_no_gets.
Qed.

(** Without coordinates nothing is requested. *)
Lemma main_no_requests w o e :
  ¬ help_asked w → get_coord_args (argv w) = Run o (Raise e) →
  filter (λ ev, is_get ev = true) (output (main w)) = [] ∧ ¬ returns (main w) tt.
Proof.
  intros Hh Hcoords. pose proof (get_coord_args_confined (argv w)) as [Ho _].
  rewrite main_pipeline, Hcoords by done. rewrite Hcoords in Ho. py_simpl.
  split; [by apply filter_gets_messages|done].
Qed.

(** Claim C11. In every run the program sends at most two requests, the
    one-day request first and the phases request second, each at most once
    and the second only after the first was answered; with a help flag, or
    when the coordinates are not read, it sends none; a run that returns
    has sent both. *)
Theorem main_requests_in_order w :
  filter (λ ev, is_get ev = true) (output (main w)) `prefix_of` expected_requests w ∧
  (returns (main w) tt →
   filter (λ ev, is_get ev = true) (output (main w)) = expected_requests w).
Proof.
  unfold expected_requests. case_bool_decide as Hh.
  { rewrite main_help_run by done. by split. }
  destruct (get_coord_args (argv w)) as [o [[lat long]|e]] eqn:Hcoords; simpl.
  - apply main_requests_after_args; [done|].
    apply get_coord_args_returns. unfold returns. by rewrite Hcoords.
  - destruct (main_no_requests w o e Hh Hcoords) as [-> Hr]. by split.
Qed.

(** Claim C14. When the service answers the one-day request with a status
    other than 200, the message is printed and the process exits with
    status 1; the phases request is not sent. *)
Theorem main_oneday_rejected w lat long resp :
  ¬ help_asked w → get_coord_args (argv w) = mret (lat, long) →
  network w (oneday_url lat long (today w) (-5)) [] = Some resp →
  status_code resp ≠ 200%Z →
  main w = Run [OutGet (oneday_url lat long (today w) (-5)) []; OutRich oneday_error]
             (Raise (SystemExit 1)).
Proof.
  intros Hh Hcoords Hnet Hst. rewrite main_pipeline, Hcoords, Py_bind_ret_l by done.
  by rewrite (send_request_moonsun_oneday_rejected _ _ _ _ _ _ Hnet Hst).
Qed.

(** Claim C21. When the service answers the phases request with a status
    other than 200, after the one-day request went well, the message is
    printed and the process exits with status 1. *)
Theorem main_phases_rejected w lat long body1 doc1 resp :
  ¬ help_asked w → get_coord_args (argv w) = mret (lat, long) →
  network w (oneday_url lat long (today w) (-5)) [] = Some (Response 200 body1) →
  json_loads body1 = Some doc1 →
  network w phases_url [("nump", "2"); ("date", date_str (today w))] = Some resp →
  status_code resp ≠ 200%Z →
  main w = Run (requests w lat long ++ [OutRich phases_error]) (Raise (SystemExit 1)).
Proof.
  intros Hh Hcoords Hnet1 Hdoc1 Hnet2 Hst.
  rewrite main_pipeline, Hcoords, Py_bind_ret_l by done.
  rewrite (send_request_moonsun_oneday_ok _ _ _ _ _ _ _ Hnet1 Hdoc1). py_simpl.
  by rewrite (send_request_moonphases_rejected _ _ _ Hnet2 Hst).
Qed.

(** Claim C22. A one-day document without the key "properties" ends the
    run in an uncaught KeyError after both requests: no message of the
    program is printed, and the status is 1. *)
Theorem main_unreported_shape_error w lat long body1 body2 d1 doc2 :
  ¬ help_asked w → get_coord_args (argv w) = mret (lat, long) →
  network w (oneday_url lat long (today w) (-5)) [] = Some (Response 200 body1) →
  json_loads body1 = Some (JObj d1) →
  network w phases_url [("nump", "2"); ("date", date_str (today w))]
    = Some (Response 200 body2) →
  json_loads body2 = Some doc2 →
  d1 !! "properties" = None →
  main w = Run (requests w lat long) (Raise KeyError) ∧ exit_status (main w) = 1%Z.
Proof.
  intros Hh Hcoords Hnet1 Hdoc1 Hnet2 Hdoc2 Hnone.
  rewrite main_pipeline, Hcoords, Py_bind_ret_l by done.
  rewrite (send_request_moonsun_oneday_ok _ _ _ _ _ _ _ Hnet1 Hdoc1). py_simpl.
  rewrite (send_request_moonphases_ok _ _ _ _ Hnet2 Hdoc2). py_simpl.
  unfold compose. by rewrite (getitem_str_None _ _ Hnone).
Qed.

End main_facts.

(** ** Runs in the sample world *)

(** The scenario: [-c 42.1,-75.9], current phase "First Quarter", next
    phase "Full Moon": the third block of the art is painted beside the
    text. *)
Lemma main_runs_witness :
  main sample_world =
    Run (requests sample_world default_coords.1 default_coords.2 ++ [] ++
         [OutLayout (newline +:+ "( first )") sample_text 30 (100 - 30) 14])
      (Return tt).
Proof.
  eapply (main_runs sample_world) with (body1 := "<oneday>") (body2 := "<phases>")
    (cur := JStr "First Quarter") (i := 2);
    first [by_compute | by vm_compute].
Defined.

(** The same scenario from the inputs alone. *)
Lemma main_displays_witness :
  ∃ art,
    str_split art_separator sample_art !! 2 = Some art ∧
    main sample_world =
      Run (requests sample_world default_coords.1 default_coords.2 ++
           [OutLayout (newline +:+ art) sample_text 30 (100 - 30) 14])
        (Return tt).
Proof.
  pose proof (main_displays sample_world default_coords.1 default_coords.2
    "<oneday>" "<phases>" _ _ (sample_data sample_sun_evs sample_moon_evs) _ _ []
    sample_almanac FirstQuarter sample_art
    (JStr "Full Moon") (JInt 11) (JInt 24) (JInt 2026) (JStr "14:53")
    ltac:(by_compute) ltac:(by vm_compute) eq_refl eq_refl eq_refl eq_refl
    eq_refl eq_refl eq_refl sample_describes eq_refl eq_refl eq_refl eq_refl
    eq_refl eq_refl eq_refl ltac:(by vm_compute)) as Hw.
  vm_compute in Hw. vm_compute. exact Hw.
Defined.

Lemma main_help_witness :
  main (World ["croon"; "-c"; "1,2"; "--help"] (80, 20)%Z (Date 2026 11 8)
          sample_network None)
    = usage_run ∧
  exit_status (main (World ["croon"; "-c"; "1,2"; "--help"] (80, 20)%Z (Date 2026 11 8)
                       sample_network None)) = 0%Z.
Proof. apply main_help. left. by_compute. Defined.

Lemma main_oneday_rejected_witness :
  main (sample_world_with (service (Response 503 "") (Response 200 "<phases>")))
  = Run [ OutGet "https://aa.usno.navy.mil/api/rstt/oneday?coords=42.1,-75.9&date=2026-11-8&tz=-5" [];
          OutRich oneday_error ]
      (Raise (SystemExit 1)).
Proof.
  vm_cast_no_check
    (main_oneday_rejected
       (sample_world_with (service (Response 503 "") (Response 200 "<phases>")))
       default_coords.1 default_coords.2 (Response 503 "")
       ltac:(by_compute) ltac:(by vm_compute) eq_refl ltac:(done)).
Defined.

Lemma main_phases_rejected_witness :
  main (sample_world_with (service (Response 200 "<oneday>") (Response 404 "")))
  = Run (requests sample_world default_coords.1 default_coords.2
         ++ [OutRich phases_error])
      (Raise (SystemExit 1)).
Proof.
  eapply (main_phases_rejected
            (sample_world_with (service (Response 200 "<oneday>") (Response 404 ""))))
    with (body1 := "<oneday>"); first [by_compute | by vm_compute].
Defined.

Lemma main_unreported_shape_error_witness :
  main (sample_world_with (service (Response 200 "<empty>") (Response 200 "<phases>")))
    = Run (requests sample_world default_coords.1 default_coords.2) (Raise KeyError) ∧
  exit_status
    (main (sample_world_with (service (Response 200 "<empty>") (Response 200 "<phases>"))))
    = 1%Z.
Proof.
  eapply (main_unreported_shape_error
            (sample_world_with (service (Response 200 "<empty>") (Response 200 "<phases>"))))
    with (body1 := "<empty>") (body2 := "<phases>"); first [by_compute | by vm_compute].
Defined.
